(** * yinyouwo: attendance and billing ledger

    A shallow embedding of [main.py] (the [YinyouwoPlugin] class): the SQLite
    table [user_data], the two store operations [_get_user] and
    [_update_user], and the command handlers built on them.

    Numbers are Python floats (SQLite [REAL]), modelled by Rocq's primitive
    binary64 floats.  A Python [str] is held as its UTF-8 encoding, one
    [ascii] per byte, so that a message such as [充值 10001 5] is the text the
    handler receives.  [split] knows the white space of all of Unicode;
    [isdigit] and [float] are Python's on words in the ASCII range, which is
    what the statements about them assume of the words they are given (see
    [PyStr.isascii]). *)

From Stdlib Require Import ZArith List String Ascii Bool Floats Lia.
From Stdlib Require Import Sorted Permutation.
Import ListNotations.

Open Scope string_scope.
Open Scope list_scope.
Open Scope float_scope.

(** ** Exceptions a handler can let escape *)

Inductive exn :=
| ValueError
| OverflowError
| IntegrityError.

(** ** Python's float operations used by the plugin *)

Module PyFloat.

(** The integer [m * 2^e] or, for a negative exponent, the least integer
    not below [m / 2^-e]. *)
Definition ceil_scaled (m e : Z) : Z :=
  if (0 <=? e)%Z then (m * 2 ^ e)%Z else (- ((- m) / 2 ^ (- e)))%Z.

(** [math.ceil]: an [int]; [ValueError] on NaN and [OverflowError] on an
    infinity. *)
Definition math_ceil (x : float) : exn + Z :=
  match Prim2SF x with
  | S754_nan => inl ValueError
  | S754_infinity _ => inl OverflowError
  | S754_zero _ => inr 0%Z
  | S754_finite s m e => inr (ceil_scaled (cond_Zopp s (Zpos m)) e)
  end.

(** Conversion of an [int] operand in mixed arithmetic ([int * float]):
    the nearest float.  (Python raises on an [int] beyond the range of
    floats; the ceiling of a float is not one.) *)
Definition of_int (n : Z) : float :=
  SF2Prim (binary_normalize prec emax n 0 false).

(** The float nearest to [m * 10^e10] (ties to even), with the sign of
    zero given by [neg].  For a negative [e10] the quotient is computed to
    more than 64 bits and its last bit records whether the division left a
    remainder. *)
Definition of_decimal (neg : bool) (m e10 : Z) : float :=
  let sm := cond_Zopp neg in
  if (m =? 0)%Z then SF2Prim (S754_zero neg)
  else if (0 <=? e10)%Z then
    SF2Prim (binary_normalize prec emax (sm (m * 10 ^ e10)%Z) 0 neg)
  else
    let q := (10 ^ (- e10))%Z in
    let s := Z.max 0 (Z.log2 q - Z.log2 m + 64) in
    let n := (m * 2 ^ s)%Z in
    let sticky := if (n mod q =? 0)%Z then 0%Z else 1%Z in
    SF2Prim (binary_normalize prec emax (sm (2 * (n / q) + sticky)%Z)
               (- s - 1) neg).

End PyFloat.

(** ** Python's string operations used by the plugin *)

Module PyStr.

Definition is_digit (c : ascii) : bool :=
  let n := nat_of_ascii c in (48 <=? n)%nat && (n <=? 57)%nat.

Definition digit_val (c : ascii) : Z := Z.of_nat (nat_of_ascii c - 48).

(** [str.isascii]: every character is below U+0080. *)
Fixpoint isascii (s : string) : bool :=
  match s with
  | EmptyString => true
  | String c s' => (nat_of_ascii c <? 128)%nat && isascii s'
  end.

(** The white space that [float()] strips at both ends of an ASCII text
    ([Py_ISSPACE]): TAB, LF, VT, FF, CR and the space. *)
Definition is_space (c : ascii) : bool :=
  let n := nat_of_ascii c in
  ((9 <=? n)%nat && (n <=? 13)%nat) || (n =? 32)%nat.

(** The number of bytes of the white-space character that [s] begins with,
    0 when it begins with none.  The white space of [str.split()] is that
    of [str.isspace]: U+0009 to U+000D, U+001C to U+0020, U+0085, U+00A0,
    U+1680, U+2000 to U+200A, U+2028, U+2029, U+202F, U+205F and U+3000,
    matched here in UTF-8. *)
Definition space_width (s : string) : nat :=
  match s with
  | EmptyString => 0
  | String a s1 =>
      let x := nat_of_ascii a in
      if ((9 <=? x) && (x <=? 13))%nat || ((28 <=? x) && (x <=? 32))%nat then 1
      else
        match s1 with
        | EmptyString => 0
        | String b s2 =>
            let y := nat_of_ascii b in
            if ((x =? 194) && ((y =? 133) || (y =? 160)))%nat then 2
            else
              match s2 with
              | EmptyString => 0
              | String c _ =>
                  let z := nat_of_ascii c in
                  if ((x =? 225) && (y =? 154) && (z =? 128))%nat then 3
                  else if ((x =? 226) && (y =? 128)
                           && (((128 <=? z) && (z <=? 138)) || (z =? 168)
                               || (z =? 169) || (z =? 175)))%nat then 3
                  else if ((x =? 226) && (y =? 129) && (z =? 159))%nat then 3
                  else if ((x =? 227) && (y =? 128) && (z =? 128))%nat then 3
                  else 0
              end
        end
  end.

(** [str.isdigit]: at least one character, all of them digits.  On a text
    in the ASCII range the digits are [0] to [9]; elsewhere Python asks the
    Unicode database (a fullwidth digit is a digit), which is not modelled:
    a text with a character outside ASCII is not a digit string here. *)
Fixpoint all_digits (s : string) : bool :=
  match s with
  | EmptyString => true
  | String c s' => is_digit c && all_digits s'
  end.

Definition isdigit (s : string) : bool :=
  match s with
  | EmptyString => false
  | _ => all_digits s
  end.

(** [str.split()] with no separator: the maximal runs of characters that
    are not white space.  [cur] is the run being read, reversed; [skip]
    counts the bytes still to pass of a white-space character of several
    bytes. *)
Definition flush (cur : list ascii) (acc : list string) : list string :=
  match cur with
  | [] => acc
  | _ => string_of_list_ascii (rev cur) :: acc
  end.

Fixpoint split_aux (s : string) (skip : nat) (cur : list ascii)
  : list string :=
  match s with
  | EmptyString => flush cur []
  | String c s' =>
      match skip with
      | S k => split_aux s' k cur
      | O =>
          match space_width s with
          | O => split_aux s' 0 (c :: cur)
          | S k => flush cur (split_aux s' k [])
          end
      end
  end.

Definition split (s : string) : list string := split_aux s 0 [].

(** [s.endswith(c)] for a one-character suffix. *)
Fixpoint endswith (s : string) (c : ascii) : bool :=
  match s with
  | EmptyString => false
  | String d EmptyString => Ascii.eqb d c
  | String _ s' => endswith s' c
  end.

(** [s.strip(c)]: every leading and trailing [c] removed. *)
Fixpoint lstrip (c : ascii) (l : list ascii) : list ascii :=
  match l with
  | d :: l' => if Ascii.eqb d c then lstrip c l' else l
  | [] => []
  end.

Definition strip (s : string) (c : ascii) : string :=
  string_of_list_ascii
    (rev (lstrip c (rev (lstrip c (list_ascii_of_string s))))).

(** White space stripped at both ends, as [float()] does first on an ASCII
    text. *)
Fixpoint lstrip_space (l : list ascii) : list ascii :=
  match l with
  | d :: l' => if is_space d then lstrip_space l' else l
  | [] => []
  end.

Definition strip_space (l : list ascii) : list ascii :=
  rev (lstrip_space (rev (lstrip_space l))).

Definition lower (c : ascii) : ascii :=
  let n := nat_of_ascii c in
  if (65 <=? n)%nat && (n <=? 90)%nat then ascii_of_nat (n + 32) else c.

End PyStr.

(** ** [float(str)] *)

Module PyParse.
Import PyStr.

(** Underscores are accepted between two digits only, and dropped. *)
Fixpoint drop_underscores (prev_digit : bool) (l : list ascii)
  : option (list ascii) :=
  match l with
  | [] => Some []
  | c :: l' =>
      if Ascii.eqb c "_" then
        match l' with
        | d :: _ =>
            if prev_digit && is_digit d then drop_underscores false l'
            else None
        | [] => None
        end
      else option_map (cons c) (drop_underscores (is_digit c) l')
  end.

(** An optional sign. *)
Definition take_sign (l : list ascii) : bool * list ascii :=
  match l with
  | c :: l' =>
      if Ascii.eqb c "-" then (true, l')
      else if Ascii.eqb c "+" then (false, l')
      else (false, l)
  | [] => (false, [])
  end.

(** The longest prefix of digits, accumulated onto [acc]: its value, the
    number of digits read, and the rest. *)
Fixpoint take_digits (l : list ascii) (acc : Z) (n : Z)
  : Z * Z * list ascii :=
  match l with
  | c :: l' =>
      if is_digit c then take_digits l' (10 * acc + digit_val c)%Z (n + 1)%Z
      else (acc, n, l)
  | [] => (acc, n, [])
  end.

(** The exponent part: empty, or [e]/[E], an optional sign and at least
    one digit, up to the end of the text. *)
Definition take_exponent (l : list ascii) : option Z :=
  match l with
  | [] => Some 0%Z
  | c :: l' =>
      if Ascii.eqb (lower c) "e" then
        let '(neg, l1) := take_sign l' in
        match take_digits l1 0 0 with
        | (v, n, []) =>
            if (n =? 0)%Z then None else Some (cond_Zopp neg v)
        | _ => None
        end
      else None
  end.

(** A decimal numeral: digits with an optional fraction, or a fraction
    alone, then the exponent part. *)
Definition parse_decimal (neg : bool) (l : list ascii) : option float :=
  let '(ip, ni, l1) := take_digits l 0 0 in
  let '(m, nf, l2) :=
    match l1 with
    | c :: l1' =>
        if Ascii.eqb c "." then
          let '(m, n, l2) := take_digits l1' ip 0 in (m, n, l2)
        else (ip, 0%Z, l1)
    | [] => (ip, 0%Z, [])
    end in
  if (ni + nf =? 0)%Z then None
  else
    match take_exponent l2 with
    | Some e => Some (PyFloat.of_decimal neg m (e - nf))
    | None => None
    end.

Definition parse_signed (l : list ascii) : option float :=
  let '(neg, l1) := take_sign l in
  let word := string_of_list_ascii (map lower l1) in
  if (word =? "inf")%string || (word =? "infinity")%string then
    Some (if neg then neg_infinity else infinity)
  else if (word =? "nan")%string then Some nan
  else parse_decimal neg l1.

(** [float(s)] for a text in the ASCII range; [None] stands for the
    [ValueError] it raises.  (On other texts Python first turns Unicode
    white space into spaces and Unicode decimal digits into ASCII ones;
    here such a text does not parse.) *)
Definition float (s : string) : option float :=
  match drop_underscores false (strip_space (list_ascii_of_string s)) with
  | Some l => parse_signed l
  | None => None
  end.

End PyParse.


(** ** Configuration *)

Definition HOURLY_FEE : float := 6.0.
Definition GRACE_PERIOD_SECONDS : float := 120.
Definition ADMIN_IDS : list string := ["2331103944"; "87654321"].
Definition FEE_PER_30_MINS : float := HOURLY_FEE / 2.

(** ** The table [user_data] *)

(** One row: [qq] is the primary key, [joined_at] is [NULL] while the user
    is not checked in. *)
Record user_data := mkUser {
  qq : string;
  balance : float;
  joined_at : option float;
  total_time : float;
  today_date : string;
  today_consumption : float;
  discount : float
}.

(** The rows, in the order they were inserted. *)
Definition store := list user_data.

(** The [updates] dictionary handed to [_update_user]: the columns the
    handlers assign, each present or absent. *)
Record updates := mkUpdates {
  set_balance : option float;
  set_joined_at : option (option float);
  set_total_time : option float;
  set_today_consumption : option float;
  set_discount : option float
}.

Definition or_else {A} (o : option A) (d : A) : A :=
  match o with Some a => a | None => d end.

(** [user.update(updates)] *)
Definition dict_update (u : user_data) (upd : updates) : user_data :=
  {| qq := qq u;
     balance := or_else (set_balance upd) (balance u);
     joined_at := or_else (set_joined_at upd) (joined_at u);
     total_time := or_else (set_total_time upd) (total_time u);
     today_date := today_date u;
     today_consumption := or_else (set_today_consumption upd) (today_consumption u);
     discount := or_else (set_discount upd) (discount u) |}.

Module Sql.

(** [SELECT * FROM user_data WHERE qq=?] followed by [fetchone]. *)
Definition select_user (q : string) (st : store) : option user_data :=
  find (fun u => (qq u =? q)%string) st.

(** [INSERT INTO user_data(qq, today_date, discount) VALUES(?,?,?)]: the
    other columns take their defaults. *)
Definition insert_user (q today : string) (d : float) (st : store) : store :=
  st ++ [ {| qq := q; balance := 0; joined_at := None; total_time := 0;
             today_date := today; today_consumption := 0; discount := d |} ].

(** [UPDATE user_data SET ... WHERE qq=?] *)
Definition update_where (q : string) (f : user_data -> user_data) (st : store) : store :=
  map (fun u => if (qq u =? q)%string then f u else u) st.

(** [UPDATE user_data SET today_date=?, today_consumption=? WHERE qq=?]
    with the values [(today, 0.0)], on one row. *)
Definition rollover (today : string) (u : user_data) : user_data :=
  {| qq := qq u; balance := balance u; joined_at := joined_at u;
     total_time := total_time u; today_date := today;
     today_consumption := 0.0; discount := discount u |}.

(** SQLite binds a NaN as [NULL]. *)
Definition bind_real (x : option float) : option float :=
  match x with
  | Some v => if is_nan v then None else Some v
  | None => None
  end.

(** The [NOT NULL] constraints that [_init_db] puts on the [REAL] columns:
    a NaN bound to one of them makes the statement fail. *)
Definition not_null (u : user_data) : bool :=
  negb (is_nan (balance u)) && negb (is_nan (total_time u))
  && negb (is_nan (today_consumption u)) && negb (is_nan (discount u)).

(** The row that [UPDATE user_data SET balance=?, joined_at=?,
    total_time=?, today_date=?, today_consumption=?, discount=? WHERE qq=?]
    leaves in place of [u], the values being those of the dictionary
    [user].  (SQLite keeps a [REAL] that is a whole number as an integer, so
    that a negative zero is read back as [0.0]: a table read from SQLite
    holds none, and the rows are taken not to hold one.  Nothing stated
    below depends on the sign of a zero.) *)
Definition write_row (user u : user_data) : user_data :=
  {| qq := qq u; balance := balance user;
     joined_at := bind_real (joined_at user);
     total_time := total_time user; today_date := today_date user;
     today_consumption := today_consumption user;
     discount := discount user |}.

(** [ORDER BY balance DESC]: a row goes after the rows with a strictly
    larger balance.  The query names no second key; rows with equal
    balances are taken in table order. *)
Fixpoint insert_desc (u : user_data) (l : list user_data) : list user_data :=
  match l with
  | [] => [u]
  | v :: l' => if balance u <? balance v then v :: insert_desc u l' else u :: l
  end.

Definition order_by_balance_desc (st : store) : list user_data :=
  fold_right insert_desc [] st.

End Sql.

(** ** Outcomes of the handlers

    The handlers answer with formatted text; an outcome keeps the message
    kind and the values the text is built from. *)

Inductive op_type :=
| Charge   (* the credit command *)
| Deduct.  (* the debit command *)

Inductive result :=
| ServiceError
| NoUid
| AlreadyAttending
| AttendOk (balance : float)
| NotAttending
| LeaveWaived
| LeaveInsufficient (final_fee balance : float)
| LeaveOk (duration final_fee today_consumption balance : float)
| PermissionDenied
| UsageError
| QQFormatError
| AmountFormatError
| DeductInsufficient (balance amount : float)
| AdminOk (target_qq : string) (action : op_type) (amount balance : float)
| DiscountFormatError
| DiscountOk (target_qq : string) (rate : float)
| RankEmpty
| RankLines (lines : list (string * float))
| Raised (e : exn).

(** ** Handlers as sequences of locked sections

    Every [async with _LOCK] block is one [Locked] step: it runs on the
    store without interruption.  Between two steps of one handler the lock
    is released and taken again. *)

#[local] Unset Elimination Schemes.
Inductive prog :=
| Ret (r : result)
| Locked (body : store -> store * prog).
#[local] Set Elimination Schemes.

(** A handler run alone. *)
Fixpoint run (p : prog) (st : store) : store * result :=
  match p with
  | Ret r => (st, r)
  | Locked body => let (st', p') := body st in run p' st'
  end.

(** The number of locked sections a handler goes through from [st]. *)
Fixpoint sections (p : prog) (st : store) : nat :=
  match p with
  | Ret _ => 0
  | Locked body => let (st', p') := body st in S (sections p' st')
  end.

(** ** The account store *)

(** [_get_user]: one locked section.  [today] is the value of [_today()]
    while the section runs.  It returns the row as a dictionary, after
    creating it when absent and after the daily rollover, both committed. *)
Definition _get_user (q today : string) (st : store) : store * user_data :=
  let (st1, user) :=
    match Sql.select_user q st with
    | Some row => (st, row)
    | None =>
        (Sql.insert_user q today 1.0 st,
         {| qq := q; balance := 0.0; joined_at := None; total_time := 0.0;
            today_date := today; today_consumption := 0.0; discount := 1.0 |})
    end in
  if negb (today_date user =? today)%string then
    (Sql.update_where q (Sql.rollover today) st1, Sql.rollover today user)
  else (st1, user).

(** [_update_user]: one locked section.  The row is read again, the updates
    are laid over it and all its columns are written back.  A missing row
    raises [ValueError]; a NaN in a [NOT NULL] column makes the statement
    fail; in both cases nothing is committed. *)
Definition _update_user (q : string) (upd : updates) (st : store)
  : store * (exn + user_data) :=
  match Sql.select_user q st with
  | None => (st, inl ValueError)
  | Some row =>
      let user := dict_update row upd in
      if Sql.not_null user then
        (Sql.update_where (qq user) (Sql.write_row user) st, inr user)
      else (st, inl IntegrityError)
  end.

(** [user = await self._get_user(qq)] and what follows it. *)
Definition get_then (q today : string) (k : user_data -> prog) : prog :=
  Locked (fun st => let (st1, user) := _get_user q today st in (st1, k user)).

(** [updated_user = await self._update_user(qq, updates)] and the answer
    built from it; an exception leaves the handler. *)
Definition update_then (q : string) (upd : updates) (k : user_data -> result) : prog :=
  Locked (fun st =>
    match _update_user q upd st with
    | (st1, inr updated_user) => (st1, Ret (k updated_user))
    | (st1, inl e) => (st1, Ret (Raised e))
    end).

(** ** Command handlers *)

(** An inbound event: the sender's identity as the transport adapter
    resolves it (empty when it cannot), and the message text. *)
Record event := mkEvent {
  sender_id : string;
  message_str : string
}.

Definition _get_uid (evt : event) : string := sender_id evt.

Definition is_admin (q : string) : bool :=
  existsb (fun a => (a =? q)%string) ADMIN_IDS.

(** [init] is [initialized_successfully]; [today] and [now] are the values
    [_today()] and [time.time()] return during the call. *)
Definition cmd_attend (init : bool) (evt : event) (today : string) (now : float)
  : prog :=
  if negb init then Ret ServiceError else
  let q := _get_uid evt in
  if (q =? "")%string then Ret NoUid else
  get_then q today (fun user =>
    match joined_at user with
    | Some _ => Ret AlreadyAttending
    | None =>
        update_then q
          {| set_balance := None; set_joined_at := Some (Some now);
             set_total_time := None; set_today_consumption := None;
             set_discount := None |}
          (fun _ => AttendOk (balance user))
    end).

(** [cmd_leave] after its load: what it decides from the dictionary [user]
    and, on the two paths that write, the write. *)
Definition leave_decision (q : string) (now : float) (user : user_data) : prog :=
  match joined_at user with
  | None => Ret NotAttending
  | Some joined =>
      let duration := now - joined in
      if duration <=? GRACE_PERIOD_SECONDS then
        update_then q
          {| set_balance := None; set_joined_at := Some None;
             set_total_time := None; set_today_consumption := None;
             set_discount := None |}
          (fun _ => LeaveWaived)
      else
        match PyFloat.math_ceil (duration / 1800) with
        | inl e => Ret (Raised e)
        | inr billing_units =>
            let base_fee := PyFloat.of_int billing_units * FEE_PER_30_MINS in
            let final_fee := base_fee * discount user in
            if balance user <? final_fee then
              Ret (LeaveInsufficient final_fee (balance user))
            else
              update_then q
                {| set_balance := Some (balance user - final_fee);
                   set_joined_at := Some None;
                   set_total_time := Some (total_time user + duration);
                   set_today_consumption :=
                     Some (today_consumption user + final_fee);
                   set_discount := None |}
                (fun updated_user =>
                   LeaveOk duration final_fee
                     (today_consumption updated_user) (balance updated_user))
        end
  end.

Definition cmd_leave (init : bool) (evt : event) (today : string) (now : float)
  : prog :=
  if negb init then Ret ServiceError else
  let q := _get_uid evt in
  if (q =? "")%string then Ret NoUid else
  get_then q today (leave_decision q now).

(** [SELECT qq, balance FROM user_data ORDER BY balance DESC LIMIT 10] *)
Definition rank_rows (st : store) : list (string * float) :=
  map (fun u => (qq u, balance u)) (firstn 10 (Sql.order_by_balance_desc st)).

Definition cmd_rank (init : bool) : prog :=
  if negb init then Ret ServiceError else
  Locked (fun st =>
    (st, Ret match rank_rows st with
             | [] => RankEmpty
             | lines => RankLines lines
             end)).

(** [_admin_op] after its load: the new balance, or the refusal of a debit
    above the balance, and the write. *)
Definition admin_decision (target_qq : string) (op : op_type) (amount : float)
    (user : user_data) : prog :=
  let set_to := fun new_balance =>
    update_then target_qq
      {| set_balance := Some new_balance; set_joined_at := None;
         set_total_time := None; set_today_consumption := None;
         set_discount := None |}
      (fun updated_user => AdminOk target_qq op amount (balance updated_user)) in
  match op with
  | Charge => set_to (balance user + amount)
  | Deduct =>
      if balance user <? amount then
        Ret (DeductInsufficient (balance user) amount)
      else set_to (balance user - amount)
  end.

Definition _admin_op (evt : event) (op : op_type) (today : string) : prog :=
  let op_qq := _get_uid evt in
  if negb (is_admin op_qq) then Ret PermissionDenied else
  match PyStr.split (message_str evt) with
  | [_; target_qq; amount_str] =>
      if negb (PyStr.isdigit target_qq) then Ret QQFormatError else
      match PyParse.float amount_str with
      | None => Ret AmountFormatError
      | Some amount =>
          if amount <=? 0 then Ret AmountFormatError else
          get_then target_qq today (admin_decision target_qq op amount)
      end
  | _ => Ret UsageError
  end.

(** The [try] block of [_admin_op] ends in the [except] branch: [float()]
    raised, or the amount is [<= 0]. *)
Definition amount_rejected (amount_str : string) : bool :=
  match PyParse.float amount_str with
  | None => true
  | Some amount => amount <=? 0
  end.

Definition cmd_charge (init : bool) (evt : event) (today : string) : prog :=
  if negb init then Ret ServiceError else _admin_op evt Charge today.

Definition cmd_deduct (init : bool) (evt : event) (today : string) : prog :=
  if negb init then Ret ServiceError else _admin_op evt Deduct today.

(** The rate a discount argument denotes: a percentage when it ends in a
    percent sign, a plain number otherwise; [None] when [float()] raises. *)
Definition parse_rate (discount_str : string) : option float :=
  if PyStr.endswith discount_str "%" then
    option_map (fun x => x / 100.0) (PyParse.float (PyStr.strip discount_str "%"))
  else PyParse.float discount_str.

(** The [try] block of [cmd_discount] ends in the [except] branch:
    [float()] raised, or the rate is not in (0, 1]. *)
Definition rate_rejected (discount_str : string) : bool :=
  match parse_rate discount_str with
  | None => true
  | Some rate => negb ((0.0 <? rate) && (rate <=? 1.0))
  end.

Definition cmd_discount (init : bool) (evt : event) (today : string) : prog :=
  if negb init then Ret ServiceError else
  let op_qq := _get_uid evt in
  if negb (is_admin op_qq) then Ret PermissionDenied else
  match PyStr.split (message_str evt) with
  | [_; target_qq; discount_str] =>
      if negb (PyStr.isdigit target_qq) then Ret QQFormatError else
      match parse_rate discount_str with
      | None => Ret DiscountFormatError
      | Some rate =>
          if negb ((0.0 <? rate) && (rate <=? 1.0)) then Ret DiscountFormatError
          else
            get_then target_qq today (fun _ =>
              update_then target_qq
                {| set_balance := None; set_joined_at := None;
                   set_total_time := None; set_today_consumption := None;
                   set_discount := Some rate |}
                (fun _ => DiscountOk target_qq rate))
      end
  | _ => Ret UsageError
  end.

(** ** Two handlers in flight

    The handlers run on one asyncio event loop, which takes a handler off
    the thread only at an [await] that has to wait.  The awaits of a handler
    are its entries into [_LOCK] (in [_get_user], in [_update_user], or
    around its own query), and [asyncio.Lock.acquire] returns at once when
    the lock is free.  The lock is free whenever a handler reaches it:
    nothing is awaited while it is held, the [sqlite3] calls being
    synchronous.  So a handler that has started goes through all its locked
    sections before the other starts, and two handlers launched together
    run in one of the two orders. *)

Inductive both_run : store * prog * prog -> store * result * result -> Prop :=
| first_then_second (st : store) (p1 p2 : prog) :
    both_run (st, p1, p2)
      (fst (run p2 (fst (run p1 st))), snd (run p1 st),
       snd (run p2 (fst (run p1 st))))
| second_then_first (st : store) (p1 p2 : prog) :
    both_run (st, p1, p2)
      (fst (run p1 (fst (run p2 st))), snd (run p1 (fst (run p2 st))),
       snd (run p2 st)).

(** A handler that answers [r] with no locked section: it neither reads nor
    writes the table. *)
Definition answers_unlocked (p : prog) (r : result) : Prop :=
  p = Ret r
  /\ forall st : store, run p st = (st, r) /\ sections p st = 0%nat.

(** ** Schema constraints on the rows *)

(** The [NOT NULL] columns hold numbers and [joined_at] is [NULL] or a
    number: what SQLite can have stored. *)
Definition valid_row (u : user_data) : bool :=
  Sql.not_null u
  && match joined_at u with Some j => negb (is_nan j) | None => true end.

Definition consistent (st : store) : bool := forallb valid_row st.

(** The shapes the handlers have: an answer, a load followed by a handler,
    a write followed by an answer, a query followed by an answer. *)
Inductive handler : prog -> Prop :=
| handler_ret (r : result) : handler (Ret r)
| handler_get (q today : string) (k : user_data -> prog) :
    (forall user, handler (k user)) -> handler (get_then q today k)
| handler_update (q : string) (upd : updates) (k : user_data -> result) :
    handler (update_then q upd k)
| handler_query (f : store -> result) :
    handler (Locked (fun st => (st, Ret (f st)))).

(** ** The ceiling and the fee as the specification writes them

    [exact_ratio x] is a fraction [(num, den)], with [den > 0], whose value
    is exactly the number that the float [x] stands for,
    [(-1)^s * m * 2^e]; [is_ceiling x n] says that the integer [n] is the
    least one not below that number: [n - 1 < num / den <= n]. *)
Definition exact_ratio (x : float) : option (Z * Z) :=
  match Prim2SF x with
  | S754_zero _ => Some (0, 1)%Z
  | S754_finite s m e =>
      Some (cond_Zopp s (Zpos m) * 2 ^ Z.max 0 e, 2 ^ Z.max 0 (- e))%Z
  | _ => None
  end.

Definition is_ceiling (x : float) (n : Z) : Prop :=
  match exact_ratio x with
  | Some (num, den) => ((n - 1) * den < num /\ num <= n * den)%Z
  | None => False
  end.

(** [units * (hourlyRate / 2) * discount], to be compared with what
    [cmd_leave] computes and charges. *)
Definition spec_fee (units : Z) (hourlyRate d : float) : float :=
  PyFloat.of_int units * (hourlyRate / 2) * d.



(** ** The rows a check-out leaves

    [waived_row user] is [user] with the session closed; [charged_row user
    duration fee] is [user] with the session closed, [fee] moved from the
    balance to the day's consumption and [duration] added to the total
    time. *)
Definition waived_row (user : user_data) : user_data :=
  {| qq := qq user; balance := balance user; joined_at := None;
     total_time := total_time user; today_date := today_date user;
     today_consumption := today_consumption user; discount := discount user |}.

Definition charged_row (user : user_data) (duration fee : float) : user_data :=
  {| qq := qq user; balance := balance user - fee; joined_at := None;
     total_time := total_time user + duration; today_date := today_date user;
     today_consumption := today_consumption user + fee;
     discount := discount user |}.


(** The dictionary that a load on the day [today] returns for the stored
    row [row]: the row itself on the day stored with it, and otherwise the
    row with the day rolled over. *)
Definition loaded (today : string) (row : user_data) : user_data :=
  if (today_date row =? today)%string then row else Sql.rollover today row.

(** A row with another value for the day's consumption. *)
Definition with_consumption (c : float) (u : user_data) : user_data :=
  {| qq := qq u; balance := balance u; joined_at := joined_at u;
     total_time := total_time u; today_date := today_date u;
     today_consumption := c; discount := discount u |}.

(** ** Concrete stores and events used to exercise the handlers *)

Module Scenario.

Definition admin : string := "87654321".

(** Clock readings: 10:00:00 and 23:58:20 on 1 May 2024 (UTC). *)
Definition morning : float := 1714557600.
Definition late : float := 1714607900.

(** A user with a session open since late on 1 May, who has already spent
    6.0 that day and has 1.0 left. *)
Definition poor : user_data :=
  {| qq := "10001"; balance := 1.0; joined_at := Some late;
     total_time := 3600; today_date := "2024-05-01";
     today_consumption := 6.0; discount := 1.0 |}.

Definition low_balance : store := [poor].

(** The same user with 10.0 left. *)
Definition night_owl : user_data :=
  {| qq := "10001"; balance := 10.0; joined_at := Some late;
     total_time := 3600; today_date := "2024-05-01";
     today_consumption := 6.0; discount := 1.0 |}.

Definition open_overnight : store := [night_owl].

(** A user with a session open since the morning and 10.0 left, next to an
    idle one at half price. *)
Definition rich : user_data :=
  {| qq := "10001"; balance := 10.0; joined_at := Some morning;
     total_time := 3600; today_date := "2024-05-01";
     today_consumption := 6.0; discount := 1.0 |}.

Definition idle : user_data :=
  {| qq := "10002"; balance := 2.5; joined_at := None;
     total_time := 0; today_date := "2024-05-01";
     today_consumption := 0; discount := 0.5 |}.

Definition two_users : store := [rich; idle].

(** The first user with exactly the fee of one hour left. *)
Definition exact : user_data :=
  {| qq := "10001"; balance := 6.0; joined_at := Some morning;
     total_time := 3600; today_date := "2024-05-01";
     today_consumption := 6.0; discount := 1.0 |}.

Definition one_fee : store := [exact].

(** A user whose balance, one tenth, is not a binary fraction. *)
#[warnings="-inexact-float"]
Definition one_tenth : store :=
  [ {| qq := "10003"; balance := 0.1; joined_at := None;
       total_time := 0; today_date := "2024-05-01";
       today_consumption := 0; discount := 1.0 |} ].

(** A user who checked in at time 0 with 10.0, at the discount [d]. *)
Definition fresh (d : float) : store :=
  [ {| qq := "10001"; balance := 10.0; joined_at := Some 0;
       total_time := 0; today_date := "2024-05-01";
       today_consumption := 0; discount := d |} ].

(** A message from user 10001 (its text is not read by check-in and
    check-out). *)
Definition from_10001 : event := mkEvent "10001" "leave".

End Scenario.

(** ** The order of the ranking *)

(** [desc u v]: row [u] may stand before row [v] in [ORDER BY balance
    DESC]. *)
Definition desc (u v : user_data) : Prop := (balance v <=? balance u) = true.

(** The balance of a row is a number. *)
Definition number (u : user_data) : Prop := is_nan (balance u) = false.

(** The same order on the pairs the query selects. *)
Definition desc_line (a b : string * float) : Prop := (snd b <=? snd a) = true.

(** A table of fifteen accounts, two pairs of them with equal balances. *)
Module Fifteen.

Definition account (q : string) (b : float) : user_data :=
  {| qq := q; balance := b; joined_at := None; total_time := 0;
     today_date := "2024-05-01"; today_consumption := 0; discount := 1.0 |}.

Definition table : store :=
  [ account "101" 12; account "102" 3; account "103" 45; account "104" 7.5;
    account "105" 45; account "106" 0; account "107" 19; account "108" 3;
    account "109" 80; account "110" 1.5; account "111" 33; account "112" 6;
    account "113" 21; account "114" 9; account "115" 64 ].

End Fifteen.

(** * The rest of the plugin: time formatting and the query handlers *)

From Stdlib Require Import DecimalString.

(** ** Python's integers as the plugin uses them *)

Module PyInt.

(** The integer part of [m * 2^e] for a positive [m]. *)
Definition trunc_scaled (m e : Z) : Z :=
  if (0 <=? e)%Z then (m * 2 ^ e)%Z else (m / 2 ^ (- e))%Z.

(** [int(x)] on a float: the fraction is dropped; [ValueError] on NaN and
    [OverflowError] on an infinity. *)
Definition of_float (x : float) : exn + Z :=
  match Prim2SF x with
  | S754_nan => inl ValueError
  | S754_infinity _ => inl OverflowError
  | S754_zero _ => inr 0%Z
  | S754_finite s m e => inr (cond_Zopp s (trunc_scaled (Zpos m) e))
  end.

(** [divmod(a, b)] on integers: the quotient rounded down and the
    remainder. *)
Definition divmod (a b : Z) : Z * Z := ((a / b)%Z, (a mod b)%Z).

(** The decimal text of an integer, as an f-string prints it. *)
Definition str (n : Z) : string := NilZero.string_of_int (Z.to_int n).

End PyInt.

(** The parts [_format_time] joins: hours and minutes when they are not
    zero, then seconds. *)
Definition time_parts (h m s : Z) : list string :=
  (if (h =? 0)%Z then [] else [(PyInt.str h ++ "小时")%string])
  ++ (if (m =? 0)%Z then [] else [(PyInt.str m ++ "分钟")%string])
  ++ [(PyInt.str s ++ "秒")%string].

(** [_format_time]: a duration in seconds as hours, minutes and seconds.  A
    negative duration counts as 0; [int()] raises on NaN and infinities. *)
Definition _format_time (seconds : float) : exn + string :=
  match (if seconds <? 0 then inr 0%Z else PyInt.of_float seconds) with
  | inl e => inl e
  | inr n =>
      let (h, rem) := PyInt.divmod n 3600 in
      let (m, s) := PyInt.divmod rem 60 in
      let parts := time_parts h m s in
      inr (match parts with
           | [] => "0秒"
           | _ => String.concat "" parts
           end)
  end.

(** ** Answers of the query handlers *)

Inductive reply :=
| ReplyServiceError
| ReplyNoUid
| BalanceLine (q : string) (balance : float)
| InfoLines (q : string) (attending : bool) (balance : float)
    (discount_shown : option float) (today_consumption : float)
    (total_time : string)
| ListEmpty
| ListLines (lines : list (string * string))
| ReplyRaised (e : exn).

(** The truth value Python gives [user["joined_at"]]: [None] and zero are
    false. *)
Definition truthy (x : option float) : bool :=
  match x with
  | Some v => negb (v =? 0)
  | None => false
  end.

(** [cmd_info]: one load, then the lines built from the dictionary. *)
Definition cmd_info (init : bool) (evt : event) (today : string) (st : store)
  : store * reply :=
  if negb init then (st, ReplyServiceError) else
  let q := _get_uid evt in
  if (q =? "")%string then (st, ReplyNoUid) else
  let (st1, user) := _get_user q today st in
  let status := truthy (joined_at user) in
  let discount_rate := discount user in
  let discount_str := if discount_rate <? 1.0 then Some discount_rate else None in
  (st1,
   match _format_time (total_time user) with
   | inl e => ReplyRaised e
   | inr text =>
       InfoLines q status (balance user) discount_str (today_consumption user)
         text
   end).

(** [cmd_balance]: one load, then the balance. *)
Definition cmd_balance (init : bool) (evt : event) (today : string) (st : store)
  : store * reply :=
  if negb init then (st, ReplyServiceError) else
  let q := _get_uid evt in
  if (q =? "")%string then (st, ReplyNoUid) else
  let (st1, user) := _get_user q today st in
  (st1, BalanceLine q (balance user)).

Module SqlList.

(** [SELECT qq, joined_at FROM user_data WHERE joined_at IS NOT NULL] *)
Fixpoint open_sessions (st : store) : list (string * float) :=
  match st with
  | [] => []
  | u :: st' =>
      match joined_at u with
      | Some j => (qq u, j) :: open_sessions st'
      | None => open_sessions st'
      end
  end.

(** [ORDER BY joined_at ASC]: a row goes after the rows with a strictly
    smaller value; rows with equal values are taken in table order. *)
Fixpoint insert_asc (r : string * float) (l : list (string * float))
  : list (string * float) :=
  match l with
  | [] => [r]
  | v :: l' => if snd v <? snd r then v :: insert_asc r l' else r :: l
  end.

Definition order_by_joined_asc (rows : list (string * float))
  : list (string * float) :=
  fold_right insert_asc [] rows.

End SqlList.

(** The lines of [cmd_list], built in order; the first [_format_time] that
    raises ends the handler. *)
Fixpoint list_lines (now : float) (rows : list (string * float))
  : exn + list (string * string) :=
  match rows with
  | [] => inr []
  | row :: rows' =>
      match _format_time (now - snd row) with
      | inl e => inl e
      | inr text =>
          match list_lines now rows' with
          | inl e => inl e
          | inr lines => inr ((fst row, text) :: lines)
          end
      end
  end.

(** [cmd_list]: [now] is read first, then one locked section runs the query
    and builds the lines. *)
Definition cmd_list (init : bool) (now : float) (st : store) : store * reply :=
  if negb init then (st, ReplyServiceError) else
  (st,
   match list_lines now
           (SqlList.order_by_joined_asc (SqlList.open_sessions st)) with
   | inl e => ReplyRaised e
   | inr [] => ListEmpty
   | inr lines => ListLines lines
   end).

(** ** Notions used to state what the handlers keep *)

(** The primary keys of the table, in table order. *)
Definition keys (st : store) : list string := map qq st.

(** Handlers whose loads and writes all name the account [q]. *)
Inductive handler_on (q : string) : prog -> Prop :=
| on_ret (r : result) : handler_on q (Ret r)
| on_get (today : string) (k : user_data -> prog) :
    (forall user, handler_on q (k user)) -> handler_on q (get_then q today k)
| on_update (upd : updates) (k : user_data -> result) :
    handler_on q (update_then q upd k)
| on_query (f : store -> result) :
    handler_on q (Locked (fun st => (st, Ret (f st)))).

(** No balance in the table is below zero. *)
Definition solvent (st : store) : bool :=
  forallb (fun u => 0 <=? balance u) st.

(** Ascending order of the session starts. *)
Definition asc (a b : string * float) : Prop := (snd a <=? snd b) = true.

(** [st'] has the accounts of [st], in the same order, and possibly new
    ones after them; if the keys of [st] are distinct, so are those of
    [st']. *)
Definition extends (st st' : store) : Prop :=
  (exists extra, keys st' = keys st ++ extra)
  /\ (NoDup (keys st) -> NoDup (keys st')).

(** The row a check-in at [now] leaves for [user]. *)
Definition started_row (user : user_data) (now : float) : user_data :=
  {| qq := qq user; balance := balance user; joined_at := Some now;
     total_time := total_time user; today_date := today_date user;
     today_consumption := today_consumption user; discount := discount user |}.

(** The row an admin command leaves for [user] with the balance [b]. *)
Definition with_balance (b : float) (user : user_data) : user_data :=
  {| qq := qq user; balance := b; joined_at := joined_at user;
     total_time := total_time user; today_date := today_date user;
     today_consumption := today_consumption user; discount := discount user |}.

(** The row a set-discount command leaves for [user] with the rate [r]. *)
Definition with_discount (r : float) (user : user_data) : user_data :=
  {| qq := qq user; balance := balance user; joined_at := joined_at user;
     total_time := total_time user; today_date := today_date user;
     today_consumption := today_consumption user; discount := r |}.


(** Handlers that keep the balances at or above zero: a balance they write
    is computed from a load, and when it can be stored it is not below
    zero, provided the balance loaded was not. *)
Inductive keeps_solvent : prog -> Prop :=
| ks_ret (r : result) : keeps_solvent (Ret r)
| ks_get (q today : string) (k : user_data -> prog) :
    (forall user, (0 <=? balance user) = true -> keeps_solvent (k user)) ->
    keeps_solvent (get_then q today k)
| ks_update (q : string) (upd : updates) (k : user_data -> result) :
    (forall b, set_balance upd = Some b -> is_nan b = false ->
               (0 <=? b) = true) ->
    keeps_solvent (update_then q upd k)
| ks_query (f : store -> result) :
    keeps_solvent (Locked (fun st => (st, Ret (f st)))).

(** The words that follow the command word are in the ASCII range, where
    [isdigit] and [float] are Python's. *)
Definition ascii_operands (evt : event) : bool :=
  forallb PyStr.isascii (tl (PyStr.split (message_str evt))).

(** A text with a character of the ASCII range that is not a digit. *)
Fixpoint has_ascii_non_digit (s : string) : bool :=
  match s with
  | EmptyString => false
  | String c s' =>
      ((nat_of_ascii c <? 128)%nat && negb (PyStr.is_digit c))
      || has_ascii_non_digit s'
  end.

(** An amount as the answer of [_admin_op] asks for it: a number above
    zero.  [not_positive_number] holds of a text that [float()] refuses or
    reads as something that is not above zero, a NaN included. *)
Definition not_positive_number (amount_str : string) : bool :=
  match PyParse.float amount_str with
  | None => true
  | Some amount => negb (0 <? amount)
  end.
Module FloatOrder.

Lemma SFcompare_refl (x : spec_float) :
  x <> S754_nan -> SFcompare x x = Some Eq.
Proof.
  destruct x as [s|s| |s m e]; simpl; intros H; try congruence;
    destruct s; try reflexivity;
    rewrite Z.compare_refl, Pos.compare_cont_refl; reflexivity.
Qed.

Lemma is_nan_spec (x : float) :
  is_nan x = false <-> Prim2SF x <> S754_nan.
Proof.
  unfold is_nan. rewrite eqb_spec. unfold SFeqb. split.
  - intros H E. rewrite E in H. discriminate.
  - intros H. rewrite (SFcompare_refl _ H). reflexivity.
Qed.

Ltac cmp_cases :=
  repeat match goal with
  | |- context [Z.compare ?a ?b] => destruct (Z.compare_spec a b)
  | H : context [Z.compare ?a ?b] |- _ => destruct (Z.compare_spec a b)
  | |- context [Pos.compare ?a ?b] => destruct (Pos.compare_spec a b)
  | H : context [Pos.compare ?a ?b] |- _ => destruct (Pos.compare_spec a b)
  end; simpl in *; try reflexivity; try discriminate; try lia.

Lemma SFleb_total (x y : spec_float) :
  x <> S754_nan -> y <> S754_nan -> SFltb x y = false -> SFleb y x = true.
Proof.
  unfold SFltb, SFleb.
  destruct x as [s|s| |s m e], y as [t|t| |t n f]; simpl;
    intros Hx Hy; try congruence; try (destruct s); try (destruct t);
    simpl; try reflexivity; try discriminate;
    change (Pos.compare_cont Eq) with Pos.compare; cmp_cases.
Qed.

Lemma SFleb_trans (x y z : spec_float) :
  SFleb x y = true -> SFleb y z = true -> SFleb x z = true.
Proof.
  unfold SFleb.
  destruct x as [s|s| |s m e], y as [t|t| |t n f], z as [r|r| |r k g]; simpl;
    try discriminate; try reflexivity;
    try (destruct s); try (destruct t); try (destruct r);
    simpl; try reflexivity; try discriminate;
    change (Pos.compare_cont Eq) with Pos.compare; cmp_cases.
Qed.

Lemma SFltb_leb (x y : spec_float) : SFltb x y = true -> SFleb x y = true.
Proof.
  unfold SFltb, SFleb. destruct (SFcompare x y) as [[ | | ]|]; congruence.
Qed.

Lemma SFeqb_not_ltb (x y v : spec_float) :
  SFeqb x v = true -> SFeqb y v = true -> SFltb x y = false.
Proof.
  unfold SFeqb, SFltb.
  destruct x as [s|s| |s m e], y as [t|t| |t n f], v as [r|r| |r k g]; simpl;
    try discriminate; try reflexivity;
    try (destruct s); try (destruct t); try (destruct r);
    simpl; try reflexivity; try discriminate;
    change (Pos.compare_cont Eq) with Pos.compare; cmp_cases.
Qed.

Lemma leb_total (x y : float) :
  is_nan x = false -> is_nan y = false -> (x <? y) = false -> (y <=? x) = true.
Proof.
  rewrite !is_nan_spec, ltb_spec, leb_spec. apply SFleb_total.
Qed.

Lemma leb_trans (x y z : float) :
  (x <=? y) = true -> (y <=? z) = true -> (x <=? z) = true.
Proof. rewrite !leb_spec. apply SFleb_trans. Qed.

Lemma ltb_leb (x y : float) : (x <? y) = true -> (x <=? y) = true.
Proof. rewrite ltb_spec, leb_spec. apply SFltb_leb. Qed.

Lemma eqb_not_ltb (x y v : float) :
  (x =? v) = true -> (y =? v) = true -> (x <? y) = false.
Proof. rewrite !eqb_spec, ltb_spec. apply SFeqb_not_ltb. Qed.

Lemma ltb_not_nan (x y : float) :
  (x <? y) = true -> is_nan x = false /\ is_nan y = false.
Proof.
  rewrite !is_nan_spec, ltb_spec. unfold SFltb.
  destruct (Prim2SF x), (Prim2SF y); simpl; try discriminate;
    intros _; split; discriminate.
Qed.

Lemma ltb_not_leb (x y : float) : (x <? y) = true -> (y <=? x) = false.
Proof.
  rewrite ltb_spec, leb_spec. unfold SFltb, SFleb.
  destruct (Prim2SF x) as [s|s| |s m e], (Prim2SF y) as [t|t| |t n f]; simpl;
    try discriminate; try reflexivity;
    try (destruct s); try (destruct t);
    simpl; try reflexivity; try discriminate;
    change (Pos.compare_cont Eq) with Pos.compare; cmp_cases.
Qed.

Lemma is_infinity_spec (x : float) (s : bool) :
  is_infinity x = false -> Prim2SF x <> S754_infinity s.
Proof.
  unfold is_infinity. rewrite eqb_spec, abs_spec. intros H E.
  rewrite E in H. vm_compute in H. discriminate.
Qed.


(** What [math.ceil] returns is the least integer not below its argument,
    and it returns on every argument that has one. *)
Lemma math_ceil_is_ceiling (x : float) (n : Z) :
  PyFloat.math_ceil x = inr n -> is_ceiling x n.
Proof.
  unfold PyFloat.math_ceil, is_ceiling, exact_ratio.
  destruct (Prim2SF x) as [s|s| |s m e]; try discriminate;
    intros H; injection H as <-.
  - lia.
  - unfold PyFloat.ceil_scaled.
    destruct (Z.leb_spec 0 e) as [He|He].
    + rewrite (Z.max_r 0 e) by lia. rewrite (Z.max_l 0 (- e)) by lia.
      change (2 ^ 0)%Z with 1%Z.
      set (w := (cond_Zopp s (Zpos m) * 2 ^ e)%Z). lia.
    + rewrite (Z.max_l 0 e) by lia. rewrite (Z.max_r 0 (- e)) by lia.
      change (2 ^ 0)%Z with 1%Z.
      assert (Hp : (0 < 2 ^ (- e))%Z) by (apply Z.pow_pos_nonneg; lia).
      set (p := (2 ^ (- e))%Z) in *. set (v := cond_Zopp s (Zpos m)).
      pose proof (Z.div_mod (- v) p ltac:(lia)) as Hd.
      pose proof (Z.mod_pos_bound (- v) p Hp) as Hm. nia.
Qed.

Lemma is_ceiling_unique (x : float) (n n' : Z) :
  is_ceiling x n -> is_ceiling x n' -> n = n'.
Proof.
  unfold is_ceiling, exact_ratio.
  destruct (Prim2SF x) as [s|s| |s m e]; try contradiction.
  - lia.
  - assert (Hp : (0 < 2 ^ Z.max 0 (- e))%Z) by (apply Z.pow_pos_nonneg; lia).
    set (p := (2 ^ Z.max 0 (- e))%Z) in *. intros [A B] [A' B']. nia.
Qed.

Lemma is_ceiling_math_ceil (x : float) (n : Z) :
  is_ceiling x n -> PyFloat.math_ceil x = inr n.
Proof.
  intros H.
  assert (Hd : exists n', PyFloat.math_ceil x = inr n').
  { unfold is_ceiling, exact_ratio in H. unfold PyFloat.math_ceil.
    destruct (Prim2SF x); try contradiction; eexists; reflexivity. }
  destruct Hd as [n' Hn']. rewrite Hn'.
  rewrite (is_ceiling_unique x n n' H (math_ceil_is_ceiling x n' Hn')).
  reflexivity.
Qed.

End FloatOrder.

Lemma is_nan_true (x : float) : is_nan x = true -> Prim2SF x = S754_nan.
Proof.
  intros H. destruct (Prim2SF x) eqn:E; try reflexivity;
    assert (Hn : is_nan x = false)
      by (apply FloatOrder.is_nan_spec; rewrite E; discriminate);
    congruence.
Qed.

(** A NaN operand makes a sum, a difference and a comparison what IEEE 754
    says: NaN, NaN and false. *)
Lemma nan_absorbs (x a : float) :
  is_nan a = true ->
  is_nan (x + a) = true /\ is_nan (x - a) = true
  /\ (x <? a) = false /\ (a <=? 0) = false /\ (0 <? a) = false.
Proof.
  intros H. apply is_nan_true in H.
  unfold is_nan. rewrite !eqb_spec, !ltb_spec, leb_spec, add_spec, sub_spec, H.
  repeat split; destruct (Prim2SF x) as [[|]|[|]| |[|] m e]; reflexivity.
Qed.

(** ** The builtins on small inputs *)

Module PyExamples.
Import PyFloat PyStr PyParse.
#[local] Set Warnings "-inexact-float".

Example ceil_2000 : math_ceil (2000 / 1800) = inr 2%Z.
Proof. vm_compute. reflexivity. Qed.

Example ceil_exact : math_ceil (3600 / 1800) = inr 2%Z.
Proof. vm_compute. reflexivity. Qed.

Example ceil_neg : math_ceil (-2.5) = inr (-2)%Z.
Proof. vm_compute. reflexivity. Qed.

Example ceil_nan : math_ceil nan = inl ValueError.
Proof. vm_compute. reflexivity. Qed.

Example of_int_2 : of_int 2 = 2.
Proof. vm_compute. reflexivity. Qed.

Example float_tenth : float "0.1" = Some 0.1.
Proof. vm_compute. reflexivity. Qed.

Example float_exp : float "-1_0.25e-1" = Some (-1.025).
Proof. vm_compute. reflexivity. Qed.

Example float_big :
  float "123456789012345678901234567890" = Some 123456789012345678901234567890.
Proof. vm_compute. reflexivity. Qed.

Example float_small : float "4.9e-324" = Some 4.9e-324.
Proof. vm_compute. reflexivity. Qed.

Example float_third :
  float ".3333333333333333333333333" = Some 0.3333333333333333333333333.
Proof. vm_compute. reflexivity. Qed.

Example float_inf : float "+Infinity" = Some infinity.
Proof. vm_compute. reflexivity. Qed.

Example float_bad1 : float "1e" = None.
Proof. vm_compute. reflexivity. Qed.

Example float_bad2 : float "1__0" = None.
Proof. vm_compute. reflexivity. Qed.

Example float_bad3 : float "abc" = None.
Proof. vm_compute. reflexivity. Qed.

Example float_bad4 : float "." = None.
Proof. vm_compute. reflexivity. Qed.

Example split_3 : split "  deduct 12345	 10.5 " = ["deduct"; "12345"; "10.5"].
Proof. vm_compute. reflexivity. Qed.

Example strip_pct : strip "%50%%" "%" = "50".
Proof. vm_compute. reflexivity. Qed.

(** The ideographic space U+3000 and the no-break space U+00A0 separate
    words; the zero-width space U+200B does not. *)
Example split_wide : split "充值　10001 5" = ["充值"; "10001"; "5"].
Proof. vm_compute. reflexivity. Qed.

Example split_zero_width : split "充值​10001" = ["充值​10001"].
Proof. vm_compute. reflexivity. Qed.

Example isdigit_mixed : isdigit "10x01" = false /\ isdigit "" = false.
Proof. split; reflexivity. Qed.

Example ceil_1800 :
  is_ceiling (1800 / 1800) 1 /\ is_ceiling (1801 / 1800) 2
  /\ ~ is_ceiling (1800 / 1800) 2.
Proof.
  split; [|split]; vm_compute;
    try (split; [reflexivity|discriminate]).
  intros [H _]. discriminate H.
Qed.

End PyExamples.

(** ** Facts about the table operations *)

Section StoreFacts.

Variable q : string.

Lemma select_user_qq (st : store) (row : user_data) :
  Sql.select_user q st = Some row -> qq row = q.
Proof.
  unfold Sql.select_user. intros H. apply find_some in H.
  apply String.eqb_eq. exact (proj2 H).
Qed.

Lemma select_user_In (st : store) (row : user_data) :
  Sql.select_user q st = Some row -> In row st.
Proof. intros H. apply find_some in H. exact (proj1 H). Qed.

Variable f : user_data -> user_data.
Hypothesis f_qq : forall u, qq (f u) = qq u.

Lemma select_update_where_same (st : store) :
  Sql.select_user q (Sql.update_where q f st)
  = option_map f (Sql.select_user q st).
Proof.
  induction st as [|u st IH]; simpl; [reflexivity|].
  destruct (qq u =? q)%string eqn:E; simpl.
  - rewrite f_qq, E. reflexivity.
  - rewrite E. exact IH.
Qed.

Lemma select_update_where_other (q' : string) (st : store) :
  q' <> q ->
  Sql.select_user q' (Sql.update_where q f st) = Sql.select_user q' st.
Proof.
  intros Hne. induction st as [|u st IH]; simpl; [reflexivity|].
  destruct (qq u =? q)%string eqn:E; simpl.
  - rewrite f_qq. apply String.eqb_eq in E.
    destruct (qq u =? q')%string eqn:E'; [|exact IH].
    apply String.eqb_eq in E'. congruence.
  - rewrite IH. reflexivity.
Qed.

Lemma consistent_update_where (st : store) :
  (forall u, valid_row u = true -> qq u = q -> valid_row (f u) = true) ->
  consistent st = true -> consistent (Sql.update_where q f st) = true.
Proof.
  intros Hf. unfold consistent. induction st as [|u st IH]; simpl; [trivial|].
  rewrite !andb_true_iff. intros [Hu Hst]. split; [|exact (IH Hst)].
  destruct (qq u =? q)%string eqn:E; [|exact Hu].
  apply Hf; [exact Hu|]. apply String.eqb_eq. exact E.
Qed.

Lemma length_update_where (st : store) :
  List.length (Sql.update_where q f st) = List.length st.
Proof. apply length_map. Qed.

End StoreFacts.

Lemma consistent_select (q : string) (st : store) (row : user_data) :
  consistent st = true -> Sql.select_user q st = Some row -> valid_row row = true.
Proof.
  unfold consistent. rewrite forallb_forall. intros H Hs.
  apply H. exact (select_user_In q st row Hs).
Qed.

Lemma select_insert_same (q today : string) (d : float) (st : store) :
  Sql.select_user q st = None ->
  Sql.select_user q (Sql.insert_user q today d st)
  = Some {| qq := q; balance := 0; joined_at := None; total_time := 0;
            today_date := today; today_consumption := 0; discount := d |}.
Proof.
  unfold Sql.select_user, Sql.insert_user.
  induction st as [|u st IH]; simpl.
  - rewrite String.eqb_refl. reflexivity.
  - destruct (qq u =? q)%string; [discriminate|exact IH].
Qed.

Lemma select_insert_other (q q' today : string) (d : float) (st : store) :
  q' <> q ->
  Sql.select_user q' (Sql.insert_user q today d st) = Sql.select_user q' st.
Proof.
  intros Hne. unfold Sql.select_user, Sql.insert_user.
  induction st as [|u st IH]; simpl.
  - destruct (q =? q')%string eqn:E; [|reflexivity].
    apply String.eqb_eq in E. congruence.
  - destruct (qq u =? q')%string; [reflexivity|exact IH].
Qed.

Lemma consistent_insert (q today : string) (st : store) :
  consistent st = true -> consistent (Sql.insert_user q today 1.0 st) = true.
Proof.
  unfold consistent, Sql.insert_user. rewrite forallb_app. intros ->. reflexivity.
Qed.

(** ** Facts about [_get_user] and [_update_user] *)

Lemma get_user_existing (q today : string) (st : store) (row : user_data) :
  Sql.select_user q st = Some row ->
  _get_user q today st
  = if (today_date row =? today)%string then (st, row)
    else (Sql.update_where q (Sql.rollover today) st, Sql.rollover today row).
Proof.
  intros H. unfold _get_user. rewrite H.
  destruct (today_date row =? today)%string; reflexivity.
Qed.

Lemma get_user_new (q today : string) (st : store) :
  Sql.select_user q st = None ->
  _get_user q today st
  = (Sql.insert_user q today 1.0 st,
     {| qq := q; balance := 0.0; joined_at := None; total_time := 0.0;
        today_date := today; today_consumption := 0.0; discount := 1.0 |}).
Proof.
  intros H. unfold _get_user. rewrite H. simpl.
  rewrite String.eqb_refl. reflexivity.
Qed.

(** The dictionary [_get_user] returns is the row it leaves in the table. *)
Lemma get_user_select (q today : string) (st : store) :
  Sql.select_user q (fst (_get_user q today st))
  = Some (snd (_get_user q today st)).
Proof.
  destruct (Sql.select_user q st) as [row|] eqn:H.
  - rewrite (get_user_existing _ _ _ _ H).
    destruct (today_date row =? today)%string; simpl; [exact H|].
    rewrite select_update_where_same by reflexivity. rewrite H. reflexivity.
  - rewrite (get_user_new _ _ _ H). simpl. apply select_insert_same. exact H.
Qed.

Lemma get_user_other (q q' today : string) (st : store) :
  q' <> q ->
  Sql.select_user q' (fst (_get_user q today st)) = Sql.select_user q' st.
Proof.
  intros Hne. destruct (Sql.select_user q st) as [row|] eqn:H.
  - rewrite (get_user_existing _ _ _ _ H).
    destruct (today_date row =? today)%string; simpl; [reflexivity|].
    apply select_update_where_other; [reflexivity|exact Hne].
  - rewrite (get_user_new _ _ _ H). simpl. apply select_insert_other. exact Hne.
Qed.

Lemma valid_row_rollover (today : string) (u : user_data) :
  valid_row u = true -> valid_row (Sql.rollover today u) = true.
Proof.
  unfold valid_row, Sql.not_null. simpl. rewrite !andb_true_iff.
  intros [[[[Hb Ht] _] Hd] Hj]. repeat split; assumption.
Qed.

Lemma get_user_consistent (q today : string) (st : store) :
  consistent st = true -> consistent (fst (_get_user q today st)) = true.
Proof.
  intros Hc. destruct (Sql.select_user q st) as [row|] eqn:H.
  - rewrite (get_user_existing _ _ _ _ H).
    destruct (today_date row =? today)%string; simpl; [exact Hc|].
    apply consistent_update_where; [|exact Hc].
    intros u Hu _. apply valid_row_rollover. exact Hu.
  - rewrite (get_user_new _ _ _ H). simpl. apply consistent_insert. exact Hc.
Qed.

Lemma get_user_today (q today : string) (st : store) :
  today_date (snd (_get_user q today st)) = today.
Proof.
  destruct (Sql.select_user q st) as [row|] eqn:H.
  - rewrite (get_user_existing _ _ _ _ H).
    destruct (today_date row =? today)%string eqn:E; simpl; [|reflexivity].
    apply String.eqb_eq. exact E.
  - rewrite (get_user_new _ _ _ H). reflexivity.
Qed.

(** A second load on the same day reads the row and writes nothing. *)
Lemma get_user_again (q today : string) (st : store) (user : user_data) :
  Sql.select_user q st = Some user -> today_date user = today ->
  _get_user q today st = (st, user).
Proof.
  intros H Ht. rewrite (get_user_existing _ _ _ _ H).
  rewrite Ht, String.eqb_refl. reflexivity.
Qed.

Lemma update_user_ok (q : string) (upd : updates) (st : store) (row : user_data) :
  Sql.select_user q st = Some row ->
  Sql.not_null (dict_update row upd) = true ->
  _update_user q upd st
  = (Sql.update_where q (Sql.write_row (dict_update row upd)) st,
     inr (dict_update row upd)).
Proof.
  intros H Hn. unfold _update_user. rewrite H, Hn. simpl.
  rewrite (select_user_qq _ _ _ H). reflexivity.
Qed.

Lemma update_user_null (q : string) (upd : updates) (st : store) (row : user_data) :
  Sql.select_user q st = Some row ->
  Sql.not_null (dict_update row upd) = false ->
  _update_user q upd st = (st, inl IntegrityError).
Proof. intros H Hn. unfold _update_user. rewrite H, Hn. reflexivity. Qed.

Lemma bind_real_valid (x : option float) :
  match Sql.bind_real x with Some j => negb (is_nan j) | None => true end = true.
Proof.
  destruct x as [v|]; simpl; [|reflexivity].
  destruct (is_nan v) eqn:E; simpl; [reflexivity|]. rewrite E. reflexivity.
Qed.

Lemma update_user_consistent (q : string) (upd : updates) (st : store) :
  consistent st = true -> consistent (fst (_update_user q upd st)) = true.
Proof.
  intros Hc. unfold _update_user.
  destruct (Sql.select_user q st) as [row|]; [|exact Hc].
  destruct (Sql.not_null (dict_update row upd)) eqn:Hn; [|exact Hc].
  simpl. apply consistent_update_where; [|exact Hc].
  intros u _ _. unfold valid_row. apply andb_true_iff. split.
  - exact Hn.
  - apply bind_real_valid.
Qed.

(** The table after a successful [_update_user]. *)
Lemma update_user_select (q : string) (upd : updates) (st : store) (row : user_data) :
  Sql.select_user q st = Some row ->
  Sql.not_null (dict_update row upd) = true ->
  Sql.select_user q (fst (_update_user q upd st))
  = Some (Sql.write_row (dict_update row upd) row).
Proof.
  intros H Hn. rewrite (update_user_ok _ _ _ _ H Hn). simpl.
  rewrite select_update_where_same by reflexivity. rewrite H. reflexivity.
Qed.

Lemma update_user_other (q q' : string) (upd : updates) (st : store) :
  q' <> q ->
  Sql.select_user q' (fst (_update_user q upd st)) = Sql.select_user q' st.
Proof.
  intros Hne. unfold _update_user.
  destruct (Sql.select_user q st) as [row|] eqn:H; [|reflexivity].
  destruct (Sql.not_null (dict_update row upd)); [|reflexivity].
  simpl. change (qq (dict_update row upd)) with (qq row).
  rewrite (select_user_qq _ _ _ H).
  apply select_update_where_other; [reflexivity|exact Hne].
Qed.

(** ** Running the two kinds of step *)

Lemma run_get_then (q today : string) (k : user_data -> prog) (st : store) :
  run (get_then q today k) st
  = run (k (snd (_get_user q today st))) (fst (_get_user q today st)).
Proof. simpl. destruct (_get_user q today st). reflexivity. Qed.

Lemma run_update_then (q : string) (upd : updates) (k : user_data -> result)
    (st : store) :
  run (update_then q upd k) st
  = (fst (_update_user q upd st),
     match snd (_update_user q upd st) with
     | inr updated_user => k updated_user
     | inl e => Raised e
     end).
Proof. simpl. destruct (_update_user q upd st) as [st1 [e|u]]; reflexivity. Qed.

Lemma sections_get_then (q today : string) (k : user_data -> prog) (st : store) :
  sections (get_then q today k) st
  = S (sections (k (snd (_get_user q today st))) (fst (_get_user q today st))).
Proof. simpl. destruct (_get_user q today st). reflexivity. Qed.

Lemma sections_update_then (q : string) (upd : updates)
    (k : user_data -> result) (st : store) :
  sections (update_then q upd k) st = 1%nat.
Proof. simpl. destruct (_update_user q upd st) as [st1 [e|u]]; reflexivity. Qed.

(** ** The schema constraints are kept *)

Lemma handler_consistent (p : prog) :
  handler p ->
  forall st, consistent st = true -> consistent (fst (run p st)) = true.
Proof.
  induction 1 as [r|q today k Hk IH|q upd k|f]; intros st Hc.
  - exact Hc.
  - rewrite run_get_then. apply IH. apply get_user_consistent. exact Hc.
  - rewrite run_update_then. apply update_user_consistent. exact Hc.
  - exact Hc.
Qed.

Lemma handler_leave (init : bool) (evt : event) (today : string) (now : float) :
  handler (cmd_leave init evt today now).
Proof.
  unfold cmd_leave. destruct (negb init); [constructor|].
  destruct (_get_uid evt =? "")%string; [constructor|].
  constructor. intros user. unfold leave_decision.
  destruct (joined_at user) as [joined|]; [|constructor].
  cbv zeta. destruct (now - joined <=? GRACE_PERIOD_SECONDS); [constructor|].
  destruct (PyFloat.math_ceil ((now - joined) / 1800)); [constructor|].
  destruct (balance user <? _); constructor.
Qed.

Lemma handler_attend (init : bool) (evt : event) (today : string) (now : float) :
  handler (cmd_attend init evt today now).
Proof.
  unfold cmd_attend. destruct (negb init); [constructor|].
  destruct (_get_uid evt =? "")%string; [constructor|].
  constructor. intros user. destruct (joined_at user); constructor.
Qed.

Lemma handler_admin_op (evt : event) (op : op_type) (today : string) :
  handler (_admin_op evt op today).
Proof.
  unfold _admin_op. destruct (negb (is_admin (_get_uid evt))); [constructor|].
  destruct (PyStr.split (message_str evt)) as [|a [|b [|c [|d l]]]];
    try constructor.
  destruct (negb (PyStr.isdigit b)); [constructor|].
  destruct (PyParse.float c) as [amount|]; [|constructor].
  destruct (amount <=? 0); [constructor|].
  constructor. intros user. unfold admin_decision.
  destruct op; [constructor|].
  destruct (balance user <? amount); constructor.
Qed.

Lemma handler_discount (init : bool) (evt : event) (today : string) :
  handler (cmd_discount init evt today).
Proof.
  unfold cmd_discount. destruct (negb init); [constructor|].
  destruct (negb (is_admin (_get_uid evt))); [constructor|].
  destruct (PyStr.split (message_str evt)) as [|a [|b [|c [|d l]]]];
    try constructor.
  destruct (negb (PyStr.isdigit b)); [constructor|].
  destruct (parse_rate c) as [rate|]; [|constructor].
  destruct (negb _); [constructor|].
  constructor. intros user. constructor.
Qed.

Lemma handler_rank (init : bool) : handler (cmd_rank init).
Proof.
  unfold cmd_rank. destruct (negb init); [constructor|].
  apply (handler_query
           (fun st => match rank_rows st with
                      | [] => RankEmpty
                      | lines => RankLines lines
                      end)).
Qed.

(** ** Check-out, case by case *)

Section Leave.

Variables (evt : event) (today : string) (now : float) (st : store).

Local Abbreviation q := (_get_uid evt).
Local Abbreviation st1 := (fst (_get_user (_get_uid evt) today st)).
Local Abbreviation user := (snd (_get_user (_get_uid evt) today st)).

Hypothesis uid_ok : (q =? "")%string = false.

Lemma run_leave_idle :
  joined_at user = None ->
  run (cmd_leave true evt today now) st = (st1, NotAttending).
Proof.
  intros Hj. unfold cmd_leave. simpl negb. cbv iota. rewrite uid_ok.
  rewrite run_get_then. unfold leave_decision. rewrite Hj. reflexivity.
Qed.

Variable joined : float.
Hypothesis active : joined_at user = Some joined.

Local Abbreviation duration := (now - joined).

Lemma valid_user : consistent st = true -> valid_row user = true.
Proof.
  intros Hc. apply (consistent_select q st1).
  - apply get_user_consistent. exact Hc.
  - apply get_user_select.
Qed.

Lemma run_leave_waived :
  consistent st = true ->
  (duration <=? GRACE_PERIOD_SECONDS) = true ->
  run (cmd_leave true evt today now) st
  = (Sql.update_where q (Sql.write_row (waived_row user)) st1, LeaveWaived).
Proof.
  intros Hc Hg. unfold cmd_leave. simpl negb. cbv iota. rewrite uid_ok.
  rewrite run_get_then. unfold leave_decision. rewrite active. cbv zeta. rewrite Hg.
  rewrite run_update_then.
  rewrite (update_user_ok _ _ _ user (get_user_select _ _ _)).
  - reflexivity.
  - pose proof (valid_user Hc) as Hv. unfold valid_row in Hv.
    apply andb_true_iff in Hv. exact (proj1 Hv).
Qed.

Variable units : Z.
Hypothesis billed : (duration <=? GRACE_PERIOD_SECONDS) = false.
Hypothesis ceiling : PyFloat.math_ceil (duration / 1800) = inr units.

Local Abbreviation fee := (spec_fee units HOURLY_FEE (discount user)).

Lemma run_leave_refused :
  (balance user <? fee) = true ->
  run (cmd_leave true evt today now) st
  = (st1, LeaveInsufficient fee (balance user)).
Proof.
  intros Hb. unfold cmd_leave. simpl negb. cbv iota. rewrite uid_ok.
  rewrite run_get_then. unfold leave_decision. rewrite active. cbv zeta.
  rewrite billed, ceiling.
  change (PyFloat.of_int units * FEE_PER_30_MINS * discount user) with fee.
  rewrite Hb. reflexivity.
Qed.

Lemma run_leave_charged :
  (balance user <? fee) = false ->
  Sql.not_null (charged_row user duration fee) = true ->
  run (cmd_leave true evt today now) st
  = (Sql.update_where q (Sql.write_row (charged_row user duration fee)) st1,
     LeaveOk duration fee (today_consumption user + fee) (balance user - fee)).
Proof.
  intros Hb Hn. unfold cmd_leave. simpl negb. cbv iota. rewrite uid_ok.
  rewrite run_get_then. unfold leave_decision. rewrite active. cbv zeta.
  rewrite billed, ceiling.
  change (PyFloat.of_int units * FEE_PER_30_MINS * discount user) with fee.
  rewrite Hb. rewrite run_update_then.
  rewrite (update_user_ok _ _ _ user (get_user_select _ _ _)).
  - reflexivity.
  - exact Hn.
Qed.

Lemma run_leave_unstorable :
  (balance user <? fee) = false ->
  Sql.not_null (charged_row user duration fee) = false ->
  run (cmd_leave true evt today now) st = (st1, Raised IntegrityError).
Proof.
  intros Hb Hn. unfold cmd_leave. simpl negb. cbv iota. rewrite uid_ok.
  rewrite run_get_then. unfold leave_decision. rewrite active. cbv zeta.
  rewrite billed, ceiling.
  change (PyFloat.of_int units * FEE_PER_30_MINS * discount user) with fee.
  rewrite Hb. rewrite run_update_then.
  rewrite (update_user_null _ _ _ user (get_user_select _ _ _)).
  - reflexivity.
  - exact Hn.
Qed.

(** The row found after a write that follows the load. *)
Lemma select_after_write (u' : user_data) :
  joined_at u' = None -> qq u' = qq user ->
  Sql.select_user q (Sql.update_where q (Sql.write_row u') st1)
  = Some {| qq := qq user; balance := balance u'; joined_at := None;
            total_time := total_time u'; today_date := today_date u';
            today_consumption := today_consumption u';
            discount := discount u' |}.
Proof.
  intros Hj Hq. rewrite select_update_where_same by reflexivity.
  rewrite get_user_select. simpl. unfold Sql.write_row. rewrite Hj.
  reflexivity.
Qed.

End Leave.

(** What the load keeps of a row that exists: everything but the day and
    the day's consumption. *)
Lemma get_user_frame (q today : string) (st : store) (row : user_data) :
  Sql.select_user q st = Some row ->
  let user := snd (_get_user q today st) in
  qq user = qq row /\ balance user = balance row
  /\ joined_at user = joined_at row /\ total_time user = total_time row
  /\ discount user = discount row /\ today_date user = today
  /\ today_consumption user
     = (if (today_date row =? today)%string then today_consumption row else 0).
Proof.
  intros H. cbv zeta. rewrite (get_user_existing _ _ _ _ H).
  destruct (today_date row =? today)%string eqn:E; simpl;
    repeat split; try reflexivity.
  apply String.eqb_eq. exact E.
Qed.

(** * Properties of the handlers *)



(** Two floats that compare as different are different. *)
Lemma float_neq (x y : float) : (x =? y) = false -> (x =? x) = true -> x <> y.
Proof. intros Hxy Hxx E. rewrite <- E in Hxy. congruence. Qed.

(** C2, as stated, fails: a refused check-out on a later day than the stored
    one leaves the day's consumption changed, from 6.0 to 0.0, because the
    load that opens every check-out rolls the day over and commits it. *)
Lemma checkout_refused_counterexample :
  exists row st' row',
    Sql.select_user "10001" Scenario.low_balance = Some row
    /\ joined_at row = Some Scenario.late
    /\ run (cmd_leave true Scenario.from_10001 "2024-05-02" 1714609900)
         Scenario.low_balance
       = (st', LeaveInsufficient 6 (balance row))
    /\ (balance row <? 6) = true
    /\ Sql.select_user "10001" st' = Some row'
    /\ today_consumption row = 6
    /\ today_consumption row' = 0
    /\ today_consumption row' <> today_consumption row.
Proof.
  do 3 eexists. repeat split; try reflexivity.
  apply float_neq; reflexivity.
Qed.

(** C2 (amended): for an account with an open session whose balance is
    strictly below the fee, check-out answers with the refusal and the fee,
    and debits nothing: the table is the one the opening load leaves.  In it
    the account keeps its balance, total time, session start and discount;
    its day is the current one, and its day's consumption is the stored one
    if the stored day is the current day and 0 otherwise.  On the stored day
    the table is unchanged. *)
Theorem checkout_refused (evt : event) (today : string) (now : float)
    (st : store) (row : user_data) (joined : float) (units : Z) :
  let q := _get_uid evt in
  let fee := spec_fee units HOURLY_FEE (discount row) in
  (q =? "")%string = false ->
  Sql.select_user q st = Some row ->
  joined_at row = Some joined ->
  (now - joined <=? GRACE_PERIOD_SECONDS) = false ->
  PyFloat.math_ceil ((now - joined) / 1800) = inr units ->
  (balance row <? fee) = true ->
  exists st' row',
    run (cmd_leave true evt today now) st
    = (st', LeaveInsufficient fee (balance row))
    /\ st' = fst (_get_user q today st)
    /\ Sql.select_user q st' = Some row'
    /\ balance row' = balance row
    /\ total_time row' = total_time row
    /\ joined_at row' = joined_at row
    /\ discount row' = discount row
    /\ today_date row' = today
    /\ today_consumption row'
       = (if (today_date row =? today)%string then today_consumption row else 0)
    /\ (today_date row = today -> st' = st).
Proof.
  cbv zeta. intros Hq Hrow Hj Hg Hu Hb.
  destruct (get_user_frame _ today st row Hrow)
    as (_ & Fb & Fj & Ft & Fd & Fday & Fc).
  exists (fst (_get_user (_get_uid evt) today st)),
         (snd (_get_user (_get_uid evt) today st)).
  split; [|split; [reflexivity|split; [apply get_user_select|]]].
  - rewrite <- Fb, <- Fd.
    apply (run_leave_refused evt today now st Hq joined).
    + rewrite Fj. exact Hj.
    + exact Hg.
    + exact Hu.
    + rewrite Fd, Fb. exact Hb.
  - repeat split; try assumption.
    intros Hday. rewrite (get_user_again _ today st row Hrow Hday). reflexivity.
Qed.

Lemma checkout_refused_witness :
  exists st' row',
    run (cmd_leave true Scenario.from_10001 "2024-05-02" 1714609900)
      Scenario.low_balance
    = (st', LeaveInsufficient 6 1)
    /\ Sql.select_user "10001" st' = Some row'
    /\ balance row' = 1 /\ today_consumption row' = 0.
Proof.
  destruct (checkout_refused Scenario.from_10001 "2024-05-02" 1714609900
              Scenario.low_balance Scenario.poor Scenario.late 2%Z
              eq_refl eq_refl eq_refl eq_refl eq_refl eq_refl)
    as (st' & row' & Hrun & _ & Hsel & Hb & _ & _ & _ & _ & Hc & _).
  exists st', row'. repeat split; assumption.
Defined.

(** C7, as stated, fails in the same way: a check-out within the grace
    period on a later day than the stored one is waived, and the day's
    consumption in the table goes from 6.0 to 0.0. *)
Lemma checkout_waived_counterexample :
  exists row st' row',
    Sql.select_user "10001" Scenario.low_balance = Some row
    /\ joined_at row = Some Scenario.late
    /\ (1714608000 - Scenario.late <=? GRACE_PERIOD_SECONDS) = true
    /\ run (cmd_leave true Scenario.from_10001 "2024-05-02" 1714608000)
         Scenario.low_balance
       = (st', LeaveWaived)
    /\ Sql.select_user "10001" st' = Some row'
    /\ joined_at row' = None
    /\ today_consumption row = 6
    /\ today_consumption row' = 0
    /\ today_consumption row' <> today_consumption row.
Proof.
  do 3 eexists. repeat split; try reflexivity.
  apply float_neq; reflexivity.
Qed.

(** C7 (amended): a check-out whose duration is at most the grace period
    answers with the waiver and closes the session ([joined_at] becomes
    [NULL]); the balance, the total time and the discount are unchanged;
    the day becomes the current one, and the day's consumption is the
    stored one if the stored day is the current day and 0 otherwise. *)
Theorem checkout_waived (evt : event) (today : string) (now : float)
    (st : store) (row : user_data) (joined : float) :
  let q := _get_uid evt in
  (q =? "")%string = false ->
  consistent st = true ->
  Sql.select_user q st = Some row ->
  joined_at row = Some joined ->
  (now - joined <=? GRACE_PERIOD_SECONDS) = true ->
  exists st' row',
    run (cmd_leave true evt today now) st = (st', LeaveWaived)
    /\ Sql.select_user q st' = Some row'
    /\ joined_at row' = None
    /\ balance row' = balance row
    /\ total_time row' = total_time row
    /\ discount row' = discount row
    /\ today_date row' = today
    /\ today_consumption row'
       = (if (today_date row =? today)%string then today_consumption row else 0)
    /\ (forall q', q' <> q -> Sql.select_user q' st' = Sql.select_user q' st).
Proof.
  cbv zeta. intros Hq Hc Hrow Hj Hg.
  destruct (get_user_frame _ today st row Hrow)
    as (_ & Fb & Fj & Ft & Fd & Fday & Fc).
  rewrite Hj in Fj.
  eexists. exists (waived_row (snd (_get_user (_get_uid evt) today st))).
  split; [apply (run_leave_waived evt today now st Hq joined Fj Hc Hg)|].
  split; [apply (select_after_write evt today st
                   (waived_row (snd (_get_user (_get_uid evt) today st))));
          reflexivity|].
  repeat split; try assumption.
  intros q' Hne. rewrite select_update_where_other by (reflexivity || exact Hne).
  apply get_user_other. exact Hne.
Qed.

Lemma checkout_waived_witness :
  exists st' row',
    run (cmd_leave true Scenario.from_10001 "2024-05-01" 1714557700)
      Scenario.two_users
    = (st', LeaveWaived)
    /\ Sql.select_user "10001" st' = Some row'
    /\ joined_at row' = None /\ balance row' = 10 /\ today_consumption row' = 6.
Proof.
  destruct (checkout_waived Scenario.from_10001 "2024-05-01" 1714557700
              Scenario.two_users Scenario.rich Scenario.morning
              eq_refl eq_refl eq_refl eq_refl eq_refl)
    as (st' & row' & Hrun & Hsel & Hj & Hb & _ & _ & _ & Hc & _).
  exists st', row'. repeat split; assumption.
Defined.

Lemma update_where_twice (q : string) (f g : user_data -> user_data)
    (st : store) :
  (forall u, qq (g u) = qq u) ->
  Sql.update_where q f (Sql.update_where q g st)
  = Sql.update_where q (fun u => f (g u)) st.
Proof.
  intros Hg. unfold Sql.update_where. rewrite map_map. apply map_ext.
  intros u. destruct (qq u =? q)%string eqn:E.
  - rewrite Hg, E. reflexivity.
  - rewrite E. reflexivity.
Qed.

(** C5: loading an account that exists.  If the stored day is not the
    current day, the dictionary returned has the current day and a day's
    consumption of 0, and it is the row then found in the table (the
    rollover is committed by the load).  If the stored day is the current
    day, the load changes nothing: the table is the same and the row is
    returned as stored.  After a rollover the earlier consumption cannot be
    told from the result: had the stored value been any other [c], the
    table and the dictionary after the load would be the same. *)
Theorem daily_rollover (q today : string) (st : store) (row : user_data) :
  Sql.select_user q st = Some row ->
  let st1 := fst (_get_user q today st) in
  let user := snd (_get_user q today st) in
  ((today_date row =? today)%string = false ->
     today_date user = today /\ today_consumption user = 0
     /\ user = Sql.rollover today row
     /\ st1 = Sql.update_where q (Sql.rollover today) st
     /\ Sql.select_user q st1 = Some user
     /\ forall c : float,
          _get_user q today (Sql.update_where q (with_consumption c) st)
          = _get_user q today st)
  /\ ((today_date row =? today)%string = true -> st1 = st /\ user = row).
Proof.
  intros Hrow. cbv zeta. rewrite (get_user_existing _ _ _ _ Hrow). split.
  - intros Hday. rewrite Hday. simpl. repeat split.
    + rewrite select_update_where_same by reflexivity. rewrite Hrow. reflexivity.
    + intros c.
      assert (Hsel : Sql.select_user q (Sql.update_where q (with_consumption c) st)
                     = Some (with_consumption c row)).
      { rewrite select_update_where_same by reflexivity. rewrite Hrow. reflexivity. }
      rewrite (get_user_existing _ _ _ _ Hsel). simpl. rewrite Hday.
      rewrite update_where_twice by reflexivity. reflexivity.
  - intros Hday. rewrite Hday. split; reflexivity.
Qed.

Lemma daily_rollover_witness :
  (let user := snd (_get_user "10001" "2024-05-02" Scenario.low_balance) in
   today_date user = "2024-05-02" /\ today_consumption user = 0
   /\ Sql.select_user "10001"
        (fst (_get_user "10001" "2024-05-02" Scenario.low_balance))
      = Some user)
  /\ fst (_get_user "10001" "2024-05-01" Scenario.low_balance)
     = Scenario.low_balance.
Proof.
  pose (row := Scenario.poor).
  split.
  - destruct (proj1 (daily_rollover "10001" "2024-05-02" Scenario.low_balance
                       row eq_refl) eq_refl)
      as (Hd & Hc & _ & _ & Hs & _).
    repeat split; assumption.
  - exact (proj1 (proj2 (daily_rollover "10001" "2024-05-01"
                           Scenario.low_balance row eq_refl) eq_refl)).
Defined.

(** C9: the load keeps the balance, the discount, the total time and the
    session start of the account, also when it rolls the day over, and
    leaves every other account as it was.  So a session open across the
    rollover stays open, and a check-out after the rollover is charged on
    the whole time since that session began: it reports [now - joined] and
    the fee for it, and adds [now - joined] to the total time. *)
Theorem rollover_frame (q today : string) (st : store) (row : user_data) :
  Sql.select_user q st = Some row ->
  let st1 := fst (_get_user q today st) in
  let user := snd (_get_user q today st) in
  balance user = balance row /\ discount user = discount row
  /\ total_time user = total_time row /\ joined_at user = joined_at row
  /\ Sql.select_user q st1 = Some user
  /\ (forall q', q' <> q -> Sql.select_user q' st1 = Sql.select_user q' st)
  /\ forall (evt : event) (now joined : float) (units : Z),
       _get_uid evt = q -> (q =? "")%string = false ->
       (today_date row =? today)%string = false ->
       joined_at row = Some joined ->
       (now - joined <=? GRACE_PERIOD_SECONDS) = false ->
       PyFloat.math_ceil ((now - joined) / 1800) = inr units ->
       let fee := spec_fee units HOURLY_FEE (discount row) in
       (balance row <? fee) = false ->
       Sql.not_null (charged_row user (now - joined) fee) = true ->
       exists st' row',
         run (cmd_leave true evt today now) st1
         = (st', LeaveOk (now - joined) fee (0 + fee) (balance row - fee))
         /\ Sql.select_user q st' = Some row'
         /\ joined_at row' = None
         /\ total_time row' = total_time row + (now - joined)
         /\ balance row' = balance row - fee.
Proof.
  intros Hrow. cbv zeta.
  destruct (get_user_frame q today st row Hrow)
    as (Fq & Fb & Fj & Ft & Fd & Fday & Fc).
  split; [exact Fb|]. split; [exact Fd|]. split; [exact Ft|].
  split; [exact Fj|]. split; [apply get_user_select|].
  split; [intros q' Hne; apply get_user_other; exact Hne|].
  intros evt now joined units Hevt Hq Hday Hj Hg Hu Hb Hn.
  subst q. rewrite Hday in Fc.
  pose proof (get_user_again _ today _ _ (get_user_select (_get_uid evt) today st)
                Fday) as Hagain.
  set (st1 := fst (_get_user (_get_uid evt) today st)) in *.
  set (user := snd (_get_user (_get_uid evt) today st)) in *.
  assert (Hsnd : snd (_get_user (_get_uid evt) today st1) = user)
    by (rewrite Hagain; reflexivity).
  assert (Hfst : fst (_get_user (_get_uid evt) today st1) = st1)
    by (rewrite Hagain; reflexivity).
  assert (Hrun := run_leave_charged evt today now st1 Hq joined).
  rewrite Hsnd, Hfst, Fd, Fb, Fc, Fj in Hrun.
  specialize (Hrun Hj units Hg Hu Hb Hn).
  eexists. eexists. split; [exact Hrun|].
  assert (Hsel := select_after_write evt today st1
                    (charged_row user (now - joined)
                       (spec_fee units HOURLY_FEE (discount row)))).
  rewrite Hsnd, Hfst in Hsel.
  split; [apply Hsel; reflexivity|].
  simpl. rewrite Ft, Fb. repeat split; reflexivity.
Qed.

Lemma rollover_frame_witness :
  let st1 := fst (_get_user "10001" "2024-05-02" Scenario.open_overnight) in
  let user := snd (_get_user "10001" "2024-05-02" Scenario.open_overnight) in
  joined_at user = Some Scenario.late
  /\ exists st' row',
       run (cmd_leave true Scenario.from_10001 "2024-05-02" 1714609900) st1
       = (st', LeaveOk 2000 6 6 4)
       /\ Sql.select_user "10001" st' = Some row'
       /\ joined_at row' = None /\ total_time row' = 5600.
Proof.
  destruct (rollover_frame "10001" "2024-05-02" Scenario.open_overnight
              Scenario.night_owl eq_refl)
    as (_ & _ & _ & Hj & _ & _ & Hbill).
  split; [exact Hj|].
  destruct (Hbill Scenario.from_10001 1714609900 Scenario.late 2%Z eq_refl
              eq_refl eq_refl eq_refl eq_refl eq_refl eq_refl eq_refl)
    as (st' & row' & Hrun & Hsel & Hnone & Ht & _).
  exists st', row'. repeat split; assumption.
Defined.

(** ** Admin commands *)

Lemma ret_answers_unlocked (r : result) : answers_unlocked (Ret r) r.
Proof. split; [reflexivity|]. intros st. split; reflexivity. Qed.

(** A write that follows the load of the same account. *)
Lemma run_update_after_load (q today : string) (st : store) (upd : updates)
    (k : user_data -> result) :
  let st1 := fst (_get_user q today st) in
  let user := snd (_get_user q today st) in
  Sql.not_null (dict_update user upd) = true ->
  run (update_then q upd k) st1
  = (Sql.update_where q (Sql.write_row (dict_update user upd)) st1,
     k (dict_update user upd))
  /\ Sql.select_user q
       (Sql.update_where q (Sql.write_row (dict_update user upd)) st1)
     = Some (Sql.write_row (dict_update user upd) user).
Proof.
  cbv zeta. intros Hn. split.
  - rewrite run_update_then.
    rewrite (update_user_ok _ _ _ _ (get_user_select q today st) Hn).
    reflexivity.
  - rewrite select_update_where_same by reflexivity.
    rewrite get_user_select. reflexivity.
Qed.

Lemma valid_loaded (q today : string) (st : store) :
  consistent st = true -> valid_row (snd (_get_user q today st)) = true.
Proof.
  intros Hc. apply (consistent_select q (fst (_get_user q today st))).
  - apply get_user_consistent. exact Hc.
  - apply get_user_select.
Qed.

Lemma bind_real_id (x : option float) :
  match x with Some j => negb (is_nan j) | None => true end = true ->
  Sql.bind_real x = x.
Proof.
  destruct x as [v|]; simpl; [|reflexivity].
  destruct (is_nan v); [discriminate|reflexivity].
Qed.

(** C6: [cmd_discount], sent by an administrator for a target made of
    digits.  A rate outside (0, 1] is rejected and the table is left as it
    was; a rate in (0, 1] becomes the stored discount of the target whatever
    the discount stored before, the other columns being those the load
    leaves.  The texts "50%" and "0.5" denote the same rate, 0.5; 0, a
    negative rate and a rate above 1 are outside. *)
Theorem discount_assignment (evt : event) (today : string) (cmd target arg : string)
    (rate : float) (st : store) :
  is_admin (_get_uid evt) = true ->
  PyStr.split (message_str evt) = [cmd; target; arg] ->
  PyStr.isdigit target = true ->
  parse_rate arg = Some rate ->
  consistent st = true ->
  ((0 <? rate) && (rate <=? 1) = false ->
     run (cmd_discount true evt today) st = (st, DiscountFormatError))
  /\ ((0 <? rate) && (rate <=? 1) = true ->
      let user := snd (_get_user target today st) in
      exists st' row',
        run (cmd_discount true evt today) st = (st', DiscountOk target rate)
        /\ Sql.select_user target st' = Some row'
        /\ discount row' = rate
        /\ balance row' = balance user /\ joined_at row' = joined_at user
        /\ total_time row' = total_time user
        /\ today_consumption row' = today_consumption user)
  /\ parse_rate "50%" = Some 0.5 /\ parse_rate "0.5" = Some 0.5
  /\ rate_rejected "0" = true /\ rate_rejected "-0.5" = true
  /\ rate_rejected "1.5" = true /\ rate_rejected "150%" = true.
Proof.
  intros Ha Hs Hd Hr Hc. split; [|split].
  - intros Hout. unfold cmd_discount. simpl negb. cbv iota.
    rewrite Ha, Hs. simpl negb. cbv iota. rewrite Hd, Hr.
    simpl negb at 1. cbv iota. rewrite Hout. reflexivity.
  - intros Hin. cbv zeta.
    assert (Hrun : run (cmd_discount true evt today) st
                   = run (update_then target
                            {| set_balance := None; set_joined_at := None;
                               set_total_time := None;
                               set_today_consumption := None;
                               set_discount := Some rate |}
                            (fun _ => DiscountOk target rate))
                       (fst (_get_user target today st))).
    { unfold cmd_discount. simpl negb. cbv iota.
      rewrite Ha, Hs. simpl negb. cbv iota. rewrite Hd, Hr.
      simpl negb at 1. cbv iota. rewrite Hin. simpl negb. cbv iota.
      rewrite run_get_then. reflexivity. }
    pose proof (valid_loaded target today st Hc) as Hv.
    unfold valid_row in Hv. apply andb_true_iff in Hv. destruct Hv as [Hnn Hj].
    apply andb_true_iff in Hin. destruct Hin as [Hpos _].
    apply FloatOrder.ltb_not_nan in Hpos. destruct Hpos as [_ Hrate].
    assert (Hn : Sql.not_null
                   (dict_update (snd (_get_user target today st))
                      {| set_balance := None; set_joined_at := None;
                         set_total_time := None;
                         set_today_consumption := None;
                         set_discount := Some rate |}) = true).
    { unfold Sql.not_null in *. simpl. rewrite !andb_true_iff in *.
      destruct Hnn as [[[Hb Ht] Hcn] _]. rewrite Hrate. repeat split; assumption. }
    destruct (run_update_after_load target today st _
                (fun _ => DiscountOk target rate) Hn) as [Hu Hsel].
    eexists. eexists. split; [rewrite Hrun; exact Hu|].
    split; [exact Hsel|]. simpl. rewrite (bind_real_id _ Hj).
    repeat split; reflexivity.
  - repeat split; vm_compute; reflexivity.
Qed.

Lemma discount_assignment_witness :
  (exists st' row',
     run (cmd_discount true (mkEvent Scenario.admin "discount 10001 50%")
            "2024-05-01") Scenario.two_users
     = (st', DiscountOk "10001" 0.5)
     /\ Sql.select_user "10001" st' = Some row'
     /\ discount row' = 0.5)
  /\ run (cmd_discount true (mkEvent Scenario.admin "discount 10001 1.5")
            "2024-05-01") Scenario.two_users
     = (Scenario.two_users, DiscountFormatError).
Proof.
  split.
  - destruct (proj1 (proj2 (discount_assignment
                       (mkEvent Scenario.admin "discount 10001 50%") "2024-05-01"
                       "discount" "10001" "50%" 0.5 Scenario.two_users
                       eq_refl eq_refl eq_refl eq_refl eq_refl)) eq_refl)
      as (st' & row' & Hrun & Hsel & Hd & _).
    exists st', row'. repeat split; assumption.
  - exact (proj1 (discount_assignment
                    (mkEvent Scenario.admin "discount 10001 1.5") "2024-05-01"
                    "discount" "10001" "1.5" 1.5 Scenario.two_users
                    eq_refl eq_refl eq_refl eq_refl eq_refl) eq_refl).
Defined.

(** An accepted credit or debit command runs the load and then decides. *)
Lemma run_admin_op (evt : event) (op : op_type) (today : string)
    (cmd target arg : string) (amount : float) (st : store) :
  is_admin (_get_uid evt) = true ->
  PyStr.split (message_str evt) = [cmd; target; arg] ->
  PyStr.isdigit target = true ->
  PyParse.float arg = Some amount ->
  (amount <=? 0) = false ->
  run (_admin_op evt op today) st
  = run (admin_decision target op amount (snd (_get_user target today st)))
      (fst (_get_user target today st)).
Proof.
  intros Ha Hs Hd Hf Hpos. unfold _admin_op.
  rewrite Ha, Hs. simpl negb. cbv iota. rewrite Hd, Hf. simpl negb. cbv iota.
  rewrite Hpos. apply run_get_then.
Qed.

Lemma not_null_balance (u : user_data) (b : float) :
  valid_row u = true -> is_nan b = false ->
  Sql.not_null
    (dict_update u {| set_balance := Some b; set_joined_at := None;
                      set_total_time := None; set_today_consumption := None;
                      set_discount := None |}) = true.
Proof.
  unfold valid_row, Sql.not_null. simpl. rewrite !andb_true_iff.
  intros [[[[_ Ht] Hc] Hd] _] Hb. rewrite Hb. repeat split; assumption.
Qed.

(** C10: the amount of a credit or a debit is tested with [amount <= 0],
    which is false of a NaN.  A command sent by an administrator with a
    target made of digits and an amount that [float()] reads as NaN (the
    text [nan], in any case, signed or not) is therefore not answered with
    the format error: the target is loaded, hence created and committed
    when it did not exist, and the write that follows fails on the
    [NOT NULL] balance, so that [IntegrityError] leaves the handler after
    two locked sections.  Set-discount, whose test is [0.0 < rate <= 1.0],
    answers a NaN rate with its format error and no locked section. *)
Theorem nan_amount_not_rejected (evt : event) (today : string)
    (cmd target arg : string) (a : float) (st : store) :
  is_admin (_get_uid evt) = true ->
  PyStr.split (message_str evt) = [cmd; target; arg] ->
  PyStr.isdigit target = true ->
  PyParse.float arg = Some a ->
  is_nan a = true ->
  let loaded := fst (_get_user target today st) in
  run (cmd_charge true evt today) st = (loaded, Raised IntegrityError)
  /\ run (cmd_deduct true evt today) st = (loaded, Raised IntegrityError)
  /\ sections (cmd_charge true evt today) st = 2%nat
  /\ sections (cmd_deduct true evt today) st = 2%nat
  /\ (Sql.select_user target st = None ->
      loaded = Sql.insert_user target today 1.0 st
      /\ List.length loaded = S (List.length st)
      /\ exists row, Sql.select_user target loaded = Some row)
  /\ (parse_rate arg = Some a ->
      answers_unlocked (cmd_discount true evt today) DiscountFormatError).
Proof.
  intros Ha Hs Hd Hf Hn. cbv zeta.
  destruct (nan_absorbs (balance (snd (_get_user target today st))) a Hn)
    as (Hadd & Hsub & Hlt & Hle & Hpos).
  assert (Hnull : forall b, is_nan b = true ->
            Sql.not_null
              (dict_update (snd (_get_user target today st))
                 {| set_balance := Some b; set_joined_at := None;
                    set_total_time := None; set_today_consumption := None;
                    set_discount := None |}) = false).
  { intros b Hb. unfold Sql.not_null. cbn [balance dict_update or_else set_balance].
    rewrite Hb. reflexivity. }
  assert (Hop : forall op,
            _admin_op evt op today
            = get_then target today (admin_decision target op a)).
  { intros op. unfold _admin_op. rewrite Ha, Hs. simpl negb. cbv iota.
    rewrite Hd, Hf. simpl negb. cbv iota. rewrite Hle. reflexivity. }
  assert (Hdec : forall op,
            admin_decision target op a (snd (_get_user target today st))
            = update_then target
                {| set_balance :=
                     Some (match op with
                           | Charge =>
                               balance (snd (_get_user target today st)) + a
                           | Deduct =>
                               balance (snd (_get_user target today st)) - a
                           end);
                   set_joined_at := None; set_total_time := None;
                   set_today_consumption := None; set_discount := None |}
                (fun updated_user =>
                   AdminOk target op a (balance updated_user))).
  { intros op. unfold admin_decision. destruct op; [reflexivity|].
    rewrite Hlt. reflexivity. }
  assert (Hrun : forall op,
            run (_admin_op evt op today) st
            = (fst (_get_user target today st), Raised IntegrityError)).
  { intros op. rewrite Hop, run_get_then, Hdec, run_update_then.
    rewrite (update_user_null _ _ _ _ (get_user_select target today st)).
    - reflexivity.
    - apply Hnull. destruct op; assumption. }
  assert (Hsec : forall op, sections (_admin_op evt op today) st = 2%nat).
  { intros op. rewrite Hop, sections_get_then, Hdec, sections_update_then.
    reflexivity. }
  unfold cmd_charge, cmd_deduct. simpl negb. cbv iota.
  split; [apply Hrun|]. split; [apply Hrun|].
  split; [apply Hsec|]. split; [apply Hsec|]. split.
  - intros Hnone. pose proof (get_user_select target today st) as Hsel.
    rewrite (get_user_new target today st Hnone) in *. cbn [fst snd] in *.
    split; [reflexivity|]. split.
    + unfold Sql.insert_user. rewrite length_app. simpl. lia.
    + eexists. exact Hsel.
  - intros Hr. unfold cmd_discount. simpl negb. cbv iota.
    rewrite Ha, Hs. simpl negb. cbv iota. rewrite Hd, Hr. simpl negb. cbv iota.
    rewrite Hpos. apply ret_answers_unlocked.
Qed.

Lemma nan_amount_not_rejected_witness :
  run (cmd_charge true (mkEvent Scenario.admin "充值 10009 nan") "2024-05-01")
    Scenario.two_users
  = (Sql.insert_user "10009" "2024-05-01" 1.0 Scenario.two_users,
     Raised IntegrityError)
  /\ List.length (Sql.insert_user "10009" "2024-05-01" 1.0 Scenario.two_users)
     = 3%nat.
Proof.
  destruct (nan_amount_not_rejected (mkEvent Scenario.admin "充值 10009 nan")
              "2024-05-01" "充值" "10009" "nan" nan Scenario.two_users
              eq_refl eq_refl eq_refl eq_refl eq_refl)
    as (Hrun & _ & _ & _ & Hnew & _).
  destruct (Hnew eq_refl) as (Hl & Hlen & _).
  rewrite Hl in Hrun, Hlen. split; [exact Hrun|exact Hlen].
Defined.

(** C4, as stated, fails: on an account holding 0.1, a credit of 0.2
    followed by a debit of 0.2 leaves 0.10000000000000003. *)
Lemma credit_then_debit_counterexample :
  exists row st1 st2 row2 b1,
    Sql.select_user "10003" Scenario.one_tenth = Some row
    /\ PyParse.float "0.2" = Some 0x1.999999999999ap-3
    /\ run (cmd_charge true (mkEvent Scenario.admin "charge 10003 0.2")
              "2024-05-01") Scenario.one_tenth
       = (st1, AdminOk "10003" Charge 0x1.999999999999ap-3 b1)
    /\ run (cmd_deduct true (mkEvent Scenario.admin "deduct 10003 0.2")
              "2024-05-01") st1
       = (st2, AdminOk "10003" Deduct 0x1.999999999999ap-3 (balance row2))
    /\ Sql.select_user "10003" st2 = Some row2
    /\ balance row = 0x1.999999999999ap-4
    /\ balance row2 = 0x1.999999999999cp-4
    /\ balance row2 <> balance row.
Proof.
  do 5 eexists. repeat split; try reflexivity.
  apply float_neq; reflexivity.
Qed.

(** The dictionary a load returns for a row that exists. *)
Lemma get_user_loaded (q today : string) (st : store) (row : user_data) :
  Sql.select_user q st = Some row ->
  snd (_get_user q today st) = loaded today row.
Proof.
  intros H. rewrite (get_user_existing _ _ _ _ H). unfold loaded.
  destruct (today_date row =? today)%string; reflexivity.
Qed.

(** An accepted credit, or a debit that the balance covers, writes the new
    balance over the one loaded and nothing else. *)
Lemma admin_op_writes (evt : event) (op : op_type) (today : string)
    (cmd target arg : string) (A : float) (st : store) :
  is_admin (_get_uid evt) = true ->
  PyStr.split (message_str evt) = [cmd; target; arg] ->
  PyStr.isdigit target = true ->
  PyParse.float arg = Some A ->
  (A <=? 0) = false ->
  consistent st = true ->
  let user := snd (_get_user target today st) in
  let b' := match op with
            | Charge => balance user + A
            | Deduct => balance user - A
            end in
  (op = Deduct -> (balance user <? A) = false) ->
  is_nan b' = false ->
  exists st',
    run (_admin_op evt op today) st = (st', AdminOk target op A b')
    /\ Sql.select_user target st' = Some (with_balance b' user)
    /\ consistent st' = true.
Proof.
  intros Ha Hs Hd Hf Hle Hc user b' Hcover Hn.
  pose proof (valid_loaded target today st Hc) as Hv. fold user in Hv.
  set (upd := {| set_balance := Some b'; set_joined_at := None;
                 set_total_time := None; set_today_consumption := None;
                 set_discount := None |}).
  assert (Hnn : Sql.not_null (dict_update user upd) = true)
    by (apply not_null_balance; assumption).
  destruct (run_update_after_load target today st upd
              (fun u => AdminOk target op A (balance u)) Hnn)
    as [Hrun Hsel].
  fold user in Hrun, Hsel.
  assert (Hdec : admin_decision target op A user
                 = update_then target upd
                     (fun u => AdminOk target op A (balance u))).
  { unfold admin_decision, upd, b'. destruct op; [reflexivity|].
    rewrite (Hcover eq_refl). reflexivity. }
  exists (Sql.update_where target (Sql.write_row (dict_update user upd))
            (fst (_get_user target today st))).
  split; [|split].
  - rewrite (run_admin_op evt op today cmd target arg A st Ha Hs Hd Hf Hle).
    fold user. rewrite Hdec. exact Hrun.
  - rewrite Hsel. f_equal. unfold Sql.write_row, with_balance. simpl.
    unfold valid_row in Hv. apply andb_true_iff in Hv.
    rewrite (bind_real_id _ (proj2 Hv)). reflexivity.
  - pose proof (update_user_consistent target upd _
                  (get_user_consistent target today st Hc)) as H.
    rewrite (update_user_ok _ _ _ _ (get_user_select target today st) Hnn) in H.
    exact H.
Qed.

(** C4 (amended): a credit of [A > 0] followed by a debit of [A] on an
    account with balance [b], when the debit passes its test against the
    balance [b + A] and the results are numbers, leaves the balance
    [(b + A) - A] computed in binary64 arithmetic, each operation rounded.
    The session start, the total time and the discount are those of the
    account before; the day and the day's consumption are those the loads
    of the two commands leave: the stored ones on the stored day, and the
    current day with a consumption of 0 after a rollover. *)
Theorem credit_then_debit (evt_c evt_d : event) (today_c today_d : string)
    (cmd_c cmd_d target arg_c arg_d : string) (A : float) (st : store)
    (row : user_data) :
  is_admin (_get_uid evt_c) = true ->
  is_admin (_get_uid evt_d) = true ->
  PyStr.split (message_str evt_c) = [cmd_c; target; arg_c] ->
  PyStr.split (message_str evt_d) = [cmd_d; target; arg_d] ->
  PyStr.isdigit target = true ->
  PyParse.float arg_c = Some A ->
  PyParse.float arg_d = Some A ->
  (0 <? A) = true ->
  consistent st = true ->
  Sql.select_user target st = Some row ->
  is_nan (balance row + A) = false ->
  (balance row + A <? A) = false ->
  is_nan (balance row + A - A) = false ->
  exists st1 st2,
    run (cmd_charge true evt_c today_c) st
    = (st1, AdminOk target Charge A (balance row + A))
    /\ run (cmd_deduct true evt_d today_d) st1
       = (st2, AdminOk target Deduct A (balance row + A - A))
    /\ Sql.select_user target st2
       = Some (with_balance (balance row + A - A)
                 (loaded today_d (loaded today_c row))).
Proof.
  intros Hac Had Hsc Hsd Hd Hfc Hfd Hpos Hc Hrow Hn1 Hg Hn2.
  pose proof (FloatOrder.ltb_not_leb _ _ Hpos) as Hle.
  assert (Hb : forall today r, balance (loaded today r) = balance r).
  { intros today r. unfold loaded.
    destruct (today_date r =? today)%string; reflexivity. }
  (* the credit *)
  destruct (admin_op_writes evt_c Charge today_c cmd_c target arg_c A st
              Hac Hsc Hd Hfc Hle Hc) as (st1 & Hrun1 & Hsel1 & Hc1).
  { discriminate. }
  { rewrite (get_user_loaded _ _ _ _ Hrow), Hb. exact Hn1. }
  rewrite (get_user_loaded _ _ _ _ Hrow), Hb in Hrun1, Hsel1.
  (* the debit finds the credited row *)
  destruct (admin_op_writes evt_d Deduct today_d cmd_d target arg_d A st1
              Had Hsd Hd Hfd Hle Hc1) as (st2 & Hrun2 & Hsel2 & _).
  { intros _. rewrite (get_user_loaded _ _ _ _ Hsel1), Hb. exact Hg. }
  { rewrite (get_user_loaded _ _ _ _ Hsel1), Hb. exact Hn2. }
  rewrite (get_user_loaded _ _ _ _ Hsel1), Hb in Hrun2, Hsel2.
  cbn [balance with_balance] in Hrun2, Hsel2.
  exists st1, st2. split; [|split].
  - unfold cmd_charge. simpl negb. cbv iota. exact Hrun1.
  - unfold cmd_deduct. simpl negb. cbv iota. exact Hrun2.
  - rewrite Hsel2. f_equal. unfold loaded, with_balance. cbn [today_date].
    destruct (today_date (if (today_date row =? today_c)%string then row
                          else Sql.rollover today_c row) =? today_d)%string;
      reflexivity.
Qed.

Lemma credit_then_debit_witness :
  exists st1 st2,
    run (cmd_charge true (mkEvent Scenario.admin "充值 10001 0.5") "2024-05-02")
      Scenario.two_users
    = (st1, AdminOk "10001" Charge 0.5 10.5)
    /\ run (cmd_deduct true (mkEvent Scenario.admin "扣款 10001 0.50")
              "2024-05-02") st1
       = (st2, AdminOk "10001" Deduct 0.5 10)
    /\ Sql.select_user "10001" st2
       = Some {| qq := "10001"; balance := 10;
                 joined_at := Some Scenario.morning;
                 total_time := 3600; today_date := "2024-05-02";
                 today_consumption := 0; discount := 1 |}.
Proof.
  exact (credit_then_debit
           (mkEvent Scenario.admin "充值 10001 0.5")
           (mkEvent Scenario.admin "扣款 10001 0.50")
           "2024-05-02" "2024-05-02" "充值" "扣款" "10001" "0.5" "0.50" 0.5
           Scenario.two_users Scenario.rich
           eq_refl eq_refl eq_refl eq_refl eq_refl eq_refl eq_refl eq_refl
           eq_refl eq_refl eq_refl eq_refl eq_refl).
Defined.

(** ** The ranking *)

Section Ranking.

Lemma insert_desc_perm (u : user_data) (l : list user_data) :
  Permutation (Sql.insert_desc u l) (u :: l).
Proof.
  induction l as [|v l IH]; simpl; [apply Permutation_refl|].
  destruct (balance u <? balance v); [|apply Permutation_refl].
  apply perm_trans with (v :: u :: l); [|apply perm_swap].
  apply perm_skip. exact IH.
Qed.

Lemma order_perm (st : store) :
  Permutation (Sql.order_by_balance_desc st) st.
Proof.
  induction st as [|u st IH]; simpl; [apply perm_nil|].
  apply perm_trans with (u :: Sql.order_by_balance_desc st).
  - apply insert_desc_perm.
  - apply perm_skip. exact IH.
Qed.

Lemma insert_desc_sorted (u : user_data) (l : list user_data) :
  number u -> Forall number l ->
  StronglySorted desc l -> StronglySorted desc (Sql.insert_desc u l).
Proof.
  intros Hu Hl Hs. induction l as [|v l IH]; simpl.
  - constructor; constructor.
  - apply StronglySorted_inv in Hs. destruct Hs as [Hs Hv].
    inversion Hl as [|? ? Hnv Hnl]; subst.
    destruct (balance u <? balance v) eqn:E.
    + constructor; [exact (IH Hnl Hs)|].
      apply (Permutation_Forall (Permutation_sym (insert_desc_perm u l))).
      constructor; [|exact Hv].
      apply FloatOrder.ltb_leb. exact E.
    + assert (Hvu : desc u v) by (apply FloatOrder.leb_total; assumption).
      constructor; [constructor; assumption|].
      constructor; [exact Hvu|].
      apply Forall_forall. intros w Hw.
      rewrite Forall_forall in Hv. unfold desc in *.
      apply FloatOrder.leb_trans with (balance v); [apply Hv; exact Hw|exact Hvu].
Qed.

Lemma consistent_numbers (st : store) :
  consistent st = true -> Forall number st.
Proof.
  unfold consistent. rewrite forallb_forall, Forall_forall.
  intros H u Hu. specialize (H u Hu). unfold valid_row, Sql.not_null in H.
  rewrite !andb_true_iff in H. destruct H as [[[[Hb _] _] _] _].
  unfold number. destruct (is_nan (balance u)); [discriminate|reflexivity].
Qed.

Lemma order_sorted (st : store) :
  Forall number st -> StronglySorted desc (Sql.order_by_balance_desc st).
Proof.
  induction st as [|u st IH]; simpl; intros Hn; [constructor|].
  inversion Hn as [|? ? Hu Hst]; subst.
  apply insert_desc_sorted; [exact Hu| |exact (IH Hst)].
  apply (Permutation_Forall (Permutation_sym (order_perm st))). exact Hst.
Qed.

(** Rows with one balance keep the order they have in the table. *)
Lemma insert_desc_stable (b : float) (u : user_data) (l : list user_data) :
  filter (fun x => balance x =? b) (Sql.insert_desc u l)
  = filter (fun x => balance x =? b) (u :: l).
Proof.
  induction l as [|v l IH]; [reflexivity|].
  simpl. destruct (balance u <? balance v) eqn:E; [|reflexivity].
  simpl. rewrite IH. simpl.
  destruct (balance u =? b) eqn:Eu; [|reflexivity].
  destruct (balance v =? b) eqn:Ev; [|reflexivity].
  rewrite (FloatOrder.eqb_not_ltb _ _ _ Eu Ev) in E. discriminate.
Qed.

Lemma order_stable (b : float) (st : store) :
  filter (fun x => balance x =? b) (Sql.order_by_balance_desc st)
  = filter (fun x => balance x =? b) st.
Proof.
  induction st as [|u st IH]; [reflexivity|].
  simpl Sql.order_by_balance_desc. rewrite insert_desc_stable.
  simpl. rewrite IH. reflexivity.
Qed.

Lemma sorted_app (l1 l2 : list user_data) :
  StronglySorted desc (l1 ++ l2) ->
  StronglySorted desc l1
  /\ forall u v, In u l1 -> In v l2 -> desc u v.
Proof.
  induction l1 as [|a l1 IH]; simpl; intros Hs.
  - split; [constructor|]. intros u v [].
  - apply StronglySorted_inv in Hs. destruct Hs as [Hs Ha].
    destruct (IH Hs) as [Hs1 Hcross]. apply Forall_app in Ha.
    destruct Ha as [Ha1 Ha2]. split; [constructor; assumption|].
    intros u v [Hu|Hu] Hv.
    + subst u. rewrite Forall_forall in Ha2. apply Ha2. exact Hv.
    + apply Hcross; assumption.
Qed.

Lemma sorted_lines (l : list user_data) :
  StronglySorted desc l ->
  StronglySorted desc_line (map (fun u => (qq u, balance u)) l).
Proof.
  induction 1 as [|a l Hs IH Ha]; simpl; constructor; [exact IH|].
  apply Forall_map. exact Ha.
Qed.

End Ranking.

(** C8: the ranking lists [min 10 n] of the [n] accounts, ten when there are
    fifteen; its lines are in descending order of balance; they are the
    first rows of an arrangement of the whole table in which no row left out
    has a balance above one listed; and the handler answers with these lines
    and leaves the table as it is.  The query names no key beside the
    balance: the order among equal balances is a function of the table
    alone, here the table order. *)
Theorem rank_top_ten (st : store) :
  consistent st = true ->
  List.length (rank_rows st) = Nat.min 10 (List.length st)
  /\ (List.length st = 15%nat -> List.length (rank_rows st) = 10%nat)
  /\ StronglySorted desc_line (rank_rows st)
  /\ (exists top rest,
        Permutation st (top ++ rest)
        /\ rank_rows st = map (fun u => (qq u, balance u)) top
        /\ forall u v, In u top -> In v rest -> desc u v)
  /\ (forall b : float,
        filter (fun x => balance x =? b) (Sql.order_by_balance_desc st)
        = filter (fun x => balance x =? b) st)
  /\ run (cmd_rank true) st
     = (st, match rank_rows st with [] => RankEmpty | l => RankLines l end).
Proof.
  intros Hc.
  assert (Hlen : List.length (rank_rows st) = Nat.min 10 (List.length st)).
  { unfold rank_rows. rewrite length_map, length_firstn.
    rewrite (Permutation_length (order_perm st)). reflexivity. }
  assert (Hs : StronglySorted desc
                 (firstn 10 (Sql.order_by_balance_desc st)
                  ++ skipn 10 (Sql.order_by_balance_desc st))).
  { rewrite firstn_skipn. apply order_sorted. apply consistent_numbers. exact Hc. }
  apply sorted_app in Hs. destruct Hs as [Htop Hcross].
  split; [exact Hlen|]. split; [intros H15; rewrite Hlen, H15; reflexivity|].
  split; [apply sorted_lines; exact Htop|]. split; [|split].
  - exists (firstn 10 (Sql.order_by_balance_desc st)),
           (skipn 10 (Sql.order_by_balance_desc st)).
    split; [|split; [reflexivity|exact Hcross]].
    rewrite firstn_skipn. apply Permutation_sym. apply order_perm.
  - intros b. apply order_stable.
  - reflexivity.
Qed.

Lemma rank_top_ten_witness :
  List.length (rank_rows Fifteen.table) = 10%nat
  /\ StronglySorted desc_line (rank_rows Fifteen.table).
Proof.
  destruct (rank_top_ten Fifteen.table eq_refl) as (_ & H15 & Hs & _).
  split; [exact (H15 eq_refl)|exact Hs].
Defined.

Example rank_fifteen :
  rank_rows Fifteen.table
  = [("109", 80); ("115", 64); ("103", 45); ("105", 45); ("111", 33);
     ("113", 21); ("107", 19); ("101", 12); ("114", 9); ("104", 7.5)].
Proof. vm_compute. reflexivity. Qed.

(** ** Two check-outs launched together *)

Lemma both_run_inv (st : store) (p1 p2 : prog) (out : store * result * result) :
  both_run (st, p1, p2) out ->
  out = (fst (run p2 (fst (run p1 st))), snd (run p1 st),
         snd (run p2 (fst (run p1 st))))
  \/ out = (fst (run p1 (fst (run p2 st))), snd (run p1 (fst (run p2 st))),
            snd (run p2 st)).
Proof. intros H. inversion H; subst; [left|right]; reflexivity. Qed.

Lemma loaded_frame (today : string) (row : user_data) :
  qq (loaded today row) = qq row /\ balance (loaded today row) = balance row
  /\ joined_at (loaded today row) = joined_at row
  /\ discount (loaded today row) = discount row.
Proof.
  unfold loaded. destruct (today_date row =? today)%string;
    repeat split; reflexivity.
Qed.

Section LeaveTwice.

Variables (evt1 evt2 : event) (today1 today2 : string) (now1 now2 : float).
Variables (st : store) (row : user_data) (joined : float) (units : Z).

Local Abbreviation q := (_get_uid evt1).
Local Abbreviation user := (loaded today1 row).
Local Abbreviation duration := (now1 - joined).
Local Abbreviation fee := (spec_fee units HOURLY_FEE (discount row)).
Local Abbreviation ok :=
  (LeaveOk duration fee (today_consumption user + fee) (balance row - fee)).

Hypothesis same_uid : _get_uid evt2 = _get_uid evt1.
Hypothesis uid_ok : (q =? "")%string = false.
Hypothesis stored : Sql.select_user q st = Some row.
Hypothesis active : joined_at row = Some joined.
Hypothesis billed : (duration <=? GRACE_PERIOD_SECONDS) = false.
Hypothesis units_ok : is_ceiling (duration / 1800) units.
Hypothesis afford : (balance row <? fee) = false.
Hypothesis storable : Sql.not_null (charged_row user duration fee) = true.

(** A check-out that charges goes through two locked sections. *)
Lemma leave_sections : sections (cmd_leave true evt1 today1 now1) st = 2%nat.
Proof.
  destruct (loaded_frame today1 row) as (_ & Fb & Fj & Fd).
  unfold cmd_leave. simpl negb. cbv iota. rewrite uid_ok.
  rewrite sections_get_then, (get_user_loaded _ _ _ _ stored).
  unfold leave_decision. rewrite Fj, active. cbv zeta. rewrite billed.
  rewrite (FloatOrder.is_ceiling_math_ceil _ _ units_ok), Fd, Fb.
  change (PyFloat.of_int units * FEE_PER_30_MINS * discount row) with fee.
  rewrite afford, sections_update_then. reflexivity.
Qed.

(** The first check-out charges and closes the session; the second finds
    the user not checked in, whatever its clock and its day. *)
Lemma leave_then_leave :
  exists st1 st2 row',
    run (cmd_leave true evt1 today1 now1) st = (st1, ok)
    /\ run (cmd_leave true evt2 today2 now2) st1 = (st2, NotAttending)
    /\ Sql.select_user q st2 = Some row'
    /\ balance row' = balance row - fee /\ joined_at row' = None.
Proof.
  destruct (loaded_frame today1 row) as (Fq & Fb & Fj & Fd).
  pose proof (get_user_loaded _ today1 _ _ stored) as Hu.
  assert (Hj : joined_at (snd (_get_user q today1 st)) = Some joined)
    by (rewrite Hu, Fj; exact active).
  pose proof (run_leave_charged evt1 today1 now1 st uid_ok joined Hj units
                billed (FloatOrder.is_ceiling_math_ceil _ _ units_ok)) as Hrun.
  rewrite Hu, Fd, Fb in Hrun. specialize (Hrun afford storable).
  pose proof (select_after_write evt1 today1 st
                (charged_row (snd (_get_user q today1 st)) duration fee)
                eq_refl eq_refl) as Hsel.
  set (st1 := Sql.update_where q
                (Sql.write_row (charged_row user duration fee))
                (fst (_get_user q today1 st))) in *.
  rewrite Hu in Hsel. fold st1 in Hsel.
  set (paid := {| qq := qq user;
                  balance := balance (charged_row user duration fee);
                  joined_at := None;
                  total_time := total_time (charged_row user duration fee);
                  today_date := today_date (charged_row user duration fee);
                  today_consumption :=
                    today_consumption (charged_row user duration fee);
                  discount := discount (charged_row user duration fee) |})
    in *.
  destruct (loaded_frame today2 paid) as (_ & Pb & Pj & _).
  pose proof (get_user_loaded _ today2 _ _ Hsel) as Hu2.
  assert (Hq2 : (_get_uid evt2 =? "")%string = false)
    by (rewrite same_uid; exact uid_ok).
  pose proof (run_leave_idle evt2 today2 now2 st1 Hq2) as Hidle.
  rewrite same_uid, Hu2 in Hidle. specialize (Hidle Pj).
  exists st1, (fst (_get_user q today2 st1)), (loaded today2 paid).
  split; [exact Hrun|]. split; [exact Hidle|]. split; [|split].
  - rewrite <- Hu2. apply get_user_select.
  - rewrite Pb. simpl. rewrite Fb. reflexivity.
  - exact Pj.
Qed.

End LeaveTwice.

(** C3, as stated, fails: with a balance that covers exactly one fee, two
    check-outs launched together give, in either order, one success and one
    answer that the user is not checked in, never a refusal for balance;
    and a check-out that charges goes through two locked sections, not
    one. *)
Lemma simultaneous_checkouts_counterexample :
  let leave := cmd_leave true Scenario.from_10001 "2024-05-01" 1714559600 in
  sections leave Scenario.one_fee = 2%nat
  /\ forall st' r1 r2,
       both_run (Scenario.one_fee, leave, leave) (st', r1, r2) ->
       ((r1 = LeaveOk 2000 6 12 0 /\ r2 = NotAttending)
        \/ (r1 = NotAttending /\ r2 = LeaveOk 2000 6 12 0))
       /\ (forall f b, r1 <> LeaveInsufficient f b)
       /\ (forall f b, r2 <> LeaveInsufficient f b).
Proof.
  cbv zeta. split; [reflexivity|]. intros st' r1 r2 H.
  apply both_run_inv in H. destruct H as [H|H]; injection H as _ -> ->.
  - split; [left; split; reflexivity|]. split; intros f b; discriminate.
  - split; [right; split; reflexivity|]. split; intros f b; discriminate.
Qed.

(** C3 (amended): a check-out that charges takes the lock twice, for the
    load that the decision follows and for the write, but no other handler
    runs between the two.  Two check-outs of one account with an open
    session, launched together, each with a fee that the balance covers,
    run in one of the two orders, and in both exactly one reports success
    and the other is answered that the user is not checked in, not that the
    balance is short: the first to run closes the session.  The table ends
    with the fee of the check-out that succeeded taken from the balance,
    once, and the session closed. *)
Theorem simultaneous_checkouts (evt1 evt2 : event) (today1 today2 : string)
    (now1 now2 : float) (st : store) (row : user_data) (joined : float)
    (units1 units2 : Z) :
  let q := _get_uid evt1 in
  let d1 := now1 - joined in
  let d2 := now2 - joined in
  let fee1 := spec_fee units1 HOURLY_FEE (discount row) in
  let fee2 := spec_fee units2 HOURLY_FEE (discount row) in
  let leave1 := cmd_leave true evt1 today1 now1 in
  let leave2 := cmd_leave true evt2 today2 now2 in
  let ok1 :=
    LeaveOk d1 fee1 (today_consumption (loaded today1 row) + fee1)
      (balance row - fee1) in
  let ok2 :=
    LeaveOk d2 fee2 (today_consumption (loaded today2 row) + fee2)
      (balance row - fee2) in
  _get_uid evt2 = q ->
  (q =? "")%string = false ->
  Sql.select_user q st = Some row ->
  joined_at row = Some joined ->
  (d1 <=? GRACE_PERIOD_SECONDS) = false ->
  (d2 <=? GRACE_PERIOD_SECONDS) = false ->
  is_ceiling (d1 / 1800) units1 ->
  is_ceiling (d2 / 1800) units2 ->
  (balance row <? fee1) = false ->
  (balance row <? fee2) = false ->
  Sql.not_null (charged_row (loaded today1 row) d1 fee1) = true ->
  Sql.not_null (charged_row (loaded today2 row) d2 fee2) = true ->
  sections leave1 st = 2%nat
  /\ sections leave2 st = 2%nat
  /\ (forall st' r1 r2,
        both_run (st, leave1, leave2) (st', r1, r2) ->
        exists row',
          Sql.select_user q st' = Some row' /\ joined_at row' = None
          /\ ((r1 = ok1 /\ r2 = NotAttending
               /\ balance row' = balance row - fee1)
              \/ (r1 = NotAttending /\ r2 = ok2
                  /\ balance row' = balance row - fee2)))
  /\ (exists st', both_run (st, leave1, leave2) (st', ok1, NotAttending))
  /\ (exists st', both_run (st, leave1, leave2) (st', NotAttending, ok2)).
Proof.
  cbv zeta. intros Hsame Hq Hrow Hj Hg1 Hg2 Hu1 Hu2 Hb1 Hb2 Hn1 Hn2.
  assert (Hq2 : (_get_uid evt2 =? "")%string = false)
    by (rewrite Hsame; exact Hq).
  assert (Hrow2 : Sql.select_user (_get_uid evt2) st = Some row)
    by (rewrite Hsame; exact Hrow).
  destruct (leave_then_leave evt1 evt2 today1 today2 now1 now2 st row joined
              units1 Hsame Hq Hrow Hj Hg1 Hu1 Hb1 Hn1)
    as (sa & sb & rowa & Ra1 & Ra2 & Sa & Ba & Ja).
  destruct (leave_then_leave evt2 evt1 today2 today1 now2 now1 st row joined
              units2 (eq_sym Hsame) Hq2 Hrow2 Hj Hg2 Hu2 Hb2 Hn2)
    as (sc & sd & rowb & Rb1 & Rb2 & Sb & Bb & Jb).
  rewrite Hsame in Sb.
  split; [|split; [|split; [|split]]].
  - exact (leave_sections evt1 today1 now1 st row joined units1
             Hq Hrow Hj Hg1 Hu1 Hb1).
  - exact (leave_sections evt2 today2 now2 st row joined units2
             Hq2 Hrow2 Hj Hg2 Hu2 Hb2).
  - intros st' r1 r2 H. apply both_run_inv in H.
    destruct H as [H|H]; injection H as -> -> ->.
    + rewrite Ra1. cbn [fst snd]. rewrite Ra2. cbn [fst snd].
      exists rowa. split; [exact Sa|]. split; [exact Ja|].
      left. repeat split. exact Ba.
    + rewrite Rb1. cbn [fst snd]. rewrite Rb2. cbn [fst snd].
      exists rowb. split; [exact Sb|]. split; [exact Jb|].
      right. repeat split. exact Bb.
  - exists sb.
    pose proof (first_then_second st (cmd_leave true evt1 today1 now1)
                  (cmd_leave true evt2 today2 now2)) as H.
    rewrite Ra1 in H. cbn [fst snd] in H. rewrite Ra2 in H. exact H.
  - exists sd.
    pose proof (second_then_first st (cmd_leave true evt1 today1 now1)
                  (cmd_leave true evt2 today2 now2)) as H.
    rewrite Rb1 in H. cbn [fst snd] in H. rewrite Rb2 in H. exact H.
Qed.

Lemma simultaneous_checkouts_witness :
  sections (cmd_leave true Scenario.from_10001 "2024-05-01" 1714559600)
    Scenario.one_fee = 2%nat
  /\ (exists st',
        both_run (Scenario.one_fee,
                  cmd_leave true Scenario.from_10001 "2024-05-01" 1714559600,
                  cmd_leave true (mkEvent "10001" "退勤") "2024-05-01"
                    1714559601)
          (st', LeaveOk 2000 6 12 0, NotAttending))
  /\ (exists st',
        both_run (Scenario.one_fee,
                  cmd_leave true Scenario.from_10001 "2024-05-01" 1714559600,
                  cmd_leave true (mkEvent "10001" "退勤") "2024-05-01"
                    1714559601)
          (st', NotAttending, LeaveOk 2001 6 12 0)).
Proof.
  assert (C2000 : is_ceiling ((1714559600 - Scenario.morning) / 1800) 2).
  { vm_compute. split; [reflexivity|discriminate]. }
  assert (C2001 : is_ceiling ((1714559601 - Scenario.morning) / 1800) 2).
  { vm_compute. split; [reflexivity|discriminate]. }
  destruct (simultaneous_checkouts Scenario.from_10001 (mkEvent "10001" "退勤")
              "2024-05-01" "2024-05-01" 1714559600 1714559601
              Scenario.one_fee Scenario.exact Scenario.morning 2%Z 2%Z
              eq_refl eq_refl eq_refl eq_refl eq_refl eq_refl C2000 C2001
              eq_refl eq_refl eq_refl eq_refl)
    as (Hs & _ & _ & H12 & H21).
  split; [exact Hs|]. split; [exact H12|exact H21].
Defined.

(** ** The handlers on the scenarios of the specification *)

Module Walkthrough.

(** A session of 2000 s is two units: 6.0 at full price. *)
Example leave_at_2000 :
  snd (run (cmd_leave true Scenario.from_10001 "2024-05-01" 2000)
         (Scenario.fresh 1.0))
  = LeaveOk 2000 6 6 4.
Proof. vm_compute. reflexivity. Qed.

(** The same session at a discount of 0.5: 3.0. *)
Example leave_at_2000_half_price :
  snd (run (cmd_leave true Scenario.from_10001 "2024-05-01" 2000)
         (Scenario.fresh 0.5))
  = LeaveOk 2000 3 3 7.
Proof. vm_compute. reflexivity. Qed.

(** A session of 120 s is within the grace period. *)
Example leave_at_120 :
  snd (run (cmd_leave true Scenario.from_10001 "2024-05-01" 120)
         (Scenario.fresh 1.0))
  = LeaveWaived.
Proof. vm_compute. reflexivity. Qed.

(** A session of 125 s is beyond it and costs one unit. *)
Example leave_at_125 :
  snd (run (cmd_leave true Scenario.from_10001 "2024-05-01" 125)
         (Scenario.fresh 1.0))
  = LeaveOk 125 3 3 7.
Proof. vm_compute. reflexivity. Qed.

(** Sessions of 1800 s and of 1801 s: one unit and two. *)
Example leave_at_1800 :
  snd (run (cmd_leave true Scenario.from_10001 "2024-05-01" 1800)
         (Scenario.fresh 1.0))
  = LeaveOk 1800 3 3 7.
Proof. vm_compute. reflexivity. Qed.

Example leave_at_1801 :
  snd (run (cmd_leave true Scenario.from_10001 "2024-05-01" 1801)
         (Scenario.fresh 1.0))
  = LeaveOk 1801 6 6 4.
Proof. vm_compute. reflexivity. Qed.

(** Checking in twice is refused and changes nothing. *)
Example attend_twice :
  run (cmd_attend true Scenario.from_10001 "2024-05-01" 50) (Scenario.fresh 1.0)
  = (Scenario.fresh 1.0, AlreadyAttending).
Proof. vm_compute. reflexivity. Qed.

(** The amount [nan] passes the test [amount <= 0]: the target is created
    by the load and the write then fails on the [NOT NULL] balance. *)
Example charge_nan :
  amount_rejected "nan" = false
  /\ exists st',
       run (cmd_charge true (mkEvent Scenario.admin "charge 10009 nan")
              "2024-05-01") []
       = (st', Raised IntegrityError)
       /\ List.length st' = 1%nat.
Proof. split; [reflexivity|]. eexists. split; reflexivity. Qed.

End Walkthrough.

(** * Further properties of the plugin *)

(** ** Loading and writing accounts *)

Lemma select_none_keys (q : string) (st : store) :
  Sql.select_user q st = None <-> ~ In q (keys st).
Proof.
  unfold Sql.select_user, keys. induction st as [|u st IH]; simpl.
  - split; [intros _ []|reflexivity].
  - destruct (qq u =? q)%string eqn:E.
    + apply String.eqb_eq in E. split; [discriminate|]. intros H.
      destruct H. left. exact E.
    + apply String.eqb_neq in E. rewrite IH. split.
      * intros H [Hq|Hq]; [exact (E Hq)|exact (H Hq)].
      * intros H Hq. apply H. right. exact Hq.
Qed.

Lemma keys_update_where (q : string) (f : user_data -> user_data) (st : store) :
  (forall u, qq (f u) = qq u) -> keys (Sql.update_where q f st) = keys st.
Proof.
  intros Hf. unfold keys, Sql.update_where. rewrite map_map. apply map_ext.
  intros u. destruct (qq u =? q)%string; [apply Hf|reflexivity].
Qed.

Lemma get_user_keys (q today : string) (st : store) :
  keys (fst (_get_user q today st))
  = keys st ++ match Sql.select_user q st with Some _ => [] | None => [q] end.
Proof.
  destruct (Sql.select_user q st) as [row|] eqn:H.
  - rewrite (get_user_existing _ _ _ _ H), app_nil_r.
    destruct (today_date row =? today)%string; simpl; [reflexivity|].
    apply keys_update_where. reflexivity.
  - rewrite (get_user_new _ _ _ H). simpl. unfold keys, Sql.insert_user.
    rewrite map_app. reflexivity.
Qed.

Lemma update_user_keys (q : string) (upd : updates) (st : store) :
  keys (fst (_update_user q upd st)) = keys st.
Proof.
  unfold _update_user. destruct (Sql.select_user q st) as [row|]; [|reflexivity].
  destruct (Sql.not_null (dict_update row upd)); [|reflexivity].
  simpl. apply keys_update_where. reflexivity.
Qed.

(** X1: [_get_user] is a get-or-create.  After it the account exists, is
    found as the dictionary returned, carries the key asked for and the
    current day; the table has one more row, the last, exactly when the key
    was absent, and that row is the default account (no money, no session,
    no discount); every other account is as before. *)
Theorem get_or_create (q today : string) (st : store) :
  let st1 := fst (_get_user q today st) in
  let user := snd (_get_user q today st) in
  Sql.select_user q st1 = Some user
  /\ qq user = q /\ today_date user = today
  /\ keys st1
     = keys st ++ match Sql.select_user q st with Some _ => [] | None => [q] end
  /\ match Sql.select_user q st with
     | Some _ => True
     | None =>
         user = {| qq := q; balance := 0; joined_at := None; total_time := 0;
                   today_date := today; today_consumption := 0;
                   discount := 1 |}
     end
  /\ forall q', (q' =? q)%string = false ->
                Sql.select_user q' st1 = Sql.select_user q' st.
Proof.
  cbv zeta. split; [apply get_user_select|].
  split; [exact (select_user_qq _ _ _ (get_user_select q today st))|].
  split; [apply get_user_today|]. split; [apply get_user_keys|]. split.
  - destruct (Sql.select_user q st) eqn:H; [exact I|].
    rewrite (get_user_new _ _ _ H). reflexivity.
  - intros q' Hne. apply get_user_other. apply String.eqb_neq. exact Hne.
Qed.

Lemma get_or_create_witness :
  Sql.select_user "10002"
    (fst (_get_user "10009" "2024-05-01" Scenario.two_users))
  = Sql.select_user "10002" Scenario.two_users.
Proof.
  exact (proj2 (proj2 (proj2 (proj2 (proj2
           (get_or_create "10009" "2024-05-01" Scenario.two_users)))))
           "10002" eq_refl).
Defined.

(** X2: loading is idempotent within a day: a second [_get_user] for the
    same account on the same day returns the same dictionary and leaves the
    table as the first load left it. *)
Theorem load_twice (q today : string) (st : store) :
  _get_user q today (fst (_get_user q today st))
  = (fst (_get_user q today st), snd (_get_user q today st)).
Proof.
  apply get_user_again; [apply get_user_select|apply get_user_today].
Qed.

(** X3: [_update_user] merges a partial update.  When the account is
    missing it raises [ValueError] and the table is untouched.  When it
    succeeds, each column named in [updates] holds the new value and each
    column not named keeps the stored one; the key and the day are never
    changed; the dictionary returned carries the same values.  In every
    case no row is added or removed. *)
Theorem partial_update (q : string) (upd : updates) (st : store) :
  keys (fst (_update_user q upd st)) = keys st
  /\ (Sql.select_user q st = None ->
      _update_user q upd st = (st, inl ValueError))
  /\ forall row user,
       Sql.select_user q st = Some row ->
       snd (_update_user q upd st) = inr user ->
       user = dict_update row upd
       /\ exists row',
            Sql.select_user q (fst (_update_user q upd st)) = Some row'
            /\ qq row' = qq row /\ today_date row' = today_date row
            /\ balance row' = or_else (set_balance upd) (balance row)
            /\ joined_at row'
               = Sql.bind_real (or_else (set_joined_at upd) (joined_at row))
            /\ total_time row' = or_else (set_total_time upd) (total_time row)
            /\ today_consumption row'
               = or_else (set_today_consumption upd) (today_consumption row)
            /\ discount row' = or_else (set_discount upd) (discount row).
Proof.
  split; [apply update_user_keys|]. split.
  - intros H. unfold _update_user. rewrite H. reflexivity.
  - intros row user Hrow Hres.
    destruct (Sql.not_null (dict_update row upd)) eqn:Hn.
    + rewrite (update_user_ok _ _ _ _ Hrow Hn) in *. simpl in Hres.
      injection Hres as <-. split; [reflexivity|].
      eexists. split.
      * simpl. rewrite select_update_where_same by reflexivity.
        rewrite Hrow. reflexivity.
      * simpl. repeat split; reflexivity.
    + rewrite (update_user_null _ _ _ _ Hrow Hn) in Hres. discriminate.
Qed.

Lemma partial_update_witness :
  exists row',
    Sql.select_user "10002"
      (fst (_update_user "10002"
              {| set_balance := Some 4; set_joined_at := None;
                 set_total_time := None; set_today_consumption := None;
                 set_discount := None |} Scenario.two_users))
    = Some row'
    /\ balance row' = 4 /\ discount row' = 0.5
    /\ _update_user "10009"
         {| set_balance := Some 4; set_joined_at := None;
            set_total_time := None; set_today_consumption := None;
            set_discount := None |} Scenario.two_users
       = (Scenario.two_users, inl ValueError).
Proof.
  pose (upd := {| set_balance := Some 4; set_joined_at := None;
                  set_total_time := None; set_today_consumption := None;
                  set_discount := None |}).
  destruct (partial_update "10002" upd Scenario.two_users) as (_ & _ & Hok).
  destruct (Hok Scenario.idle (dict_update Scenario.idle upd) eq_refl eq_refl)
    as (_ & row' & Hsel & _ & _ & Hb & _ & _ & _ & Hd).
  exists row'. split; [exact Hsel|]. split; [exact Hb|]. split; [exact Hd|].
  exact (proj1 (proj2 (partial_update "10009" upd Scenario.two_users)) eq_refl).
Defined.

(** X4: what [_update_user] writes is what the next [_get_user] reads: on
    the day stored with the account, the load returns the values written (a
    NaN session start being stored as [NULL]) and leaves the table alone. *)
Theorem write_then_load (q : string) (upd : updates) (st : store)
    (row user : user_data) :
  Sql.select_user q st = Some row ->
  snd (_update_user q upd st) = inr user ->
  _get_user q (today_date row) (fst (_update_user q upd st))
  = (fst (_update_user q upd st),
     {| qq := qq user; balance := balance user;
        joined_at := Sql.bind_real (joined_at user);
        total_time := total_time user; today_date := today_date user;
        today_consumption := today_consumption user;
        discount := discount user |}).
Proof.
  intros Hrow Hres.
  destruct (Sql.not_null (dict_update row upd)) eqn:Hn.
  - rewrite (update_user_ok _ _ _ _ Hrow Hn) in *. simpl in Hres.
    injection Hres as <-. simpl fst. apply get_user_again.
    + rewrite select_update_where_same by reflexivity. rewrite Hrow. reflexivity.
    + reflexivity.
  - rewrite (update_user_null _ _ _ _ Hrow Hn) in Hres. discriminate.
Qed.

Lemma write_then_load_witness :
  exists st',
    _get_user "10002" "2024-05-01"
      (fst (_update_user "10002"
              {| set_balance := None; set_joined_at := Some (Some 50);
                 set_total_time := None; set_today_consumption := None;
                 set_discount := None |} Scenario.two_users))
    = (st', {| qq := "10002"; balance := 2.5; joined_at := Some 50;
               total_time := 0; today_date := "2024-05-01";
               today_consumption := 0; discount := 0.5 |}).
Proof.
  eexists.
  exact (write_then_load "10002"
           {| set_balance := None; set_joined_at := Some (Some 50);
              set_total_time := None; set_today_consumption := None;
              set_discount := None |} Scenario.two_users Scenario.idle
           (dict_update Scenario.idle
              {| set_balance := None; set_joined_at := Some (Some 50);
                 set_total_time := None; set_today_consumption := None;
                 set_discount := None |}) eq_refl eq_refl).
Defined.

(** ** What every handler keeps *)

Lemma handler_on_handler (q : string) (p : prog) : handler_on q p -> handler p.
Proof. induction 1; constructor; assumption. Qed.

Lemma handler_on_other (q : string) (p : prog) :
  handler_on q p ->
  forall q' st, q' <> q ->
    Sql.select_user q' (fst (run p st)) = Sql.select_user q' st.
Proof.
  induction 1 as [r|today k Hk IH|upd k|f]; intros q' st Hne.
  - reflexivity.
  - rewrite run_get_then. rewrite IH by exact Hne.
    apply get_user_other. exact Hne.
  - rewrite run_update_then. simpl fst. apply update_user_other. exact Hne.
  - reflexivity.
Qed.

Lemma handler_keys (p : prog) :
  handler p ->
  forall st,
    (exists extra, keys (fst (run p st)) = keys st ++ extra)
    /\ (NoDup (keys st) -> NoDup (keys (fst (run p st)))).
Proof.
  induction 1 as [r|q today k Hk IH|q upd k|f]; intros st.
  - split; [exists []; rewrite app_nil_r; reflexivity|trivial].
  - rewrite run_get_then.
    destruct (IH (snd (_get_user q today st)) (fst (_get_user q today st)))
      as [[extra He] Hnd].
    split.
    + eexists. rewrite He, get_user_keys, <- app_assoc. reflexivity.
    + intros Hst. apply Hnd. rewrite get_user_keys.
      destruct (Sql.select_user q st) eqn:Hs.
      * rewrite app_nil_r. exact Hst.
      * apply select_none_keys in Hs.
        apply NoDup_app; [exact Hst| |].
        -- constructor; [intros []|constructor].
        -- intros x Hx [Hq|[]]. subst x. exact (Hs Hx).
  - rewrite run_update_then. simpl fst. rewrite update_user_keys. split.
    + exists []. rewrite app_nil_r. reflexivity.
    + trivial.
  - split; [exists []; rewrite app_nil_r; reflexivity|trivial].
Qed.

Lemma handler_on_leave (init : bool) (evt : event) (today : string) (now : float) :
  handler_on (_get_uid evt) (cmd_leave init evt today now).
Proof.
  unfold cmd_leave. destruct (negb init); [constructor|].
  destruct (_get_uid evt =? "")%string; [constructor|].
  constructor. intros user. unfold leave_decision.
  destruct (joined_at user) as [joined|]; [|constructor].
  cbv zeta. destruct (now - joined <=? GRACE_PERIOD_SECONDS); [constructor|].
  destruct (PyFloat.math_ceil ((now - joined) / 1800)); [constructor|].
  destruct (balance user <? _); constructor.
Qed.

Lemma handler_on_attend (init : bool) (evt : event) (today : string)
    (now : float) :
  handler_on (_get_uid evt) (cmd_attend init evt today now).
Proof.
  unfold cmd_attend. destruct (negb init); [constructor|].
  destruct (_get_uid evt =? "")%string; [constructor|].
  constructor. intros user. destruct (joined_at user); constructor.
Qed.

(** The account an admin command names: the second of its three words. *)
Lemma handler_on_admin_op (evt : event) (op : op_type) (today : string)
    (q' : string) :
  (forall cmd target arg,
     PyStr.split (message_str evt) = [cmd; target; arg] -> q' <> target) ->
  exists q, q' <> q /\ handler_on q (_admin_op evt op today).
Proof.
  intros Hne. unfold _admin_op.
  destruct (PyStr.split (message_str evt)) as [|a [|b [|c [|d l]]]];
    try (exists (String "x" q'); split;
         [intros E; apply (f_equal String.length) in E; simpl in E; lia
         |destruct (negb (is_admin (_get_uid evt))); constructor]).
  exists b. split; [exact (Hne a b c eq_refl)|].
  destruct (negb (is_admin (_get_uid evt))); [constructor|].
  destruct (negb (PyStr.isdigit b)); [constructor|].
  destruct (PyParse.float c) as [amount|]; [|constructor].
  destruct (amount <=? 0); [constructor|].
  constructor. intros user. unfold admin_decision.
  destruct op; [constructor|].
  destruct (balance user <? amount); constructor.
Qed.

Lemma handler_on_discount (init : bool) (evt : event) (today : string)
    (q' : string) :
  (forall cmd target arg,
     PyStr.split (message_str evt) = [cmd; target; arg] -> q' <> target) ->
  exists q, q' <> q /\ handler_on q (cmd_discount init evt today).
Proof.
  intros Hne. unfold cmd_discount.
  destruct (PyStr.split (message_str evt)) as [|a [|b [|c [|d l]]]];
    try (exists (String "x" q'); split;
         [intros E; apply (f_equal String.length) in E; simpl in E; lia
         |destruct (negb init); [constructor|];
          destruct (negb (is_admin (_get_uid evt))); constructor]).
  exists b. split; [exact (Hne a b c eq_refl)|].
  destruct (negb init); [constructor|].
  destruct (negb (is_admin (_get_uid evt))); [constructor|].
  destruct (negb (PyStr.isdigit b)); [constructor|].
  destruct (parse_rate c) as [rate|]; [|constructor].
  destruct (negb _); [constructor|].
  constructor. intros user. constructor.
Qed.

Lemma extends_refl (st : store) : extends st st.
Proof. split; [exists []; rewrite app_nil_r; reflexivity|trivial]. Qed.

Lemma extends_get_user (q today : string) (st : store) :
  extends st (fst (_get_user q today st)).
Proof.
  pose proof (handler_keys (get_then q today (fun user => Ret (Raised ValueError)))
                (handler_get _ _ _ (fun _ => handler_ret _)) st) as H.
  rewrite run_get_then in H. exact H.
Qed.

(** X5: no handler deletes or duplicates an account.  After any command the
    table holds the accounts it held, in the same order, followed by those
    the command created; keys that were distinct stay distinct (one record
    per identity).  For the admin commands the words after the command word
    are taken in the ASCII range. *)
Theorem accounts_persist (init : bool) (evt : event) (today : string)
    (now : float) (st : store) :
  extends st (fst (run (cmd_attend init evt today now) st))
  /\ extends st (fst (run (cmd_leave init evt today now) st))
  /\ extends st (fst (run (cmd_rank init) st))
  /\ extends st (fst (cmd_info init evt today st))
  /\ extends st (fst (cmd_balance init evt today st))
  /\ extends st (fst (cmd_list init now st))
  /\ (ascii_operands evt = true ->
      extends st (fst (run (cmd_charge init evt today) st))
      /\ extends st (fst (run (cmd_deduct init evt today) st))
      /\ extends st (fst (run (cmd_discount init evt today) st))).
Proof.
  repeat match goal with |- _ /\ _ => split end.
  - apply handler_keys. apply handler_attend.
  - apply handler_keys. apply handler_leave.
  - apply handler_keys. apply handler_rank.
  - unfold cmd_info. destruct (negb init); [apply extends_refl|].
    destruct (_get_uid evt =? "")%string; [apply extends_refl|].
    pose proof (extends_get_user (_get_uid evt) today st) as H.
    destruct (_get_user (_get_uid evt) today st). exact H.
  - unfold cmd_balance. destruct (negb init); [apply extends_refl|].
    destruct (_get_uid evt =? "")%string; [apply extends_refl|].
    pose proof (extends_get_user (_get_uid evt) today st) as H.
    destruct (_get_user (_get_uid evt) today st). exact H.
  - unfold cmd_list. destruct (negb init); apply extends_refl.
  - intros _. repeat match goal with |- _ /\ _ => split end.
    + apply handler_keys. unfold cmd_charge.
      destruct (negb init); [constructor|apply handler_admin_op].
    + apply handler_keys. unfold cmd_deduct.
      destruct (negb init); [constructor|apply handler_admin_op].
    + apply handler_keys. apply handler_discount.
Qed.

Lemma accounts_persist_witness :
  extends Scenario.two_users
    (fst (run (cmd_charge true (mkEvent Scenario.admin "充值 10009 5")
                 "2024-05-01") Scenario.two_users))
  /\ keys (fst (run (cmd_charge true (mkEvent Scenario.admin "充值 10009 5")
                      "2024-05-01") Scenario.two_users))
     = ["10001"; "10002"; "10009"].
Proof.
  split; [|reflexivity].
  exact (proj1 (proj2 (proj2 (proj2 (proj2 (proj2 (proj2
           (accounts_persist true (mkEvent Scenario.admin "充值 10009 5")
              "2024-05-01" 0 Scenario.two_users)))))) eq_refl)).
Defined.

(** X6: a command changes no account but the one it is about.  Check-in,
    check-out, info and balance leave every account other than the sender's
    as it was; credit, debit and set-discount leave every account other
    than the target (the second word of the message) as it was, the
    administrator's own included, the words after the command word being
    in the ASCII range; ranking and the session list leave the whole table
    as it was. *)
Theorem other_accounts_untouched (init : bool) (evt : event) (today : string)
    (now : float) (st : store) (q' : string) :
  ((q' =? _get_uid evt)%string = false ->
     Sql.select_user q' (fst (run (cmd_attend init evt today now) st))
     = Sql.select_user q' st
     /\ Sql.select_user q' (fst (run (cmd_leave init evt today now) st))
        = Sql.select_user q' st
     /\ Sql.select_user q' (fst (cmd_info init evt today st))
        = Sql.select_user q' st
     /\ Sql.select_user q' (fst (cmd_balance init evt today st))
        = Sql.select_user q' st)
  /\ (ascii_operands evt = true ->
      (forall cmd target arg,
         PyStr.split (message_str evt) = [cmd; target; arg] -> q' <> target) ->
      Sql.select_user q' (fst (run (cmd_charge init evt today) st))
      = Sql.select_user q' st
      /\ Sql.select_user q' (fst (run (cmd_deduct init evt today) st))
         = Sql.select_user q' st
      /\ Sql.select_user q' (fst (run (cmd_discount init evt today) st))
         = Sql.select_user q' st)
  /\ fst (run (cmd_rank init) st) = st
  /\ fst (cmd_list init now st) = st.
Proof.
  split; [|split; [|split]].
  - intros Hne. apply String.eqb_neq in Hne. repeat split.
    + apply (handler_on_other _ _ (handler_on_attend init evt today now)).
      exact Hne.
    + apply (handler_on_other _ _ (handler_on_leave init evt today now)).
      exact Hne.
    + unfold cmd_info. destruct (negb init); [reflexivity|].
      destruct (_get_uid evt =? "")%string; [reflexivity|].
      pose proof (get_user_other (_get_uid evt) q' today st Hne) as H.
      destruct (_get_user (_get_uid evt) today st). exact H.
    + unfold cmd_balance. destruct (negb init); [reflexivity|].
      destruct (_get_uid evt =? "")%string; [reflexivity|].
      pose proof (get_user_other (_get_uid evt) q' today st Hne) as H.
      destruct (_get_user (_get_uid evt) today st). exact H.
  - intros _ Hne. repeat split.
    + unfold cmd_charge. destruct (negb init); [reflexivity|].
      destruct (handler_on_admin_op evt Charge today q' Hne) as (q & Hq & Hh).
      apply (handler_on_other _ _ Hh). exact Hq.
    + unfold cmd_deduct. destruct (negb init); [reflexivity|].
      destruct (handler_on_admin_op evt Deduct today q' Hne) as (q & Hq & Hh).
      apply (handler_on_other _ _ Hh). exact Hq.
    + destruct (handler_on_discount init evt today q' Hne) as (q & Hq & Hh).
      apply (handler_on_other _ _ Hh). exact Hq.
  - unfold cmd_rank. destruct (negb init); reflexivity.
  - unfold cmd_list. destruct (negb init); reflexivity.
Qed.

Lemma other_accounts_untouched_witness :
  Sql.select_user "10002"
    (fst (run (cmd_leave true Scenario.from_10001 "2024-05-01" 1714559600)
            Scenario.two_users))
  = Some Scenario.idle
  /\ Sql.select_user "10001"
       (fst (run (cmd_charge true (mkEvent Scenario.admin "charge 10002 5")
                    "2024-05-01") Scenario.two_users))
     = Some Scenario.rich.
Proof.
  split.
  - exact (proj1 (proj2 (proj1 (other_accounts_untouched true Scenario.from_10001
                                  "2024-05-01" 1714559600 Scenario.two_users
                                  "10002") eq_refl))).
  - refine (proj1 (proj1 (proj2 (other_accounts_untouched true
                                   (mkEvent Scenario.admin "charge 10002 5")
                                   "2024-05-01" 0 Scenario.two_users "10001"))
                     eq_refl _)).
    intros cmd target arg H. injection H as _ <- _. discriminate.
Defined.

(** ** Check-in and whole sessions *)

Lemma waived_row_idle (u : user_data) : joined_at u = None -> waived_row u = u.
Proof. destruct u. simpl. intros ->. reflexivity. Qed.

Lemma not_null_valid (u : user_data) : valid_row u = true -> Sql.not_null u = true.
Proof. unfold valid_row. intros H. apply andb_true_iff in H. exact (proj1 H). Qed.

(** Check-out on a table where the sender's row is [u], dated today: the
    load returns [u] and writes nothing. *)
Section LeaveAt.

Variables (evt : event) (today : string) (now : float) (s : store).
Variable u : user_data.

Hypothesis uid_ok : (_get_uid evt =? "")%string = false.
Hypothesis found : Sql.select_user (_get_uid evt) s = Some u.
Hypothesis dated : today_date u = today.

Lemma load_at : _get_user (_get_uid evt) today s = (s, u).
Proof. apply get_user_again; assumption. Qed.

Lemma run_leave_waived_at (joined : float) :
  consistent s = true -> joined_at u = Some joined ->
  (now - joined <=? GRACE_PERIOD_SECONDS) = true ->
  run (cmd_leave true evt today now) s
  = (Sql.update_where (_get_uid evt) (Sql.write_row (waived_row u)) s,
     LeaveWaived)
  /\ Sql.select_user (_get_uid evt)
       (Sql.update_where (_get_uid evt) (Sql.write_row (waived_row u)) s)
     = Some (waived_row u).
Proof.
  intros Hc Hj Hg.
  pose proof (run_leave_waived evt today now s uid_ok joined) as H.
  pose proof (select_after_write evt today s (waived_row u)) as Hs.
  rewrite load_at in H, Hs. simpl in H, Hs. split.
  - exact (H Hj Hc Hg).
  - apply Hs; reflexivity.
Qed.

Lemma run_leave_charged_at (joined : float) (units : Z) :
  joined_at u = Some joined ->
  (now - joined <=? GRACE_PERIOD_SECONDS) = false ->
  PyFloat.math_ceil ((now - joined) / 1800) = inr units ->
  let fee := spec_fee units HOURLY_FEE (discount u) in
  (balance u <? fee) = false ->
  Sql.not_null (charged_row u (now - joined) fee) = true ->
  run (cmd_leave true evt today now) s
  = (Sql.update_where (_get_uid evt)
       (Sql.write_row (charged_row u (now - joined) fee)) s,
     LeaveOk (now - joined) fee (today_consumption u + fee) (balance u - fee))
  /\ Sql.select_user (_get_uid evt)
       (Sql.update_where (_get_uid evt)
          (Sql.write_row (charged_row u (now - joined) fee)) s)
     = Some (charged_row u (now - joined) fee).
Proof.
  intros Hj Hg Hu fee Hb Hn.
  pose proof (run_leave_charged evt today now s uid_ok joined) as H.
  pose proof (select_after_write evt today s
                (charged_row u (now - joined) fee)) as Hs.
  rewrite load_at in H, Hs. simpl in H, Hs. split.
  - exact (H Hj units Hg Hu Hb Hn).
  - apply Hs; reflexivity.
Qed.

End LeaveAt.

(** The table and the answer of a check-in by a user with no open
    session. *)
Lemma run_attend_idle (evt : event) (today : string) (now : float) (st : store) :
  let q := _get_uid evt in
  let st1 := fst (_get_user q today st) in
  let user := snd (_get_user q today st) in
  (q =? "")%string = false -> consistent st = true ->
  joined_at user = None -> is_nan now = false ->
  run (cmd_attend true evt today now) st
  = (Sql.update_where q (Sql.write_row (started_row user now)) st1,
     AttendOk (balance user))
  /\ Sql.select_user q
       (Sql.update_where q (Sql.write_row (started_row user now)) st1)
     = Some (started_row user now)
  /\ consistent (Sql.update_where q (Sql.write_row (started_row user now)) st1)
     = true.
Proof.
  cbv zeta. intros Hq Hc Hj Hnow.
  set (upd := {| set_balance := None; set_joined_at := Some (Some now);
                 set_total_time := None; set_today_consumption := None;
                 set_discount := None |}).
  assert (Hn : Sql.not_null (dict_update (snd (_get_user (_get_uid evt) today st))
                               upd) = true).
  { apply (not_null_valid _ (valid_loaded _ today st Hc)). }
  destruct (run_update_after_load (_get_uid evt) today st upd
              (fun _ => AttendOk (balance (snd (_get_user (_get_uid evt) today st))))
              Hn) as [Hrun Hsel].
  change (dict_update (snd (_get_user (_get_uid evt) today st)) upd)
    with (started_row (snd (_get_user (_get_uid evt) today st)) now)
    in Hrun, Hsel.
  assert (Hrun' : run (cmd_attend true evt today now) st
                  = (Sql.update_where (_get_uid evt)
                       (Sql.write_row (started_row
                                         (snd (_get_user (_get_uid evt) today st))
                                         now))
                       (fst (_get_user (_get_uid evt) today st)),
                     AttendOk (balance (snd (_get_user (_get_uid evt) today st))))).
  { unfold cmd_attend. simpl negb. cbv iota. rewrite Hq.
    rewrite run_get_then, Hj. exact Hrun. }
  split; [exact Hrun'|]. split.
  - rewrite Hsel. unfold Sql.write_row, started_row. simpl. rewrite Hnow.
    reflexivity.
  - pose proof (handler_consistent _ (handler_attend true evt today now) st Hc)
      as H.
    rewrite Hrun' in H. exact H.
Qed.

(** X7: check-in.  For a sender with no open session, at a clock reading
    that is a number, the answer reports the balance and the account gets
    the session start [now]; nothing else in the account changes beyond
    what the load did.  For a sender with an open session the answer is the
    refusal and the table is the one the load leaves: the session start is
    not replaced. *)
Theorem check_in (evt : event) (today : string) (now : float) (st : store) :
  let q := _get_uid evt in
  let st1 := fst (_get_user q today st) in
  let user := snd (_get_user q today st) in
  (q =? "")%string = false ->
  consistent st = true ->
  (joined_at user = None -> is_nan now = false ->
     exists st',
       run (cmd_attend true evt today now) st = (st', AttendOk (balance user))
       /\ Sql.select_user q st' = Some (started_row user now))
  /\ (forall joined, joined_at user = Some joined ->
        run (cmd_attend true evt today now) st = (st1, AlreadyAttending)
        /\ Sql.select_user q st1 = Some user).
Proof.
  cbv zeta. intros Hq Hc. split.
  - intros Hj Hnow.
    destruct (run_attend_idle evt today now st Hq Hc Hj Hnow) as (H1 & H2 & _).
    eexists. split; [exact H1|exact H2].
  - intros joined Hj. split; [|apply get_user_select].
    unfold cmd_attend. simpl negb. cbv iota. rewrite Hq.
    rewrite run_get_then, Hj. reflexivity.
Qed.

Lemma check_in_witness :
  (exists st',
     run (cmd_attend true (mkEvent "10002" "attend") "2024-05-01" 1714557600)
       Scenario.two_users
     = (st', AttendOk 2.5)
     /\ Sql.select_user "10002" st'
        = Some (started_row Scenario.idle 1714557600))
  /\ run (cmd_attend true Scenario.from_10001 "2024-05-01" 1714559600)
       Scenario.two_users
     = (Scenario.two_users, AlreadyAttending).
Proof.
  split.
  - exact (proj1 (check_in (mkEvent "10002" "attend") "2024-05-01" 1714557600
                    Scenario.two_users eq_refl eq_refl) eq_refl eq_refl).
  - exact (proj1 (proj2 (check_in Scenario.from_10001 "2024-05-01" 1714559600
                           Scenario.two_users eq_refl eq_refl)
                    Scenario.morning eq_refl)).
Defined.

(** X8: a check-in followed, the same day and within the grace period, by a
    check-out leaves the account exactly as the first load found it: the
    session is closed again and nothing was charged or counted. *)
Theorem check_in_then_out_in_grace (evt : event) (today : string)
    (t0 t1 : float) (st : store) :
  let q := _get_uid evt in
  let user := snd (_get_user q today st) in
  (q =? "")%string = false ->
  consistent st = true ->
  joined_at user = None -> is_nan t0 = false ->
  (t1 - t0 <=? GRACE_PERIOD_SECONDS) = true ->
  exists st1 st2,
    run (cmd_attend true evt today t0) st = (st1, AttendOk (balance user))
    /\ run (cmd_leave true evt today t1) st1 = (st2, LeaveWaived)
    /\ Sql.select_user q st2 = Some user.
Proof.
  cbv zeta. intros Hq Hc Hj Hnow Hg.
  destruct (run_attend_idle evt today t0 st Hq Hc Hj Hnow) as (H1 & H2 & H3).
  destruct (run_leave_waived_at evt today t1 _ _ Hq H2
              (get_user_today _ today st) t0 H3 eq_refl Hg) as [H4 H5].
  eexists. eexists. split; [exact H1|]. split; [exact H4|].
  rewrite H5. f_equal. apply (waived_row_idle _ Hj).
Qed.

Lemma check_in_then_out_in_grace_witness :
  exists st1 st2,
    run (cmd_attend true (mkEvent "10002" "attend") "2024-05-01" 1714557600)
      Scenario.two_users
    = (st1, AttendOk 2.5)
    /\ run (cmd_leave true (mkEvent "10002" "leave") "2024-05-01" 1714557700) st1
       = (st2, LeaveWaived)
    /\ Sql.select_user "10002" st2 = Some Scenario.idle.
Proof.
  exact (check_in_then_out_in_grace (mkEvent "10002" "attend") "2024-05-01"
           1714557600 1714557700 Scenario.two_users
           eq_refl eq_refl eq_refl eq_refl eq_refl).
Defined.

(** X9: a whole session.  A check-in at [t0] followed the same day by a
    check-out at [t1] beyond the grace period, by a user who can pay, is
    charged on [t1 - t0]: the answer reports that duration and the fee for
    [units] half hours at the user's discount, [units] being the least
    integer not below [(t1 - t0) / 1800], and the
    account ends with no session, the fee taken from the balance and added
    to the day's consumption, and the duration added to the total time. *)
Theorem whole_session (evt : event) (today : string) (t0 t1 : float)
    (st : store) (units : Z) :
  let q := _get_uid evt in
  let user := snd (_get_user q today st) in
  let fee := spec_fee units HOURLY_FEE (discount user) in
  (q =? "")%string = false ->
  consistent st = true ->
  joined_at user = None -> is_nan t0 = false ->
  (t1 - t0 <=? GRACE_PERIOD_SECONDS) = false ->
  is_ceiling ((t1 - t0) / 1800) units ->
  (balance user <? fee) = false ->
  Sql.not_null (charged_row user (t1 - t0) fee) = true ->
  exists st1 st2,
    run (cmd_attend true evt today t0) st = (st1, AttendOk (balance user))
    /\ run (cmd_leave true evt today t1) st1
       = (st2, LeaveOk (t1 - t0) fee (today_consumption user + fee)
                 (balance user - fee))
    /\ Sql.select_user q st2 = Some (charged_row user (t1 - t0) fee).
Proof.
  cbv zeta. intros Hq Hc Hj Hnow Hg Hu Hb Hn.
  apply FloatOrder.is_ceiling_math_ceil in Hu.
  destruct (run_attend_idle evt today t0 st Hq Hc Hj Hnow) as (H1 & H2 & H3).
  destruct (run_leave_charged_at evt today t1 _ _ Hq H2
              (get_user_today _ today st) t0 units eq_refl Hg Hu Hb Hn)
    as [H4 H5].
  eexists. eexists. split; [exact H1|]. split; [exact H4|exact H5].
Qed.

Lemma whole_session_witness :
  exists st1 st2,
    run (cmd_attend true (mkEvent "10002" "attend") "2024-05-01" 1714557600)
      Scenario.two_users
    = (st1, AttendOk 2.5)
    /\ run (cmd_leave true (mkEvent "10002" "leave") "2024-05-01" 1714559000) st1
       = (st2, LeaveOk 1400 1.5 1.5 1)
    /\ Sql.select_user "10002" st2
       = Some (charged_row Scenario.idle 1400 1.5).
Proof.
  assert (C : is_ceiling ((1714559000 - 1714557600) / 1800) 1).
  { vm_compute. split; [reflexivity|discriminate]. }
  exact (whole_session (mkEvent "10002" "attend") "2024-05-01"
           1714557600 1714559000 Scenario.two_users 1%Z
           eq_refl eq_refl eq_refl eq_refl eq_refl C eq_refl eq_refl).
Defined.

(** X10: a check-out by a sender with no open session is refused; the table
    is the one the load leaves, with the account still without a session. *)
Theorem check_out_when_idle (evt : event) (today : string) (now : float)
    (st : store) :
  let q := _get_uid evt in
  let st1 := fst (_get_user q today st) in
  let user := snd (_get_user q today st) in
  (q =? "")%string = false ->
  joined_at user = None ->
  run (cmd_leave true evt today now) st = (st1, NotAttending)
  /\ Sql.select_user q st1 = Some user.
Proof.
  cbv zeta. intros Hq Hj. split; [|apply get_user_select].
  apply run_leave_idle; assumption.
Qed.

Lemma check_out_when_idle_witness :
  run (cmd_leave true (mkEvent "10002" "leave") "2024-05-01" 1714559600)
    Scenario.two_users
  = (Scenario.two_users, NotAttending).
Proof.
  exact (proj1 (check_out_when_idle (mkEvent "10002" "leave") "2024-05-01"
                  1714559600 Scenario.two_users eq_refl eq_refl)).
Defined.

(** ** Credit, debit and the refusals that come before the table *)

(** X11: an accepted credit adds the amount to the balance the load
    returns.  The answer reports the new balance, the account holds it, and
    its other columns are as the load left them; a target that did not
    exist is created by the load and credited from 0. *)
Theorem credit_accepted (evt : event) (today : string) (cmd target arg : string)
    (amount : float) (st : store) :
  let user := snd (_get_user target today st) in
  is_admin (_get_uid evt) = true ->
  PyStr.split (message_str evt) = [cmd; target; arg] ->
  PyStr.isdigit target = true ->
  PyParse.float arg = Some amount ->
  (amount <=? 0) = false ->
  consistent st = true ->
  is_nan (balance user + amount) = false ->
  (exists st',
     run (cmd_charge true evt today) st
     = (st', AdminOk target Charge amount (balance user + amount))
     /\ Sql.select_user target st'
        = Some (with_balance (balance user + amount) user))
  /\ (Sql.select_user target st = None -> balance user = 0).
Proof.
  cbv zeta. intros Ha Hs Hd Hf Hpos Hc Hn. split.
  - pose proof (valid_loaded target today st Hc) as Hv.
    assert (Hnn : Sql.not_null
                    (dict_update (snd (_get_user target today st))
                       {| set_balance :=
                            Some (balance (snd (_get_user target today st))
                                  + amount);
                          set_joined_at := None; set_total_time := None;
                          set_today_consumption := None;
                          set_discount := None |}) = true)
      by (apply not_null_balance; assumption).
    destruct (run_update_after_load target today st _
                (fun u => AdminOk target Charge amount (balance u)) Hnn)
      as [Hrun Hsel].
    eexists. split.
    + unfold cmd_charge. simpl negb. cbv iota.
      rewrite (run_admin_op evt Charge today cmd target arg amount st
                 Ha Hs Hd Hf Hpos).
      unfold admin_decision. exact Hrun.
    + rewrite Hsel. unfold Sql.write_row, with_balance. simpl.
      unfold valid_row in Hv. apply andb_true_iff in Hv.
      rewrite (bind_real_id _ (proj2 Hv)). reflexivity.
  - intros Hnone. rewrite (get_user_new _ _ _ Hnone). reflexivity.
Qed.

Lemma credit_accepted_witness :
  (exists st',
     run (cmd_charge true (mkEvent Scenario.admin "charge 10002 5") "2024-05-01")
       Scenario.two_users
     = (st', AdminOk "10002" Charge 5 7.5)
     /\ Sql.select_user "10002" st' = Some (with_balance 7.5 Scenario.idle))
  /\ balance (snd (_get_user "10009" "2024-05-01" Scenario.two_users)) = 0.
Proof.
  split.
  - exact (proj1 (credit_accepted (mkEvent Scenario.admin "charge 10002 5") "2024-05-01"
                    "charge" "10002" "5" 5 Scenario.two_users
                    eq_refl eq_refl eq_refl eq_refl eq_refl eq_refl eq_refl)).
  - exact (proj2 (credit_accepted (mkEvent Scenario.admin "charge 10009 5") "2024-05-01"
                    "charge" "10009" "5" 5 Scenario.two_users
                    eq_refl eq_refl eq_refl eq_refl eq_refl eq_refl eq_refl)
             eq_refl).
Defined.

(** X12: a debit above the balance is refused: the answer reports the
    balance and the amount, nothing is written after the load, and the
    account found afterwards is the dictionary the load returned.  A debit
    the balance covers takes the amount from it. *)
Theorem debit_checked (evt : event) (today : string) (cmd target arg : string)
    (amount : float) (st : store) :
  let st1 := fst (_get_user target today st) in
  let user := snd (_get_user target today st) in
  is_admin (_get_uid evt) = true ->
  PyStr.split (message_str evt) = [cmd; target; arg] ->
  PyStr.isdigit target = true ->
  PyParse.float arg = Some amount ->
  (amount <=? 0) = false ->
  consistent st = true ->
  ((balance user <? amount) = true ->
     run (cmd_deduct true evt today) st
     = (st1, DeductInsufficient (balance user) amount)
     /\ Sql.select_user target st1 = Some user)
  /\ ((balance user <? amount) = false ->
      is_nan (balance user - amount) = false ->
      exists st',
        run (cmd_deduct true evt today) st
        = (st', AdminOk target Deduct amount (balance user - amount))
        /\ Sql.select_user target st'
           = Some (with_balance (balance user - amount) user)).
Proof.
  cbv zeta. intros Ha Hs Hd Hf Hpos Hc.
  assert (Hrun0 := run_admin_op evt Deduct today cmd target arg amount st
                     Ha Hs Hd Hf Hpos).
  split.
  - intros Hb. split; [|apply get_user_select].
    unfold cmd_deduct. simpl negb. cbv iota. rewrite Hrun0.
    unfold admin_decision. rewrite Hb. reflexivity.
  - intros Hb Hn.
    pose proof (valid_loaded target today st Hc) as Hv.
    assert (Hnn : Sql.not_null
                    (dict_update (snd (_get_user target today st))
                       {| set_balance :=
                            Some (balance (snd (_get_user target today st))
                                  - amount);
                          set_joined_at := None; set_total_time := None;
                          set_today_consumption := None;
                          set_discount := None |}) = true)
      by (apply not_null_balance; assumption).
    destruct (run_update_after_load target today st _
                (fun u => AdminOk target Deduct amount (balance u)) Hnn)
      as [Hrun Hsel].
    eexists. split.
    + unfold cmd_deduct. simpl negb. cbv iota. rewrite Hrun0.
      unfold admin_decision. rewrite Hb. exact Hrun.
    + rewrite Hsel. unfold Sql.write_row, with_balance. simpl.
      unfold valid_row in Hv. apply andb_true_iff in Hv.
      rewrite (bind_real_id _ (proj2 Hv)). reflexivity.
Qed.

Lemma debit_checked_witness :
  run (cmd_deduct true (mkEvent Scenario.admin "deduct 10002 5") "2024-05-01")
    Scenario.two_users
  = (Scenario.two_users, DeductInsufficient 2.5 5)
  /\ exists st',
       run (cmd_deduct true (mkEvent Scenario.admin "deduct 10002 2")
              "2024-05-01") Scenario.two_users
       = (st', AdminOk "10002" Deduct 2 0.5).
Proof.
  split.
  - exact (proj1 (proj1 (debit_checked (mkEvent Scenario.admin "deduct 10002 5")
                           "2024-05-01" "deduct" "10002" "5" 5
                           Scenario.two_users
                           eq_refl eq_refl eq_refl eq_refl eq_refl eq_refl)
                    eq_refl)).
  - destruct (proj2 (debit_checked (mkEvent Scenario.admin "deduct 10002 2")
                       "2024-05-01" "deduct" "10002" "2" 2 Scenario.two_users
                       eq_refl eq_refl eq_refl eq_refl eq_refl eq_refl)
                eq_refl eq_refl) as [st' [H _]].
    exists st'. exact H.
Defined.

(** X13: the refusals that come before the table.  When initialisation
    failed, every command answers with the service error; when the sender's
    identity is empty, check-in, check-out, info and balance refuse.  In
    both cases the handler has no locked section and the table is left as
    it was. *)
Theorem refused_before_the_table (evt : event) (today : string) (now : float)
    (st : store) :
  (answers_unlocked (cmd_attend false evt today now) ServiceError
   /\ answers_unlocked (cmd_leave false evt today now) ServiceError
   /\ answers_unlocked (cmd_charge false evt today) ServiceError
   /\ answers_unlocked (cmd_deduct false evt today) ServiceError
   /\ answers_unlocked (cmd_discount false evt today) ServiceError
   /\ answers_unlocked (cmd_rank false) ServiceError
   /\ cmd_info false evt today st = (st, ReplyServiceError)
   /\ cmd_balance false evt today st = (st, ReplyServiceError)
   /\ cmd_list false now st = (st, ReplyServiceError))
  /\ (_get_uid evt = "" ->
      answers_unlocked (cmd_attend true evt today now) NoUid
      /\ answers_unlocked (cmd_leave true evt today now) NoUid
      /\ cmd_info true evt today st = (st, ReplyNoUid)
      /\ cmd_balance true evt today st = (st, ReplyNoUid)).
Proof.
  split.
  - repeat split; reflexivity.
  - intros Hq. unfold cmd_attend, cmd_leave, cmd_info, cmd_balance.
    rewrite Hq. repeat split; reflexivity.
Qed.

Lemma refused_before_the_table_witness :
  answers_unlocked (cmd_leave true (mkEvent "" "leave") "2024-05-01" 0) NoUid.
Proof.
  exact (proj1 (proj2 (proj2 (refused_before_the_table (mkEvent "" "leave")
                                "2024-05-01" 0 []) eq_refl))).
Defined.

(** X14: credit, debit and set-discount are for administrators and take
    three words.  A sender outside [ADMIN_IDS] is answered that permission
    is missing, whatever the message; an administrator whose message has
    not exactly three words is answered with the usage.  In both cases the
    handler has no locked section: no account is read, created or
    changed. *)
Theorem admin_only (evt : event) (today : string) :
  (is_admin (_get_uid evt) = false ->
     answers_unlocked (cmd_charge true evt today) PermissionDenied
     /\ answers_unlocked (cmd_deduct true evt today) PermissionDenied
     /\ answers_unlocked (cmd_discount true evt today) PermissionDenied)
  /\ (is_admin (_get_uid evt) = true ->
      List.length (PyStr.split (message_str evt)) <> 3%nat ->
      answers_unlocked (cmd_charge true evt today) UsageError
      /\ answers_unlocked (cmd_deduct true evt today) UsageError
      /\ answers_unlocked (cmd_discount true evt today) UsageError).
Proof.
  split.
  - intros Ha. unfold cmd_charge, cmd_deduct, cmd_discount, _admin_op.
    rewrite Ha. repeat split; reflexivity.
  - intros Ha Hlen. unfold cmd_charge, cmd_deduct, cmd_discount, _admin_op.
    rewrite Ha. simpl negb. cbv iota.
    destruct (PyStr.split (message_str evt)) as [|a [|b [|c [|d l]]]];
      try (repeat split; reflexivity).
    destruct Hlen. reflexivity.
Qed.

Lemma admin_only_witness :
  answers_unlocked
    (cmd_charge true (mkEvent "10001" "charge 10001 1000") "2024-05-01")
    PermissionDenied
  /\ answers_unlocked
       (cmd_deduct true (mkEvent Scenario.admin "deduct 10001") "2024-05-01")
       UsageError.
Proof.
  split.
  - exact (proj1 (proj1 (admin_only (mkEvent "10001" "charge 10001 1000")
                           "2024-05-01") eq_refl)).
  - refine (proj1 (proj2 (proj2 (admin_only
                                   (mkEvent Scenario.admin "deduct 10001")
                                   "2024-05-01") eq_refl _))).
    discriminate.
Defined.

(** ** Durations as text *)



Lemma of_float_defined (x : float) :
  is_nan x = false -> is_infinity x = false -> exists n, PyInt.of_float x = inr n.
Proof.
  intros Hn Hi. apply FloatOrder.is_nan_spec in Hn. unfold PyInt.of_float.
  destruct (Prim2SF x) as [s|s| |s m e] eqn:E.
  - eexists. reflexivity.
  - destruct (FloatOrder.is_infinity_spec x s Hi E).
  - destruct Hn. reflexivity.
  - eexists. reflexivity.
Qed.



(** X16: the edges of [_format_time].  A negative duration is shown as zero
    seconds; NaN makes it raise [ValueError] (from [int()]); on every
    duration that is a number and not an infinity it returns a text. *)
Theorem format_time_edges (seconds : float) :
  ((seconds <? 0) = true -> _format_time seconds = inr "0秒")
  /\ (is_nan seconds = true -> _format_time seconds = inl ValueError)
  /\ (is_nan seconds = false -> is_infinity seconds = false ->
      exists text, _format_time seconds = inr text).
Proof.
  split; [|split].
  - intros H. unfold _format_time. rewrite H. reflexivity.
  - intros H. apply is_nan_true in H. unfold _format_time, PyInt.of_float.
    rewrite ltb_spec, H. reflexivity.
  - intros Hn Hi. unfold _format_time.
    destruct (seconds <? 0); [eexists; reflexivity|].
    destruct (of_float_defined seconds Hn Hi) as [n ->].
    unfold PyInt.divmod. eexists. reflexivity.
Qed.

Lemma format_time_edges_witness :
  _format_time (-30) = inr "0秒" /\ _format_time nan = inl ValueError
  /\ exists text, _format_time 86399 = inr text.
Proof.
  split; [|split].
  - exact (proj1 (format_time_edges (-30)) eq_refl).
  - exact (proj1 (proj2 (format_time_edges nan)) eq_refl).
  - exact (proj2 (proj2 (format_time_edges 86399)) eq_refl eq_refl).
Defined.

(** ** The query handlers *)



(** *** The list of open sessions *)

Section SessionList.

Lemma open_sessions_In (st : store) (q : string) (j : float) :
  In (q, j) (SqlList.open_sessions st)
  <-> exists u, In u st /\ qq u = q /\ joined_at u = Some j.
Proof.
  induction st as [|u st IH]; simpl.
  - split; [intros []|intros (u & [] & _)].
  - destruct (joined_at u) as [ju|] eqn:E; simpl; rewrite ?IH; split.
    + intros [H|(v & Hv & Hq & Hj)].
      * injection H as <- <-. exists u. repeat split; [left; reflexivity|exact E].
      * exists v. repeat split; [right; exact Hv|exact Hq|exact Hj].
    + intros (v & [Hv|Hv] & Hq & Hj).
      * subst v. left. rewrite E in Hj. injection Hj as ->. rewrite Hq.
        reflexivity.
      * right. exists v. repeat split; assumption.
    + intros (v & Hv & Hq & Hj). exists v. repeat split; [right|..]; assumption.
    + intros (v & [Hv|Hv] & Hq & Hj).
      * subst v. congruence.
      * exists v. repeat split; assumption.
Qed.

Lemma open_sessions_numbers (st : store) :
  consistent st = true ->
  Forall (fun r => is_nan (snd r) = false) (SqlList.open_sessions st).
Proof.
  unfold consistent. induction st as [|u st IH]; simpl; [constructor|].
  rewrite andb_true_iff. intros [Hu Hst].
  destruct (joined_at u) as [j|] eqn:E; [|exact (IH Hst)].
  constructor; [|exact (IH Hst)].
  unfold valid_row in Hu. rewrite E in Hu. apply andb_true_iff in Hu.
  simpl. destruct (is_nan j); [destruct Hu; discriminate|reflexivity].
Qed.

Lemma insert_asc_perm (r : string * float) (l : list (string * float)) :
  Permutation (SqlList.insert_asc r l) (r :: l).
Proof.
  induction l as [|v l IH]; simpl; [apply Permutation_refl|].
  destruct (snd v <? snd r); [|apply Permutation_refl].
  apply perm_trans with (v :: r :: l); [|apply perm_swap].
  apply perm_skip. exact IH.
Qed.

Lemma order_asc_perm (rows : list (string * float)) :
  Permutation (SqlList.order_by_joined_asc rows) rows.
Proof.
  induction rows as [|r rows IH]; simpl; [apply perm_nil|].
  apply perm_trans with (r :: SqlList.order_by_joined_asc rows).
  - apply insert_asc_perm.
  - apply perm_skip. exact IH.
Qed.

Lemma insert_asc_sorted (r : string * float) (l : list (string * float)) :
  is_nan (snd r) = false -> Forall (fun v => is_nan (snd v) = false) l ->
  StronglySorted asc l -> StronglySorted asc (SqlList.insert_asc r l).
Proof.
  intros Hr Hl Hs. induction l as [|v l IH]; simpl.
  - constructor; constructor.
  - apply StronglySorted_inv in Hs. destruct Hs as [Hs Hv].
    inversion Hl as [|? ? Hnv Hnl]; subst.
    destruct (snd v <? snd r) eqn:E.
    + constructor; [exact (IH Hnl Hs)|].
      apply (Permutation_Forall (Permutation_sym (insert_asc_perm r l))).
      constructor; [|exact Hv].
      apply FloatOrder.ltb_leb. exact E.
    + assert (Hrv : asc r v) by (apply FloatOrder.leb_total; assumption).
      constructor; [constructor; assumption|].
      constructor; [exact Hrv|].
      apply Forall_forall. intros w Hw.
      rewrite Forall_forall in Hv. unfold asc in *.
      apply FloatOrder.leb_trans with (snd v); [exact Hrv|apply Hv; exact Hw].
Qed.

Lemma order_asc_sorted (rows : list (string * float)) :
  Forall (fun r => is_nan (snd r) = false) rows ->
  StronglySorted asc (SqlList.order_by_joined_asc rows).
Proof.
  induction rows as [|r rows IH]; simpl; intros Hn; [constructor|].
  inversion Hn as [|? ? Hr Hrows]; subst.
  apply insert_asc_sorted; [exact Hr| |exact (IH Hrows)].
  apply (Permutation_Forall (Permutation_sym (order_asc_perm rows))).
  exact Hrows.
Qed.

Lemma list_lines_spec (now : float) (rows : list (string * float)) :
  match list_lines now rows with
  | inr lines =>
      Forall2 (fun line row =>
                 fst line = fst row
                 /\ _format_time (now - snd row) = inr (snd line)) lines rows
  | inl e => exists row, In row rows /\ _format_time (now - snd row) = inl e
  end.
Proof.
  induction rows as [|row rows IH]; simpl; [constructor|].
  destruct (_format_time (now - snd row)) as [e|text] eqn:E.
  - exists row. split; [left; reflexivity|exact E].
  - destruct (list_lines now rows) as [e|lines].
    + destruct IH as (r & Hr & He). exists r. split; [right; exact Hr|exact He].
    + constructor; [split; [reflexivity|exact E]|exact IH].
Qed.

Lemma Forall2_nil_inv (A B : Type) (R : A -> B -> Prop) (l : list B) :
  Forall2 R [] l -> l = [].
Proof. inversion 1. reflexivity. Qed.

End SessionList.

(** X18: the session list.  The query selects exactly the accounts with an
    open session, each with its start, and puts them in ascending order of
    start; the answer has one line per such account, in that order, with
    the time elapsed since its start as [_format_time] writes it; it says
    that nobody is checked in exactly when no session is open; it fails
    only if some elapsed time cannot be formatted; and it leaves the table
    as it was. *)
Theorem session_list (now : float) (st : store) :
  consistent st = true ->
  let rows := SqlList.order_by_joined_asc (SqlList.open_sessions st) in
  fst (cmd_list true now st) = st
  /\ Permutation rows (SqlList.open_sessions st)
  /\ StronglySorted asc rows
  /\ (forall q j,
        In (q, j) rows
        <-> exists u, In u st /\ qq u = q /\ joined_at u = Some j)
  /\ (forall lines,
        snd (cmd_list true now st) = ListLines lines ->
        Forall2 (fun line row =>
                   fst line = fst row
                   /\ _format_time (now - snd row) = inr (snd line))
          lines rows)
  /\ (snd (cmd_list true now st) = ListEmpty
      <-> SqlList.open_sessions st = [])
  /\ (forall e,
        snd (cmd_list true now st) = ReplyRaised e ->
        exists row, In row rows /\ _format_time (now - snd row) = inl e).
Proof.
  intros Hc rows.
  assert (Hperm : Permutation rows (SqlList.open_sessions st))
    by apply order_asc_perm.
  pose proof (list_lines_spec now rows) as Hspec.
  split; [reflexivity|]. split; [exact Hperm|].
  split; [apply order_asc_sorted; apply open_sessions_numbers; exact Hc|].
  split; [|split; [|split]].
  - intros q j. rewrite <- open_sessions_In. split; intros H.
    + exact (Permutation_in _ Hperm H).
    + exact (Permutation_in _ (Permutation_sym Hperm) H).
  - intros lines H. unfold cmd_list in H. simpl in H. fold rows in H.
    destruct (list_lines now rows) as [e|[|l ls]]; try discriminate.
    injection H as <-. exact Hspec.
  - unfold cmd_list. simpl. fold rows. split.
    + intros H. destruct (list_lines now rows) as [e|[|l ls]]; try discriminate.
      apply Forall2_nil_inv in Hspec. rewrite Hspec in Hperm.
      apply Permutation_nil. exact Hperm.
    + intros H. rewrite H in Hperm. apply Permutation_sym in Hperm.
      apply Permutation_nil in Hperm. rewrite Hperm. reflexivity.
  - intros e H. unfold cmd_list in H. simpl in H. fold rows in H.
    destruct (list_lines now rows) as [e'|[|l ls]]; try discriminate.
    injection H as <-. exact Hspec.
Qed.

Lemma session_list_witness :
  cmd_list true 1714559600 Scenario.two_users
  = (Scenario.two_users, ListLines [("10001", "33分钟20秒")])
  /\ StronglySorted asc
       (SqlList.order_by_joined_asc (SqlList.open_sessions Scenario.two_users)).
Proof.
  split; [reflexivity|].
  exact (proj1 (proj2 (proj2 (session_list 1714559600 Scenario.two_users
                                eq_refl)))).
Defined.

(** ** A discount given during a session *)

Lemma isdigit_nonempty (s : string) :
  PyStr.isdigit s = true -> (s =? "")%string = false.
Proof. destruct s; [discriminate|reflexivity]. Qed.

Lemma run_discount_ok (evt : event) (today : string) (cmd target arg : string)
    (rate : float) (st : store) :
  let st1 := fst (_get_user target today st) in
  let user := snd (_get_user target today st) in
  is_admin (_get_uid evt) = true ->
  PyStr.split (message_str evt) = [cmd; target; arg] ->
  PyStr.isdigit target = true ->
  parse_rate arg = Some rate ->
  (0 <? rate) && (rate <=? 1) = true ->
  consistent st = true ->
  run (cmd_discount true evt today) st
  = (Sql.update_where target (Sql.write_row (with_discount rate user)) st1,
     DiscountOk target rate)
  /\ Sql.select_user target
       (Sql.update_where target (Sql.write_row (with_discount rate user)) st1)
     = Some (with_discount rate user)
  /\ consistent
       (Sql.update_where target (Sql.write_row (with_discount rate user)) st1)
     = true.
Proof.
  cbv zeta. intros Ha Hs Hd Hr Hin Hc.
  set (upd := {| set_balance := None; set_joined_at := None;
                 set_total_time := None; set_today_consumption := None;
                 set_discount := Some rate |}).
  pose proof (valid_loaded target today st Hc) as Hv.
  pose proof Hin as Hin'. apply andb_true_iff in Hin'.
  destruct (FloatOrder.ltb_not_nan _ _ (proj1 Hin')) as [_ Hrate].
  assert (Hn : Sql.not_null (dict_update (snd (_get_user target today st)) upd)
               = true).
  { unfold valid_row, Sql.not_null in *. simpl. rewrite !andb_true_iff in *.
    destruct Hv as [[[[Hb Ht] Hcn] _] _]. rewrite Hrate.
    repeat split; assumption. }
  destruct (run_update_after_load target today st upd
              (fun _ => DiscountOk target rate) Hn) as [Hrun Hsel].
  change (dict_update (snd (_get_user target today st)) upd)
    with (with_discount rate (snd (_get_user target today st))) in Hrun, Hsel.
  assert (Hrun' : run (cmd_discount true evt today) st
                  = (Sql.update_where target
                       (Sql.write_row
                          (with_discount rate (snd (_get_user target today st))))
                       (fst (_get_user target today st)),
                     DiscountOk target rate)).
  { unfold cmd_discount. simpl negb. cbv iota.
    rewrite Ha, Hs. simpl negb. cbv iota. rewrite Hd, Hr.
    simpl negb at 1. cbv iota. rewrite Hin. simpl negb. cbv iota.
    rewrite run_get_then. exact Hrun. }
  split; [exact Hrun'|]. split.
  - rewrite Hsel. unfold Sql.write_row, with_discount. simpl.
    unfold valid_row in Hv. apply andb_true_iff in Hv.
    rewrite (bind_real_id _ (proj2 Hv)). reflexivity.
  - pose proof (handler_consistent _ (handler_discount true evt today) st Hc)
      as H.
    rewrite Hrun' in H. exact H.
Qed.

(** X19: the discount that counts is the one stored when the user checks
    out.  If an administrator sets a rate for a user whose session is open,
    the check-out that follows the same day charges the fee at that rate,
    whatever the discount was when the session began. *)
Theorem discount_then_check_out (evt_a evt_u : event) (today : string)
    (now : float) (cmd target arg : string) (rate : float) (st : store)
    (joined : float) (units : Z) :
  let user := snd (_get_user target today st) in
  let fee := spec_fee units HOURLY_FEE rate in
  is_admin (_get_uid evt_a) = true ->
  PyStr.split (message_str evt_a) = [cmd; target; arg] ->
  PyStr.isdigit target = true ->
  parse_rate arg = Some rate ->
  (0 <? rate) && (rate <=? 1) = true ->
  consistent st = true ->
  _get_uid evt_u = target ->
  joined_at user = Some joined ->
  (now - joined <=? GRACE_PERIOD_SECONDS) = false ->
  is_ceiling ((now - joined) / 1800) units ->
  (balance user <? fee) = false ->
  Sql.not_null (charged_row (with_discount rate user) (now - joined) fee) = true ->
  exists st1 st2,
    run (cmd_discount true evt_a today) st = (st1, DiscountOk target rate)
    /\ run (cmd_leave true evt_u today now) st1
       = (st2, LeaveOk (now - joined) fee (today_consumption user + fee)
                 (balance user - fee))
    /\ Sql.select_user target st2
       = Some (charged_row (with_discount rate user) (now - joined) fee).
Proof.
  cbv zeta. intros Ha Hs Hd Hr Hin Hc Hu Hj Hg Hceil Hb Hn.
  apply FloatOrder.is_ceiling_math_ceil in Hceil.
  destruct (run_discount_ok evt_a today cmd target arg rate st Ha Hs Hd Hr Hin Hc)
    as (H1 & H2 & H3).
  pose proof (isdigit_nonempty _ Hd) as Hq. subst target.
  destruct (run_leave_charged_at evt_u today now _ _ Hq H2
              (get_user_today _ today st) joined units Hj Hg Hceil Hb Hn)
    as [H4 H5].
  eexists. eexists. split; [exact H1|]. split; [exact H4|exact H5].
Qed.

Lemma discount_then_check_out_witness :
  exists st1 st2,
    run (cmd_discount true (mkEvent Scenario.admin "discount 10001 50%")
           "2024-05-01") Scenario.two_users
    = (st1, DiscountOk "10001" 0.5)
    /\ run (cmd_leave true Scenario.from_10001 "2024-05-01" 1714559600) st1
       = (st2, LeaveOk 2000 3 9 7).
Proof.
  assert (C : is_ceiling ((1714559600 - Scenario.morning) / 1800) 2).
  { vm_compute. split; [reflexivity|discriminate]. }
  destruct (discount_then_check_out
              (mkEvent Scenario.admin "discount 10001 50%") Scenario.from_10001
              "2024-05-01" 1714559600 "discount" "10001" "50%" 0.5
              Scenario.two_users Scenario.morning 2%Z
              eq_refl eq_refl eq_refl eq_refl eq_refl eq_refl eq_refl eq_refl
              eq_refl C eq_refl eq_refl)
    as (st1 & st2 & H1 & H2 & _).
  exists st1, st2. split; assumption.
Defined.

(** ** Balances stay at or above zero *)

(** Signs of binary64 sums and differences, from the specification of the
    operations. *)
Module FloatSign.

Lemma digits2_bounds (m : positive) :
  (2 ^ (Zpos (digits2_pos m) - 1) <= Zpos m < 2 ^ Zpos (digits2_pos m))%Z.
Proof.
  induction m as [m IH|m IH|]; simpl digits2_pos.
  - rewrite Pos2Z.inj_succ.
    replace (Z.succ (Zpos (digits2_pos m)) - 1)%Z
      with (Z.succ (Zpos (digits2_pos m) - 1))%Z by lia.
    rewrite !Z.pow_succ_r by lia. lia.
  - rewrite Pos2Z.inj_succ.
    replace (Z.succ (Zpos (digits2_pos m)) - 1)%Z
      with (Z.succ (Zpos (digits2_pos m) - 1))%Z by lia.
    rewrite !Z.pow_succ_r by lia. lia.
  - simpl. lia.
Qed.

Lemma iter_xO_value (d m : positive) :
  Zpos (Pos.iter xO m d) = (Zpos m * 2 ^ Zpos d)%Z.
Proof.
  induction d as [|d IH] using Pos.peano_ind.
  - simpl. lia.
  - rewrite Pos.iter_succ, Pos2Z.inj_succ, Z.pow_succ_r by lia.
    rewrite Pos2Z.inj_xO, IH. lia.
Qed.

(** The mantissa once the exponent is brought down to [ez]. *)
Lemma shl_align_value (m : positive) (e ez : Z) :
  (ez <= e)%Z ->
  Zpos (fst (shl_align m e ez)) = (Zpos m * 2 ^ (e - ez))%Z.
Proof.
  intros H. unfold shl_align.
  destruct (ez - e)%Z as [|d|d] eqn:E; simpl.
  - replace (e - ez)%Z with 0%Z by lia. simpl. lia.
  - exfalso. lia.
  - rewrite iter_xO_value. replace (e - ez)%Z with (Zpos d) by lia. reflexivity.
Qed.

(** Of two representable numbers, the one with the larger exponent is the
    larger. *)
Lemma bounded_exponents (m1 m2 : positive) (e1 e2 : Z) :
  bounded prec emax m1 e1 = true -> bounded prec emax m2 e2 = true ->
  (e2 < e1)%Z -> (Zpos m2 < Zpos m1 * 2 ^ (e1 - e2))%Z.
Proof.
  unfold bounded, canonical_mantissa, fexp, SpecFloat.emin, prec, emax.
  rewrite !andb_true_iff, !Z.eqb_eq. intros [H1 _] [H2 _] He.
  pose proof (digits2_bounds m1) as [L1 _].
  pose proof (digits2_bounds m2) as [_ U2].
  assert (D1 : Zpos (digits2_pos m1) = 53%Z) by lia.
  assert (D2 : (Zpos (digits2_pos m2) <= 53)%Z) by lia.
  rewrite D1 in L1.
  assert (P : (2 ^ 1 <= 2 ^ (e1 - e2))%Z) by (apply Z.pow_le_mono_r; lia).
  assert (Q : (2 ^ Zpos (digits2_pos m2) <= 2 ^ 53)%Z)
    by (apply Z.pow_le_mono_r; lia).
  change (2 ^ (53 - 1))%Z with 4503599627370496%Z in L1.
  change (2 ^ 53)%Z with 9007199254740992%Z in Q.
  change (2 ^ 1)%Z with 2%Z in P. nia.
Qed.

Lemma binary_round_sign (m : positive) (e : Z) :
  binary_round prec emax false m e <> S754_nan ->
  SFleb (S754_zero false) (binary_round prec emax false m e) = true.
Proof.
  unfold binary_round, binary_round_aux.
  destruct (shl_align m e _) as [mz ez].
  destruct (shr_fexp prec emax (Zpos mz) ez loc_Exact) as [mrs e'].
  destruct (shr_fexp prec emax _ e' loc_Exact) as [mrs' e''].
  destruct (shr_m mrs'); [reflexivity| |intros H; destruct H; reflexivity].
  destruct (e'' <=? emax - prec)%Z; reflexivity.
Qed.

Lemma normalize_sign (z e : Z) :
  (0 <= z)%Z -> binary_normalize prec emax z e false <> S754_nan ->
  SFleb (S754_zero false) (binary_normalize prec emax z e false) = true.
Proof.
  intros Hz. destruct z as [|p|p]; simpl; [reflexivity| |lia].
  apply binary_round_sign.
Qed.

(** A difference is not negative when the number taken away is not the
    larger one. *)
Lemma SFsub_nonneg_finite (sx sy : bool) (mx my : positive) (ex ey : Z) :
  bounded prec emax mx ex = true -> bounded prec emax my ey = true ->
  SFltb (S754_finite sx mx ex) (S754_finite sy my ey) = false ->
  (0 <= cond_Zopp sx (Zpos (fst (shl_align mx ex (Z.min ex ey))))
        - cond_Zopp sy (Zpos (fst (shl_align my ey (Z.min ex ey)))))%Z.
Proof.
  intros Vx Vy. unfold SFltb, SFcompare.
  change (Pos.compare_cont Eq) with Pos.compare.
  rewrite !shl_align_value by lia. unfold cond_Zopp.
  assert (0 < Zpos mx * 2 ^ (ex - Z.min ex ey))%Z
    by (apply Z.mul_pos_pos; [lia|apply Z.pow_pos_nonneg; lia]).
  assert (0 < Zpos my * 2 ^ (ey - Z.min ex ey))%Z
    by (apply Z.mul_pos_pos; [lia|apply Z.pow_pos_nonneg; lia]).
  destruct sx, sy; try discriminate; try lia.
  - destruct (Z.compare_spec ex ey) as [E|E|E]; try discriminate.
    + subst ey. rewrite Z.min_id, Z.sub_diag.
      destruct (Pos.compare_spec mx my); cbn [CompOpp]; try discriminate;
        intros _; change (2 ^ 0)%Z with 1%Z; lia.
    + intros _. rewrite Z.min_l by lia. rewrite Z.sub_diag.
      pose proof (bounded_exponents my mx ey ex Vy Vx E). lia.
  - destruct (Z.compare_spec ex ey) as [E|E|E]; try discriminate.
    + subst ey. rewrite Z.min_id, Z.sub_diag.
      destruct (Pos.compare_spec mx my); cbn [CompOpp]; try discriminate;
        intros _; change (2 ^ 0)%Z with 1%Z; lia.
    + intros _. rewrite Z.min_r by lia. rewrite Z.sub_diag.
      pose proof (bounded_exponents mx my ex ey Vx Vy E). lia.
Qed.

Lemma SFsub_nonneg (x y : spec_float) :
  valid_binary x = true -> valid_binary y = true ->
  SFltb x y = false -> SF64sub x y <> S754_nan ->
  SFleb (S754_zero false) (SF64sub x y) = true.
Proof.
  unfold SF64sub.
  destruct x as [sx|sx| |sx mx ex], y as [sy|sy| |sy my ey];
    intros Vx Vy Hlt Hn;
    try (apply normalize_sign;
         [exact (SFsub_nonneg_finite sx sy mx my ex ey Vx Vy Hlt)|exact Hn]);
    try (destruct sx); try (destruct sy); simpl in *;
    try reflexivity; try discriminate; try (destruct Hn; reflexivity).
Qed.

(** A sum of a number that is not negative and one above zero is not
    negative. *)
Lemma SFadd_nonneg (x y : spec_float) :
  SFleb (S754_zero false) x = true -> SFleb y (S754_zero false) = false ->
  SF64add x y <> S754_nan ->
  SFleb (S754_zero false) (SF64add x y) = true.
Proof.
  unfold SF64add.
  destruct x as [sx|sx| |sx mx ex], y as [sy|sy| |sy my ey];
    intros Hx Hy Hn;
    try (destruct sx; destruct sy; try discriminate;
         apply normalize_sign; [unfold cond_Zopp; lia|exact Hn]);
    try (destruct sx); try (destruct sy); simpl in *;
    try reflexivity; try discriminate; try (destruct Hn; reflexivity).
Qed.

Lemma nan_is_nan (x : float) : Prim2SF x = S754_nan -> is_nan x = true.
Proof.
  intros E. destruct (is_nan x) eqn:H; [reflexivity|].
  unfold is_nan in H. rewrite eqb_spec, E in H. discriminate.
Qed.

Lemma sub_nonneg (x y : float) :
  (x <? y) = false -> is_nan (x - y) = false -> (0 <=? x - y) = true.
Proof.
  rewrite ltb_spec, leb_spec, sub_spec. intros Hlt Hn.
  change (Prim2SF 0) with (S754_zero false).
  apply SFsub_nonneg; try apply Prim2SF_valid; [exact Hlt|].
  intros E. rewrite <- sub_spec in E. apply nan_is_nan in E. congruence.
Qed.

Lemma add_nonneg (x y : float) :
  (0 <=? x) = true -> (y <=? 0) = false -> is_nan (x + y) = false ->
  (0 <=? x + y) = true.
Proof.
  rewrite !leb_spec, add_spec. change (Prim2SF 0) with (S754_zero false).
  intros Hx Hy Hn. apply SFadd_nonneg; [exact Hx|exact Hy|].
  intros E. rewrite <- add_spec in E. apply nan_is_nan in E. congruence.
Qed.

End FloatSign.


Lemma solvent_In (st : store) (u : user_data) :
  solvent st = true -> In u st -> (0 <=? balance u) = true.
Proof.
  unfold solvent. rewrite forallb_forall. intros H Hu. exact (H u Hu).
Qed.

Lemma solvent_update_where (q : string) (f : user_data -> user_data)
    (st : store) :
  solvent st = true ->
  (forall u, In u st -> (0 <=? balance (f u)) = true) ->
  solvent (Sql.update_where q f st) = true.
Proof.
  unfold solvent, Sql.update_where. rewrite !forallb_forall.
  intros Hst Hf v Hv. apply in_map_iff in Hv. destruct Hv as [u [<- Hu]].
  destruct (qq u =? q)%string; [exact (Hf u Hu)|exact (Hst u Hu)].
Qed.

(** A load keeps the balances and returns one that is not below zero. *)
Lemma solvent_get_user (q today : string) (st : store) :
  solvent st = true ->
  solvent (fst (_get_user q today st)) = true
  /\ (0 <=? balance (snd (_get_user q today st))) = true.
Proof.
  intros Hst. unfold _get_user.
  destruct (Sql.select_user q st) as [row|] eqn:Hs.
  - pose proof (solvent_In st row Hst (select_user_In q st row Hs)) as Hrow.
    destruct (negb (today_date row =? today)%string); simpl; split;
      try assumption.
    apply solvent_update_where; [exact Hst|].
    intros u Hu. exact (solvent_In st u Hst Hu).
  - assert (Hnew : solvent (Sql.insert_user q today 1.0 st) = true).
    { unfold solvent, Sql.insert_user. rewrite forallb_app.
      fold (solvent st). rewrite Hst. reflexivity. }
    cbn [today_date].
    destruct (negb (today =? today)%string); simpl; split;
      try reflexivity; try assumption.
    apply solvent_update_where; [exact Hnew|].
    intros u Hu. exact (solvent_In _ u Hnew Hu).
Qed.

(** A write keeps the balances when the one it sets, if any, is not below
    zero unless it is a NaN. *)
Lemma solvent_update_user (q : string) (upd : updates) (st : store) :
  (forall b, set_balance upd = Some b -> is_nan b = false ->
             (0 <=? b) = true) ->
  solvent st = true ->
  solvent (fst (_update_user q upd st)) = true.
Proof.
  intros Hb Hst. unfold _update_user.
  destruct (Sql.select_user q st) as [row|] eqn:Hs; [|exact Hst].
  destruct (Sql.not_null (dict_update row upd)) eqn:Hn; [|exact Hst].
  cbn [fst]. apply solvent_update_where; [exact Hst|].
  intros u _. cbn [Sql.write_row balance dict_update].
  unfold Sql.not_null in Hn. rewrite !andb_true_iff in Hn.
  destruct Hn as [[[Hn _] _] _]. apply negb_true_iff in Hn.
  cbn [balance dict_update] in Hn.
  destruct (set_balance upd) as [b|] eqn:E; cbn [or_else] in *.
  - exact (Hb b eq_refl Hn).
  - exact (solvent_In st row Hst (select_user_In q st row Hs)).
Qed.

Lemma keeps_solvent_run (p : prog) :
  keeps_solvent p ->
  forall st, solvent st = true -> solvent (fst (run p st)) = true.
Proof.
  induction 1 as [r|q today k Hk IH|q upd k Hb|f]; intros st Hst.
  - exact Hst.
  - rewrite run_get_then.
    destruct (solvent_get_user q today st Hst) as [H1 H2].
    exact (IH _ H2 _ H1).
  - rewrite run_update_then. exact (solvent_update_user q upd st Hb Hst).
  - exact Hst.
Qed.

Lemma keeps_solvent_attend (init : bool) (evt : event) (today : string)
    (now : float) :
  keeps_solvent (cmd_attend init evt today now).
Proof.
  unfold cmd_attend. destruct (negb init); [constructor|].
  destruct (_get_uid evt =? "")%string; [constructor|].
  constructor. intros user _. destruct (joined_at user); constructor.
  intros b E. discriminate E.
Qed.

Lemma keeps_solvent_leave (init : bool) (evt : event) (today : string)
    (now : float) :
  keeps_solvent (cmd_leave init evt today now).
Proof.
  unfold cmd_leave. destruct (negb init); [constructor|].
  destruct (_get_uid evt =? "")%string; [constructor|].
  constructor. intros user _. unfold leave_decision.
  destruct (joined_at user) as [joined|]; [|constructor].
  cbv zeta. destruct (now - joined <=? GRACE_PERIOD_SECONDS).
  { constructor. intros b E. discriminate E. }
  destruct (PyFloat.math_ceil ((now - joined) / 1800)) as [e|units];
    [constructor|].
  destruct (balance user <? _) eqn:Hlt; constructor.
  intros b E Hn. cbn [set_balance] in E. injection E as <-.
  exact (FloatSign.sub_nonneg _ _ Hlt Hn).
Qed.

Lemma keeps_solvent_admin_op (evt : event) (op : op_type) (today : string) :
  keeps_solvent (_admin_op evt op today).
Proof.
  unfold _admin_op. destruct (negb (is_admin (_get_uid evt))); [constructor|].
  destruct (PyStr.split (message_str evt)) as [|a [|b [|c [|d l]]]];
    try constructor.
  destruct (negb (PyStr.isdigit b)); [constructor|].
  destruct (PyParse.float c) as [amount|]; [|constructor].
  destruct (amount <=? 0) eqn:Ha; [constructor|].
  constructor. intros user Hu. unfold admin_decision. destruct op.
  - constructor. intros x E Hn. cbn [set_balance] in E. injection E as <-.
    exact (FloatSign.add_nonneg _ _ Hu Ha Hn).
  - destruct (balance user <? amount) eqn:Hlt; constructor.
    intros x E Hn. cbn [set_balance] in E. injection E as <-.
    exact (FloatSign.sub_nonneg _ _ Hlt Hn).
Qed.

Lemma keeps_solvent_discount (init : bool) (evt : event) (today : string) :
  keeps_solvent (cmd_discount init evt today).
Proof.
  unfold cmd_discount. destruct (negb init); [constructor|].
  destruct (negb (is_admin (_get_uid evt))); [constructor|].
  destruct (PyStr.split (message_str evt)) as [|a [|b [|c [|d l]]]];
    try constructor.
  destruct (negb (PyStr.isdigit b)); [constructor|].
  destruct (parse_rate c) as [rate|]; [|constructor].
  destruct (negb _); [constructor|].
  constructor. intros user _. constructor. intros x E. discriminate E.
Qed.

Lemma keeps_solvent_rank (init : bool) : keeps_solvent (cmd_rank init).
Proof.
  unfold cmd_rank. destruct (negb init); [constructor|].
  apply (ks_query
           (fun st => match rank_rows st with
                      | [] => RankEmpty
                      | lines => RankLines lines
                      end)).
Qed.

(** X20: no command makes a balance negative.  If no balance in the table
    is below zero before a command, none is after it: a check-out or a
    debit is refused when the balance is below the amount, and the
    difference of two binary64 numbers of which the second is not the
    larger is not below zero; a credit adds an amount above zero; an amount
    that is a NaN is not stored.  For the admin commands the words after
    the command word are taken in the ASCII range. *)
Theorem balances_not_negative (init : bool) (evt : event) (today : string)
    (now : float) (st : store) :
  solvent st = true ->
  solvent (fst (run (cmd_attend init evt today now) st)) = true
  /\ solvent (fst (run (cmd_leave init evt today now) st)) = true
  /\ solvent (fst (run (cmd_rank init) st)) = true
  /\ solvent (fst (cmd_info init evt today st)) = true
  /\ solvent (fst (cmd_balance init evt today st)) = true
  /\ solvent (fst (cmd_list init now st)) = true
  /\ (ascii_operands evt = true ->
      solvent (fst (run (cmd_charge init evt today) st)) = true
      /\ solvent (fst (run (cmd_deduct init evt today) st)) = true
      /\ solvent (fst (run (cmd_discount init evt today) st)) = true).
Proof.
  intros Hst.
  repeat match goal with |- _ /\ _ => split end.
  - apply keeps_solvent_run; [apply keeps_solvent_attend|exact Hst].
  - apply keeps_solvent_run; [apply keeps_solvent_leave|exact Hst].
  - apply keeps_solvent_run; [apply keeps_solvent_rank|exact Hst].
  - unfold cmd_info. destruct (negb init); [exact Hst|].
    destruct (_get_uid evt =? "")%string; [exact Hst|].
    pose proof (proj1 (solvent_get_user (_get_uid evt) today st Hst)) as H.
    destruct (_get_user (_get_uid evt) today st). exact H.
  - unfold cmd_balance. destruct (negb init); [exact Hst|].
    destruct (_get_uid evt =? "")%string; [exact Hst|].
    pose proof (proj1 (solvent_get_user (_get_uid evt) today st Hst)) as H.
    destruct (_get_user (_get_uid evt) today st). exact H.
  - unfold cmd_list. destruct (negb init); exact Hst.
  - intros _. repeat match goal with |- _ /\ _ => split end.
    + apply keeps_solvent_run; [|exact Hst]. unfold cmd_charge.
      destruct (negb init); [constructor|apply keeps_solvent_admin_op].
    + apply keeps_solvent_run; [|exact Hst]. unfold cmd_deduct.
      destruct (negb init); [constructor|apply keeps_solvent_admin_op].
    + apply keeps_solvent_run; [apply keeps_solvent_discount|exact Hst].
Qed.

Lemma balances_not_negative_witness :
  solvent Scenario.one_fee = true
  /\ solvent (fst (run (cmd_leave true Scenario.from_10001 "2024-05-01"
                          1714559600) Scenario.one_fee)) = true
  /\ solvent (fst (run (cmd_deduct true
                          (mkEvent Scenario.admin "扣款 10001 6")
                          "2024-05-01") Scenario.one_fee)) = true.
Proof.
  pose proof (balances_not_negative true Scenario.from_10001 "2024-05-01"
                1714559600 Scenario.one_fee eq_refl) as Hleave.
  pose proof (balances_not_negative true
                (mkEvent Scenario.admin "扣款 10001 6") "2024-05-01" 0
                Scenario.one_fee eq_refl) as Hdebit.
  split; [reflexivity|]. split.
  - exact (proj1 (proj2 Hleave)).
  - exact (proj1 (proj2 (proj2 (proj2 (proj2 (proj2 (proj2 Hdebit)))))
                    eq_refl)).
Defined.

(** ** The schema constraints under every command *)

(** X21: no command stores what the schema forbids.  A table whose
    [NOT NULL] columns hold numbers, and whose session starts are [NULL] or
    numbers, is such a table after every command: an update that carries a
    NaN fails and commits nothing.  For the admin commands the words after
    the command word are taken in the ASCII range. *)
Theorem schema_kept (init : bool) (evt : event) (today : string)
    (now : float) (st : store) :
  consistent st = true ->
  consistent (fst (run (cmd_attend init evt today now) st)) = true
  /\ consistent (fst (run (cmd_leave init evt today now) st)) = true
  /\ consistent (fst (run (cmd_rank init) st)) = true
  /\ consistent (fst (cmd_info init evt today st)) = true
  /\ consistent (fst (cmd_balance init evt today st)) = true
  /\ consistent (fst (cmd_list init now st)) = true
  /\ (ascii_operands evt = true ->
      consistent (fst (run (cmd_charge init evt today) st)) = true
      /\ consistent (fst (run (cmd_deduct init evt today) st)) = true
      /\ consistent (fst (run (cmd_discount init evt today) st)) = true).
Proof.
  intros Hc. repeat match goal with |- _ /\ _ => split end.
  - apply handler_consistent; [apply handler_attend|exact Hc].
  - apply handler_consistent; [apply handler_leave|exact Hc].
  - apply handler_consistent; [apply handler_rank|exact Hc].
  - unfold cmd_info. destruct (negb init); [exact Hc|].
    destruct (_get_uid evt =? "")%string; [exact Hc|].
    pose proof (get_user_consistent (_get_uid evt) today st Hc) as H.
    destruct (_get_user (_get_uid evt) today st). exact H.
  - unfold cmd_balance. destruct (negb init); [exact Hc|].
    destruct (_get_uid evt =? "")%string; [exact Hc|].
    pose proof (get_user_consistent (_get_uid evt) today st Hc) as H.
    destruct (_get_user (_get_uid evt) today st). exact H.
  - unfold cmd_list. destruct (negb init); exact Hc.
  - intros _. repeat match goal with |- _ /\ _ => split end.
    + apply handler_consistent; [|exact Hc]. unfold cmd_charge.
      destruct (negb init); [constructor|apply handler_admin_op].
    + apply handler_consistent; [|exact Hc]. unfold cmd_deduct.
      destruct (negb init); [constructor|apply handler_admin_op].
    + apply handler_consistent; [apply handler_discount|exact Hc].
Qed.

Lemma schema_kept_witness :
  consistent Scenario.two_users = true
  /\ consistent
       (fst (run (cmd_charge true (mkEvent Scenario.admin "充值 10002 nan")
                    "2024-05-01") Scenario.two_users)) = true.
Proof.
  split; [reflexivity|].
  exact (proj1 (proj2 (proj2 (proj2 (proj2 (proj2 (proj2
           (schema_kept true (mkEvent Scenario.admin "充值 10002 nan")
              "2024-05-01" 0 Scenario.two_users eq_refl)))))) eq_refl)).
Defined.

(** ** Malformed admin commands *)

Lemma has_ascii_non_digit_isdigit (s : string) :
  has_ascii_non_digit s = true -> PyStr.isdigit s = false.
Proof.
  intros H.
  assert (Ha : PyStr.all_digits s = false).
  { induction s as [|c s IH]; [discriminate|]. simpl in *.
    apply orb_true_iff in H. destruct H as [H|H].
    - apply andb_true_iff in H. destruct H as [_ H].
      apply negb_true_iff in H. rewrite H. reflexivity.
    - rewrite (IH H). apply andb_false_r. }
  destruct s; [reflexivity|exact Ha].
Qed.

(** X22: the malformed admin commands that are rejected.  A credit, debit
    or set-discount command sent by an administrator with its three words
    is answered with a format error by a handler that has no locked
    section, so that no account is read or created and the table is left
    as it was, when the target has an ASCII character that is not a digit,
    when the amount, in the ASCII range, is not a number above zero, unless
    it is a NaN, and when the rate, in the ASCII range, is not a number in
    (0, 1]. *)
Theorem malformed_rejected (evt : event) (today : string)
    (cmd target arg : string) :
  is_admin (_get_uid evt) = true ->
  PyStr.split (message_str evt) = [cmd; target; arg] ->
  (has_ascii_non_digit target = true ->
     answers_unlocked (cmd_charge true evt today) QQFormatError
     /\ answers_unlocked (cmd_deduct true evt today) QQFormatError
     /\ answers_unlocked (cmd_discount true evt today) QQFormatError)
  /\ (PyStr.isdigit target = true -> PyStr.isascii arg = true ->
      not_positive_number arg = true ->
      (forall a, PyParse.float arg = Some a -> is_nan a = false) ->
      answers_unlocked (cmd_charge true evt today) AmountFormatError
      /\ answers_unlocked (cmd_deduct true evt today) AmountFormatError)
  /\ (PyStr.isdigit target = true -> PyStr.isascii arg = true ->
      rate_rejected arg = true ->
      answers_unlocked (cmd_discount true evt today) DiscountFormatError).
Proof.
  intros Ha Hs.
  assert (Hc : forall op, PyStr.isdigit target = false ->
                 _admin_op evt op today = Ret QQFormatError).
  { intros op Hd. unfold _admin_op. rewrite Ha, Hs. simpl negb. cbv iota.
    rewrite Hd. reflexivity. }
  assert (Hm : forall op, PyStr.isdigit target = true ->
                 amount_rejected arg = true ->
                 _admin_op evt op today = Ret AmountFormatError).
  { intros op Hd Hr. unfold _admin_op. rewrite Ha, Hs. simpl negb. cbv iota.
    rewrite Hd. simpl negb. cbv iota. unfold amount_rejected in Hr.
    destruct (PyParse.float arg) as [a|]; [rewrite Hr|]; reflexivity. }
  split; [|split].
  - intros Hd. apply has_ascii_non_digit_isdigit in Hd. split; [|split].
    + unfold cmd_charge. simpl negb. cbv iota. rewrite (Hc _ Hd).
      apply ret_answers_unlocked.
    + unfold cmd_deduct. simpl negb. cbv iota. rewrite (Hc _ Hd).
      apply ret_answers_unlocked.
    + unfold cmd_discount. simpl negb. cbv iota. rewrite Ha, Hs.
      simpl negb. cbv iota. rewrite Hd. apply ret_answers_unlocked.
  - intros Hd _ Hbad Hnum.
    assert (Hr : amount_rejected arg = true).
    { unfold amount_rejected, not_positive_number in *.
      destruct (PyParse.float arg) as [a|]; [|reflexivity].
      apply negb_true_iff in Hbad.
      apply (FloatOrder.leb_total 0 a eq_refl (Hnum a eq_refl) Hbad). }
    split.
    + unfold cmd_charge. simpl negb. cbv iota. rewrite (Hm _ Hd Hr).
      apply ret_answers_unlocked.
    + unfold cmd_deduct. simpl negb. cbv iota. rewrite (Hm _ Hd Hr).
      apply ret_answers_unlocked.
  - intros Hd _ Hr. unfold cmd_discount. simpl negb. cbv iota.
    rewrite Ha, Hs. simpl negb. cbv iota. rewrite Hd. simpl negb. cbv iota.
    unfold rate_rejected in Hr.
    destruct (parse_rate arg) as [a|]; [rewrite Hr|]; apply ret_answers_unlocked.
Qed.

Lemma malformed_rejected_witness :
  answers_unlocked
    (cmd_charge true (mkEvent Scenario.admin "充值 10x01 5") "2024-05-01")
    QQFormatError
  /\ answers_unlocked
       (cmd_deduct true (mkEvent Scenario.admin "扣款 10001 five") "2024-05-01")
       AmountFormatError
  /\ answers_unlocked
       (cmd_charge true (mkEvent Scenario.admin "充值 10001 -5") "2024-05-01")
       AmountFormatError
  /\ answers_unlocked
       (cmd_discount true (mkEvent Scenario.admin "折扣 10001 150%")
          "2024-05-01")
       DiscountFormatError
  /\ answers_unlocked
       (cmd_discount true (mkEvent Scenario.admin "折扣 10001 nan")
          "2024-05-01")
       DiscountFormatError.
Proof.
  split; [|split; [|split; [|split]]].
  - exact (proj1 (proj1 (malformed_rejected
                           (mkEvent Scenario.admin "充值 10x01 5") "2024-05-01"
                           "充值" "10x01" "5" eq_refl eq_refl) eq_refl)).
  - refine (proj2 (proj1 (proj2 (malformed_rejected
                           (mkEvent Scenario.admin "扣款 10001 five")
                           "2024-05-01" "扣款" "10001" "five" eq_refl eq_refl))
                     eq_refl eq_refl eq_refl _)).
    intros a H. discriminate H.
  - refine (proj1 (proj1 (proj2 (malformed_rejected
                           (mkEvent Scenario.admin "充值 10001 -5")
                           "2024-05-01" "充值" "10001" "-5" eq_refl eq_refl))
                     eq_refl eq_refl eq_refl _)).
    intros a H. injection H as <-. reflexivity.
  - exact (proj2 (proj2 (malformed_rejected
                           (mkEvent Scenario.admin "折扣 10001 150%")
                           "2024-05-01" "折扣" "10001" "150%" eq_refl eq_refl))
             eq_refl eq_refl eq_refl).
  - exact (proj2 (proj2 (malformed_rejected
                           (mkEvent Scenario.admin "折扣 10001 nan")
                           "2024-05-01" "折扣" "10001" "nan" eq_refl eq_refl))
             eq_refl eq_refl eq_refl).
Defined.
